(** * mcp-klipper-docs: the search engine and the config-section extractor

    A shallow embedding of [src/search.ts] (class [SearchEngine]),
    [src/errors.ts] ([handleError] and the error classes), the search part of
    [src/config.ts] and [extractConfigSection] of [src/server.ts].

    Conventions of the embedding.
    - A JavaScript string is a [string]; its code units are restricted to
      the range 0..255.
    - A JavaScript number that the code only compares, counts or adds up is
      a [Z] (limits, word counts, lengths, timestamps) or a [Q] (scores).
      [NaN] is the [None] of an [option].
    - A [Map] is an association list in insertion order.
    - A call that may throw returns an [Outcome]; [try]/[catch] is a match
      on it.  The engine object is a record that [buildIndex] passes on.
    - lunr is an npm dependency: it is the interface [lunr.Lib], and every
      definition of the engine takes an implementation of it.
    - Logging and the wall-clock [searchTime] are left out. *)

From Stdlib Require Import List String Ascii Bool ZArith QArith Lia.
From Stdlib Require Import Sorted Permutation DecimalString.
Import ListNotations.

Local Close Scope Q_scope.
Local Open Scope string_scope.
Local Open Scope list_scope.

Set Implicit Arguments.

(* ================================================================== *)
(** ** JavaScript prelude *)

Module Js.

(** The result of a call: a value, or a thrown one. *)
Inductive Outcome (E A : Type) : Type :=
| Returns (a : A)
| Throws (e : E).
Arguments Returns {E A} a.
Arguments Throws {E A} e.

Definition bind {E A B} (m : Outcome E A) (f : A -> Outcome E B) : Outcome E B :=
  match m with
  | Returns a => f a
  | Throws e => Throws e
  end.

(** [try { m } catch (error) { throw h(error) }] *)
Definition try_catch_rethrow {E E' A} (m : Outcome E A) (h : E -> E') : Outcome E' A :=
  match m with
  | Returns a => Returns a
  | Throws e => Throws (h e)
  end.

(** [Array.prototype.map] with a callback that may throw: the first throw
    aborts the whole call. *)
Fixpoint map_throwing {E A B} (f : A -> Outcome E B) (l : list A) : Outcome E (list B) :=
  match l with
  | [] => Returns []
  | x :: l' =>
      match f x with
      | Throws e => Throws e
      | Returns y =>
          match map_throwing f l' with
          | Throws e => Throws e
          | Returns ys => Returns (y :: ys)
          end
      end
  end.

(** Truthiness of a string and of a number. *)
Definition truthy_string (s : string) : bool :=
  match s with EmptyString => false | _ => true end.

Definition truthy_Z (n : Z) : bool := negb (n =? 0)%Z.

(** [a || b] where [a] is an optional number ([undefined] is falsy). *)
Definition or_Z (a : option Z) (b : Z) : Z :=
  match a with
  | Some n => if truthy_Z n then n else b
  | None => b
  end.

Definition or_Q (a : option Q) (b : Q) : Q :=
  match a with
  | Some q => if Qeq_bool q 0 then b else q
  | None => b
  end.

(** [arr.slice(0, end)] for an integer [end]: a negative [end] counts
    from the end of the array. *)
Definition slice0 {A} (l : list A) (e : Z) : list A :=
  if (e <? 0)%Z
  then firstn (Z.to_nat (Z.max 0 (Z.of_nat (List.length l) + e))) l
  else firstn (Z.to_nat e) l.

(** *** [Map<string, V>] : insertion-ordered, one entry per key *)
Definition Map (V : Type) := list (string * V).

Fixpoint get {V} (m : Map V) (k : string) : option V :=
  match m with
  | [] => None
  | (k', v) :: m' => if String.eqb k' k then Some v else get m' k
  end.

Fixpoint set {V} (m : Map V) (k : string) (v : V) : Map V :=
  match m with
  | [] => [(k, v)]
  | (k', v') :: m' =>
      if String.eqb k' k then (k', v) :: m' else (k', v') :: set m' k v
  end.

Definition values {V} (m : Map V) : list V := List.map snd m.
Definition size {V} (m : Map V) : Z := Z.of_nat (List.length m).

(** *** [Set<string>] : insertion-ordered *)
Definition mem (x : string) (s : list string) : bool :=
  existsb (String.eqb x) s.

Definition add (s : list string) (x : string) : list string :=
  if mem x s then s else s ++ [x].

(** *** [Array.prototype.sort()] on strings, default comparator: ascending
    by code units.  The order is total and antisymmetric, so every sorting
    algorithm returns the same array; this is insertion sort. *)
Fixpoint insert_sorted (x : string) (l : list string) : list string :=
  match l with
  | [] => [x]
  | y :: l' => if String.leb x y then x :: l else y :: insert_sorted x l'
  end.

Definition sort (l : list string) : list string :=
  fold_right insert_sorted [] l.

(** [arr.join(sep)] *)
Definition join (sep : string) (l : list string) : string := String.concat sep l.

End Js.

Import Js.

(* ================================================================== *)
(** ** types.ts *)

Definition Date := Z.

Inductive Difficulty := beginner | intermediate | advanced.

Record DocumentHeading := {
  level : Z;
  text : string;
  anchor : string
}.

Record DocumentMetadata := {
  wordCount : Z;
  readingTime : Z;
  difficulty : Difficulty;
  tags : list string;
  relatedDocuments : list string;
  headings : list DocumentHeading
}.

Record ParsedDocument := {
  id : string;
  title : string;
  content : string;
  section : string;
  subsection : option string;
  filePath : string;
  lastModified : Date;
  metadata : DocumentMetadata
}.

Record SearchFilters := {
  f_section : option string
}.

Record SearchMetadata := {
  query : string;
  totalResults : Z;
  filters : option SearchFilters
}.

Record SearchResult := {
  document : ParsedDocument;
  score : Q;
  snippet : string;
  highlights : list string;
  searchMetadata : SearchMetadata
}.

Record SearchOptions := {
  o_limit : option Z;
  o_section : option string;
  o_includeContent : option bool
}.

(** [options = {}] *)
Definition no_options : SearchOptions :=
  {| o_limit := None; o_section := None; o_includeContent := None |}.

Record SearchConfig := {
  maxResults : Z;
  snippetLength : Z;
  minScore : Q
}.

Inductive ErrorType :=
| VALIDATION | PARSING | SEARCH | GIT | NETWORK | SYSTEM | NOT_FOUND.

Record IndexStats := {
  totalDocuments : Z;
  totalWords : Z;
  lastIndexed_stat : Date;
  sections : list string
}.

(* ================================================================== *)
(** ** errors.ts *)

Record KlipperError := {
  name : string;
  message : string;
  type : ErrorType;
  context : string;
  details : option (list (string * string))
}.

(** [new KlipperError(message, type, context, details)] *)
Definition new_KlipperError (msg : string) (ty : ErrorType) (ctx : string)
    (det : option (list (string * string))) : KlipperError :=
  {| name := "KlipperError"; message := msg; type := ty; context := ctx; details := det |}.

(** [new SearchError(message, context)] *)
Definition new_SearchError (msg ctx : string) : KlipperError :=
  {| name := "SearchError"; message := msg; type := SEARCH; context := ctx; details := None |}.

(** What a [catch] clause can receive. *)
Inductive Thrown :=
| OfKlipperError (e : KlipperError)            (* error instanceof KlipperError *)
| OfError (ename emessage : string)            (* any other Error *)
| OfValue (str : string).                      (* anything else, by its String(error) *)

Definition handleError (error : Thrown) (ctx : string) : KlipperError :=
  match error with
  | OfKlipperError e => e
  | OfError ename emessage =>
      new_KlipperError emessage SYSTEM ctx (Some [("originalError", ename)])
  | OfValue str =>
      new_KlipperError str SYSTEM ctx None
  end.

(** The message a thrown value carries: [error.message], or [String(error)]. *)
Definition thrown_message (error : Thrown) : string :=
  match error with
  | OfKlipperError e => message e
  | OfError _ emessage => emessage
  | OfValue str => str
  end.

(* ================================================================== *)
(** ** config.ts, the [search] part *)

Definition DEFAULT_CONFIG : SearchConfig :=
  {| maxResults := 10; snippetLength := 200; minScore := (1 # 10)%Q |}.

(** The three environment variables after [parseInt] / [parseFloat]. *)
Record Env := {
  SEARCH_MAX_RESULTS : option Z;
  SEARCH_SNIPPET_LENGTH : option Z;
  SEARCH_MIN_SCORE : option Q
}.

Definition getConfig (env : Env) : SearchConfig :=
  {| maxResults := or_Z (SEARCH_MAX_RESULTS env) (maxResults DEFAULT_CONFIG);
     snippetLength := or_Z (SEARCH_SNIPPET_LENGTH env) (snippetLength DEFAULT_CONFIG);
     minScore := or_Q (SEARCH_MIN_SCORE env) (minScore DEFAULT_CONFIG) |}.

Definition empty_env : Env :=
  {| SEARCH_MAX_RESULTS := None; SEARCH_SNIPPET_LENGTH := None; SEARCH_MIN_SCORE := None |}.

(* ================================================================== *)
(** ** String methods used by the engine *)

Module Str.

Definition code (c : ascii) : N := N_of_ascii c.

(** [\s] and the characters [trim] removes, within 0..255. *)
Definition is_space (c : ascii) : bool :=
  let n := code c in
  ((9 <=? n) && (n <=? 13) || (n =? 32) || (n =? 160))%N.

(** One code unit of [toLowerCase]. *)
Definition lower (c : ascii) : ascii :=
  let n := code c in
  if ((65 <=? n) && (n <=? 90) || (192 <=? n) && (n <=? 222) && negb (n =? 215))%N
  then ascii_of_N (n + 32) else c.

(** [s.toLowerCase()] on the code units 0..255, unit by unit.  Beyond them
    JavaScript has lower-case forms of another length (U+0130 becomes two
    units), so where the source reads the length of a lower-cased text the
    statements take that length as it is, never as the length of the
    text. *)
Fixpoint toLowerCase (s : string) : string :=
  match s with
  | EmptyString => EmptyString
  | String c s' => String (lower c) (toLowerCase s')
  end.

Definition len (s : string) : Z := Z.of_nat (String.length s).

(** [s.substring(a, b)]: both ends clamped to [0, length], swapped when
    [a > b]. *)
Definition substring (s : string) (a b : Z) : string :=
  let clamp x := Z.max 0 (Z.min x (len s)) in
  let lo := Z.min (clamp a) (clamp b) in
  let hi := Z.max (clamp a) (clamp b) in
  String.substring (Z.to_nat lo) (Z.to_nat (hi - lo)) s.

(** [s.substring(a)] *)
Definition substring_from (s : string) (a : Z) : string := substring s a (len s).

Definition includes (s t : string) : bool :=
  match String.index 0 t s with Some _ => true | None => false end.

(** [s.indexOf(' ')], [-1] when absent. *)
Fixpoint indexOf_char (c : ascii) (s : string) : Z :=
  match s with
  | EmptyString => (-1)%Z
  | String a s' =>
      if Ascii.eqb a c then 0%Z
      else let r := indexOf_char c s' in
           if (r <? 0)%Z then (-1)%Z else (r + 1)%Z
  end.

(** [s.lastIndexOf(' ')], [-1] when absent. *)
Fixpoint lastIndexOf_char (c : ascii) (s : string) : Z :=
  match s with
  | EmptyString => (-1)%Z
  | String a s' =>
      let r := lastIndexOf_char c s' in
      if (0 <=? r)%Z then (r + 1)%Z
      else if Ascii.eqb a c then 0%Z else (-1)%Z
  end.

Fixpoint trimStart (s : string) : string :=
  match s with
  | String c s' => if is_space c then trimStart s' else s
  | EmptyString => EmptyString
  end.

Fixpoint trimEnd (s : string) : string :=
  match s with
  | EmptyString => EmptyString
  | String c s' =>
      match trimEnd s' with
      | EmptyString => if is_space c then EmptyString else String c EmptyString
      | t => String c t
      end
  end.

Definition trim (s : string) : string := trimEnd (trimStart s).

(** [s.split(/\s+/)]: the pieces between the maximal runs of white space;
    a leading or trailing run leaves an empty piece, and the empty string
    splits into one empty piece.  [cur] is the piece being read and
    [in_run] tells that the previous character was white space. *)
Fixpoint split_ws_aux (s : string) (cur : string) (in_run : bool) : list string :=
  match s with
  | EmptyString => [cur]
  | String c s' =>
      if is_space c
      then if in_run then split_ws_aux s' cur true
           else cur :: split_ws_aux s' EmptyString true
      else split_ws_aux s' (cur ++ String c EmptyString) false
  end.

Definition split_ws (s : string) : list string := split_ws_aux s EmptyString false.

(** [s.replace(/c/g, d)] for single characters. *)
Fixpoint replace_char (c d : ascii) (s : string) : string :=
  match s with
  | EmptyString => EmptyString
  | String a s' => String (if Ascii.eqb a c then d else a) (replace_char c d s')
  end.

End Str.

(* ================================================================== *)
(** ** lunr, the search library the engine is built on *)

Module lunr.

(** The object handed to [this.add]. *)
Record Document := {
  d_id : string;
  d_title : string;
  d_content : string;
  d_section : string;
  d_tags : string
}.

(** The builder that the configuration function of [lunr(function () {...})]
    fills in through [this]. *)
Record Builder := {
  _ref : string;
  _fields : list (string * option Z);          (* name, boost attribute *)
  metadataWhitelist : list string;
  _documents : list Document
}.

Definition new_Builder : Builder :=
  {| _ref := "id"; _fields := []; metadataWhitelist := []; _documents := [] |}.

Definition ref (r : string) (b : Builder) : Builder :=
  {| _ref := r; _fields := _fields b;
     metadataWhitelist := metadataWhitelist b; _documents := _documents b |}.

Definition field (fieldName : string) (boost : option Z) (b : Builder) : Builder :=
  {| _ref := _ref b; _fields := _fields b ++ [(fieldName, boost)];
     metadataWhitelist := metadataWhitelist b; _documents := _documents b |}.

Definition set_metadataWhitelist (w : list string) (b : Builder) : Builder :=
  {| _ref := _ref b; _fields := _fields b;
     metadataWhitelist := w; _documents := _documents b |}.

Definition add (d : Document) (b : Builder) : Builder :=
  {| _ref := _ref b; _fields := _fields b;
     metadataWhitelist := metadataWhitelist b; _documents := _documents b ++ [d] |}.

(** The boost of a field: 1 when the attribute is not given. *)
Definition boost_of (f : string * option Z) : Z :=
  match snd f with Some w => w | None => 1%Z end.

(** [lunr.Index.Result]; [matchData] is [Object.keys(matchData.metadata)]. *)
Record Result := {
  result_ref : string;
  result_score : Q;
  matchData : list string
}.

(** The two entry points the engine calls.  Both may throw: [search]
    parses the query string and rejects some ([lunr.QueryParseError]). *)
Class Lib := {
  Index : Type;
  build : Builder -> Outcome Thrown Index;
  search : Index -> string -> Outcome Thrown (list Result)
}.

End lunr.

(* ================================================================== *)
(** ** search.ts: class SearchEngine *)

Record SearchEngine {L : lunr.Lib} := {
  index : option lunr.Index;
  docs : Map ParsedDocument;
  lastIndexed : option Date
}.
Arguments SearchEngine L : clear implicits.

Section Engine.

Context {L : lunr.Lib}.
Variable config : SearchConfig.

(** The fields of a fresh [new SearchEngine()]. *)
Definition new_SearchEngine : SearchEngine L :=
  {| index := None; docs := []; lastIndexed := None |}.

(** What the configuration function passed to [lunr] sets up. *)
Definition index_builder (docsArray : list ParsedDocument) : lunr.Builder :=
  let b := lunr.ref "id" lunr.new_Builder in
  let b := lunr.field "title" (Some 10%Z) b in
  let b := lunr.field "content" None b in
  let b := lunr.field "section" (Some 5%Z) b in
  let b := lunr.field "tags" (Some 3%Z) b in
  let b := lunr.set_metadataWhitelist ["position"] b in
  fold_left
    (fun b doc =>
       lunr.add {| lunr.d_id := id doc;
                   lunr.d_title := title doc;
                   lunr.d_content := content doc;
                   lunr.d_section := section doc;
                   lunr.d_tags := join " " (tags (metadata doc)) |} b)
    docsArray b.

(** [buildIndex(documents)]; [now] is the [new Date()] read on success. *)
Definition buildIndex (now : Date) (st : SearchEngine L) (documents : Map ParsedDocument)
  : SearchEngine L * Outcome KlipperError unit :=
  let st1 := {| index := index st; docs := documents; lastIndexed := lastIndexed st |} in
  let docsArray := values documents in
  match lunr.build (index_builder docsArray) with
  | Returns idx =>
      ({| index := Some idx; docs := docs st1; lastIndexed := Some now |}, Returns tt)
  | Throws error =>
      (st1, Throws (handleError error "SearchEngine.buildIndex"))
  end.

(** One step of the window loop of [generateSnippet]. *)
Definition window_score (lowerContent : string) (queryTerms : list string) (i : Z) : Z :=
  let window := Str.substring lowerContent i (i + snippetLength config) in
  fold_left (fun score term => if Str.includes window term then (score + 1)%Z else score)
            queryTerms 0%Z.

(** [for (let i = 0; i < lowerContent.length - snippetLength; i += 50)]:
    the loop makes fewer than [lowerContent.length - snippetLength + 1]
    rounds, which is the [fuel] it is given; returns [bestPosition]. *)
Fixpoint best_window (fuel : nat) (lowerContent : string) (queryTerms : list string)
    (i bestPosition bestScore : Z) : Z :=
  match fuel with
  | O => bestPosition
  | S fuel' =>
      if (i <? Str.len lowerContent - snippetLength config)%Z
      then let score := window_score lowerContent queryTerms i in
           if (bestScore <? score)%Z
           then best_window fuel' lowerContent queryTerms (i + 50) i score
           else best_window fuel' lowerContent queryTerms (i + 50) bestPosition bestScore
      else bestPosition
  end.

Definition generateSnippet (content query : string) : string :=
  let snippetLength := snippetLength config in
  let queryTerms := Str.split_ws (Str.toLowerCase query) in
  let lowerContent := Str.toLowerCase content in
  let rounds := S (Z.to_nat (Str.len lowerContent - snippetLength)) in
  let bestPosition := best_window rounds lowerContent queryTerms 0 0 0 in
  let snippet := Str.substring content bestPosition (bestPosition + snippetLength) in
  let snippet :=
    if (0 <? bestPosition)%Z
    then let firstSpace := Str.indexOf_char " " snippet in
         if ((0 <? firstSpace) && (firstSpace <? 20))%Z
         then ("..." ++ Str.substring_from snippet (firstSpace + 1))%string
         else snippet
    else snippet in
  let snippet :=
    if (bestPosition + snippetLength <? Str.len content)%Z
    then let lastSpace := Str.lastIndexOf_char " " snippet in
         if (snippetLength - 20 <? lastSpace)%Z
         then (Str.substring snippet 0 lastSpace ++ "...")%string
         else snippet
    else snippet in
  Str.trim snippet.

Definition extractHighlights (result : lunr.Result) (query : string) : list string :=
  let queryTerms := Str.split_ws (Str.toLowerCase query) in
  filter (fun term =>
            existsb (fun qt => Str.includes term qt || Str.includes qt term) queryTerms)
         (lunr.matchData result).

(** [options.section] is used only when it is a non-empty string. *)
Definition section_filter (options : SearchOptions) : option string :=
  match o_section options with
  | Some s => if truthy_string s then Some s else None
  | None => None
  end.

(** [doc?.section === options.section] *)
Definition in_section (docs : Map ParsedDocument) (s : string) (result : lunr.Result) : bool :=
  match get docs (lunr.result_ref result) with
  | Some doc => String.eqb (section doc) s
  | None => false
  end.

Definition above_minScore (result : lunr.Result) : bool :=
  Qle_bool (minScore config) (lunr.result_score result).

(** The candidates after the section filter and the minimum-score filter. *)
Definition filtered (docs : Map ParsedDocument) (options : SearchOptions)
    (results : list lunr.Result) : list lunr.Result :=
  let results :=
    match section_filter options with
    | Some s => filter (in_section docs s) results
    | None => results
    end in
  filter above_minScore results.

(** [const limit = options.limit || config.search.maxResults] *)
Definition effective_limit (options : SearchOptions) : Z :=
  or_Z (o_limit options) (maxResults config).

(** The callback of [results.map]; [results] is the truncated array. *)
Definition to_SearchResult (docs : Map ParsedDocument) (query : string)
    (options : SearchOptions) (results : list lunr.Result) (result : lunr.Result)
  : Outcome Thrown SearchResult :=
  match get docs (lunr.result_ref result) with
  | None =>
      Throws (OfKlipperError
                (new_SearchError ("Document not found: " ++ lunr.result_ref result)%string
                                 "SearchEngine.search"))
  | Some doc =>
      Returns {| document := doc;
                 score := lunr.result_score result;
                 snippet := generateSnippet (content doc) query;
                 highlights := extractHighlights result query;
                 searchMetadata :=
                   {| query := query;
                      totalResults := Z.of_nat (List.length results);
                      filters :=
                        match section_filter options with
                        | Some s => Some {| f_section := Some s |}
                        | None => None
                        end |} |}
  end.

(** The body of the [try] block of [search]. *)
Definition search_body (st : SearchEngine L) (idx : lunr.Index) (query : string)
    (options : SearchOptions) : Outcome Thrown (list SearchResult) :=
  let limit := effective_limit options in
  bind (lunr.search idx query) (fun results =>
    let results := filtered (docs st) options results in
    let results := slice0 results limit in
    map_throwing (to_SearchResult (docs st) query options results) results).

Definition search (st : SearchEngine L) (query : string) (options : SearchOptions)
  : Outcome KlipperError (list SearchResult) :=
  match index st with
  | None =>
      Throws (new_SearchError "Search index not initialized" "SearchEngine.search")
  | Some idx =>
      try_catch_rethrow (search_body st idx query options)
                        (fun error => handleError error "SearchEngine.search")
  end.

Definition getDocument (st : SearchEngine L) (i : string) : option ParsedDocument :=
  get (docs st) i.

Definition getAllDocuments (st : SearchEngine L) : list ParsedDocument :=
  values (docs st).

Definition getDocumentsBySection (st : SearchEngine L) (s : string) : list ParsedDocument :=
  filter (fun doc => String.eqb (section doc) s) (getAllDocuments st).

Definition getSections (st : SearchEngine L) : list string :=
  let sections := fold_left (fun sections doc => add sections (section doc))
                            (values (docs st)) [] in
  sort sections.

(** [now] is the [new Date()] used when the index was never built. *)
Definition getStats (now : Date) (st : SearchEngine L) : IndexStats :=
  let docs := getAllDocuments st in
  let totalWords := fold_left (fun sum doc => (sum + wordCount (metadata doc))%Z) docs 0%Z in
  {| totalDocuments := Z.of_nat (List.length docs);
     totalWords := totalWords;
     lastIndexed_stat := match lastIndexed st with Some d => d | None => now end;
     sections := getSections st |}.

Definition isReady (st : SearchEngine L) : bool :=
  match index st with Some _ => true | None => false end.

End Engine.

(* ================================================================== *)
(** ** A stand-in for lunr, for the examples

    It keeps the builder as its index and reads a query as lunr does in
    two respects: a clause [field:term] that names a field the index does
    not have is rejected with lunr's [QueryParseError] and its message, and
    a query without clauses reaches every document with score 0.  Otherwise
    it is much simpler than lunr: it matches whole lower-cased words, scores
    a document by the boosts of the fields a word occurs in, and returns the
    hits by descending score.  It holds [capacity] documents and throws on
    more. *)

Module Sample.

Definition field_text (f : string) (d : lunr.Document) : string :=
  if String.eqb f "title" then lunr.d_title d
  else if String.eqb f "content" then lunr.d_content d
  else if String.eqb f "section" then lunr.d_section d
  else if String.eqb f "tags" then lunr.d_tags d
  else "".

Definition words (s : string) : list string :=
  filter truthy_string (Str.split_ws (Str.toLowerCase s)).

(** [field:term] or [term] *)
Fixpoint clause_parts (c : string) (seen : string) : option string * string :=
  match c with
  | EmptyString => (None, seen)
  | String a c' =>
      if Ascii.eqb a ":" then (Some seen, c')
      else clause_parts c' (seen ++ String a EmptyString)
  end.

Definition known_field (b : lunr.Builder) (f : string) : bool :=
  existsb (fun x => String.eqb (fst x) f) (lunr._fields b).

Definition unknown_field (b : lunr.Builder) (c : string) : option string :=
  match fst (clause_parts c "") with
  | Some f => if known_field b f then None else Some f
  | None => None
  end.

Fixpoint first_unknown_field (b : lunr.Builder) (cs : list string) : option string :=
  match cs with
  | [] => None
  | c :: cs' =>
      match unknown_field b c with
      | Some f => Some f
      | None => first_unknown_field b cs'
      end
  end.

Definition clause_score (b : lunr.Builder) (d : lunr.Document) (c : string) : Z :=
  let (fo, term) := clause_parts c "" in
  fold_left
    (fun acc f =>
       let wanted := match fo with Some g => String.eqb g (fst f) | None => true end in
       if wanted && mem term (words (field_text (fst f) d))
       then (acc + lunr.boost_of f)%Z else acc)
    (lunr._fields b) 0%Z.

Definition doc_score (b : lunr.Builder) (cs : list string) (d : lunr.Document) : Z :=
  fold_left (fun acc c => (acc + clause_score b d c)%Z) cs 0%Z.

Fixpoint insert_by_score (r : lunr.Result) (l : list lunr.Result) : list lunr.Result :=
  match l with
  | [] => [r]
  | r' :: l' =>
      if Qle_bool (lunr.result_score r) (lunr.result_score r')
      then r' :: insert_by_score r l'
      else r :: l
  end.

Definition by_score (l : list lunr.Result) : list lunr.Result :=
  fold_right insert_by_score [] l.

Definition run_query (b : lunr.Builder) (q : string) : Outcome Thrown (list lunr.Result) :=
  let cs := words q in
  match first_unknown_field b cs with
  | Some f =>
      Throws (OfError "QueryParseError"
                ("unrecognised field '" ++ f ++ "', possible fields: "
                 ++ join ", " (List.map (fun x => "'" ++ fst x ++ "'") (lunr._fields b)))%string)
  | None =>
      let hit d :=
        {| lunr.result_ref := lunr.d_id d;
           lunr.result_score := inject_Z (doc_score b cs d);
           lunr.matchData :=
             filter (fun c => (0 <? clause_score b d c)%Z) cs |} in
      let all := List.map hit (lunr._documents b) in
      match cs with
      | [] => Returns all
      | _ => Returns (by_score (filter (fun r => Qle_bool 1 (lunr.result_score r)) all))
      end
  end.

Definition lib (capacity : nat) : lunr.Lib :=
  {| lunr.Index := lunr.Builder;
     lunr.build := fun b =>
       if (capacity <? List.length (lunr._documents b))%nat
       then Throws (OfError "RangeError" "Invalid array length")
       else Returns b;
     lunr.search := run_query |}.

(** The three documents of the engine's test suite. *)
Definition mock (i t c s : string) : ParsedDocument :=
  let n := Z.of_nat (List.length (Str.split_ws c)) in
  {| id := i; title := t; content := c; section := s; subsection := None;
     filePath := (s ++ "/" ++ i ++ ".md")%string; lastModified := 0%Z;
     metadata := {| wordCount := n; readingTime := ((n + 199) / 200)%Z;
                    difficulty := intermediate; tags := [];
                    relatedDocuments := []; headings := [] |} |}.

Definition extruder : ParsedDocument :=
  mock "config-reference/extruder" "Extruder Configuration"
       "The extruder section is used to configure the extruder heater and stepper motor. This includes settings for rotation_distance, nozzle_diameter, and filament_diameter."
       "config-reference".

Definition bed_mesh : ParsedDocument :=
  mock "config-reference/bed-mesh" "Bed Mesh Configuration"
       "The bed_mesh section enables bed leveling mesh support. Configure probe_count, mesh_min, mesh_max for automatic bed leveling."
       "config-reference".

Definition bed_leveling : ParsedDocument :=
  mock "g-codes/bed-leveling" "Bed Leveling G-Codes"
       "G-code commands for bed leveling include BED_MESH_CALIBRATE, BED_MESH_PROFILE, and BED_MESH_OUTPUT."
       "g-codes".

Definition mockDocs : Map ParsedDocument :=
  set (set (set [] (id extruder) extruder) (id bed_mesh) bed_mesh)
      (id bed_leveling) bed_leveling.

(** The engine after [buildIndex(mockDocs)] at time 1000, on a library
    of capacity 3. *)
Definition engine : SearchEngine (lib 3) :=
  fst (buildIndex (L := lib 3) 1000%Z new_SearchEngine mockDocs).

Definition limit_to (n : Z) : SearchOptions :=
  {| o_limit := Some n; o_section := None; o_includeContent := None |}.

(** The built index and what the stand-in finds in it. *)
Definition built : lunr.Builder := index_builder (values mockDocs).

Definition hits (q : string) : list lunr.Result :=
  match run_query built q with
  | Returns l => l
  | Throws _ => []
  end.

(** A document of [n] words in section [s]. *)
Definition counted (i s : string) (n : Z) : ParsedDocument :=
  {| id := i; title := i; content := ""; section := s; subsection := None;
     filePath := i; lastModified := 0%Z;
     metadata := {| wordCount := n; readingTime := 1%Z; difficulty := beginner;
                    tags := []; relatedDocuments := []; headings := [] |} |}.

(** Word counts 10, 20, 30 in the sections a, a, b. *)
Definition abDocs : Map ParsedDocument :=
  set (set (set [] "one" (counted "one" "a" 10)) "two" (counted "two" "a" 20))
      "three" (counted "three" "b" 30).

End Sample.

(* ================================================================== *)
(** ** Regular expressions, as [RegExp.prototype.exec] runs them

    A backtracking matcher in continuation-passing style: the continuation
    is the rest of the pattern, alternatives are tried in the order the
    engine tries them (left branch first, greedy longest first, lazy
    shortest first), and [exec] tries every start position from the left.
    Only the constructs of the three patterns of [extractConfigSection] are
    here; every [*] of those patterns is over a character class. *)

Module Regex.

Inductive regex :=
| Eps                              (* the empty pattern *)
| Chr (p : ascii -> bool)          (* one character: a literal, a class, [\s] *)
| Cat (r1 r2 : regex)              (* r1r2 *)
| Alt (r1 r2 : regex)              (* r1|r2 *)
| Star (p : ascii -> bool)         (* [p]*  *)
| StarLazy (p : ascii -> bool)     (* [p]*? *)
| Group (n : nat) (r : regex)      (* the n-th capturing group *)
| Lookahead (r : regex)            (* (?=r) *)
| EndOfInput.                      (* $, no m flag *)

Definition captures := list (nat * string).
Definition cont := string -> captures -> option (string * captures).

Fixpoint greedy (p : ascii -> bool) (s : string)
    (k : string -> option (string * captures)) : option (string * captures) :=
  match s with
  | String a s' =>
      if p a
      then match greedy p s' k with
           | Some r => Some r
           | None => k s
           end
      else k s
  | EmptyString => k s
  end.

Fixpoint lazy (p : ascii -> bool) (s : string)
    (k : string -> option (string * captures)) : option (string * captures) :=
  match k s with
  | Some r => Some r
  | None =>
      match s with
      | String a s' => if p a then lazy p s' k else None
      | EmptyString => None
      end
  end.

(** The text consumed between the input [s] and its suffix [s']. *)
Definition taken (s s' : string) : string :=
  String.substring 0 (String.length s - String.length s') s.

Definition set_group (n : nat) (v : string) (c : captures) : captures :=
  (n, v) :: filter (fun x => negb (Nat.eqb (fst x) n)) c.

(** The continuation at the end of the pattern. *)
Definition accept : cont := fun s' c' => Some (s', c').

Fixpoint run (r : regex) (s : string) (c : captures) (k : cont)
  : option (string * captures) :=
  match r with
  | Eps => k s c
  | Chr p =>
      match s with
      | String a s' => if p a then k s' c else None
      | EmptyString => None
      end
  | Cat r1 r2 => run r1 s c (fun s' c' => run r2 s' c' k)
  | Alt r1 r2 =>
      match run r1 s c k with
      | Some x => Some x
      | None => run r2 s c k
      end
  | Star p => greedy p s (fun s' => k s' c)
  | StarLazy p => lazy p s (fun s' => k s' c)
  | Group n r1 => run r1 s c (fun s' c' => k s' (set_group n (taken s s') c'))
  | Lookahead r1 =>
      match run r1 s c accept with
      | Some (_, c') => k s c'
      | None => None
      end
  | EndOfInput =>
      match s with
      | EmptyString => k s c
      | String _ _ => None
      end
  end.

(** The match object: [index], [m[0]] and the groups. *)
Record Match := {
  m_index : Z;
  m_0 : string;
  m_groups : captures
}.

Fixpoint exec_from (r : regex) (s : string) (i : Z) : option Match :=
  match run r s [] accept with
  | Some (s', c) => Some {| m_index := i; m_0 := taken s s'; m_groups := c |}
  | None =>
      match s with
      | EmptyString => None
      | String _ s' => exec_from r s' (i + 1)%Z
      end
  end.

Definition exec (r : regex) (s : string) : option Match := exec_from r s 0%Z.

(** [m[n]] *)
Fixpoint lookup (n : nat) (c : captures) : string :=
  match c with
  | [] => EmptyString
  | (n', v) :: c' => if Nat.eqb n' n then v else lookup n c'
  end.

Definition group (m : Match) (n : nat) : string := lookup n (m_groups m).

(** What the [i] flag compares: the upper-case form of a code unit. *)
Definition canon (a : ascii) : ascii :=
  let n := Str.code a in
  if ((97 <=? n) && (n <=? 122) || (224 <=? n) && (n <=? 254) && negb (n =? 247))%N
  then ascii_of_N (n - 32) else a.

(** A literal character, without and with the [i] flag. *)
Definition just (x : ascii) : ascii -> bool := fun a => Ascii.eqb a x.
Definition just_i (x : ascii) : ascii -> bool := fun a => Ascii.eqb (canon a) (canon x).
(** [[^x]] *)
Definition except (x : ascii) : ascii -> bool := fun a => negb (Ascii.eqb a x).
(** [[\s\S]] *)
Definition any : ascii -> bool := fun _ => true.
(** [[a-z]] with the [i] flag *)
Definition letter_i : ascii -> bool :=
  fun a => let n := Str.code (canon a) in ((65 <=? n) && (n <=? 90))%N.

(** A literal string followed by [r]. *)
Fixpoint lit_then (f : ascii -> ascii -> bool) (l : string) (r : regex) : regex :=
  match l with
  | EmptyString => r
  | String x l' => Cat (Chr (f x)) (lit_then f l' r)
  end.

End Regex.

(* ================================================================== *)
(** ** server.ts: extractConfigSection *)

Module Server.

Import Regex.

Definition nl : ascii := "010"%char.
Definition NL : string := String nl EmptyString.

Notation "r1 ;; r2" := (Cat r1 r2) (at level 61, right associativity).

(** Literal text with the [i] flag, then [r]. *)
Definition lit_i (l : string) (r : regex) : regex := lit_then just_i l r.
(** Literal text without it. *)
Definition lit (l : string) (r : regex) : regex := lit_then just l r.

(** [(?=\n###\s|\n##\s|$)] *)
Definition headerEnd : regex :=
  Lookahead (Alt (Chr (just_i nl) ;; lit_i "###" (Chr Str.is_space))
            (Alt (Chr (just_i nl) ;; lit_i "##" (Chr Str.is_space))
                 EndOfInput)).

(** [(###\s*\[VARIANT[^\]]*\][^\n]*\n)]; [escapeRegex] makes every
    character of the variant a literal one. *)
Definition headerLine (variant : string) : regex :=
  lit_i "###" (Star Str.is_space ;; Chr (just_i "[") ;;
    lit_i variant (Star (except "]") ;; Chr (just_i "]") ;; Star (except nl) ;; Chr (just_i nl))).

(** [(###\s*\[VARIANT[^\]]*\][^\n]*\n)([\s\S]*?)(?=\n###\s|\n##\s|$)], flag [i] *)
Definition headerPattern (variant : string) : regex :=
  Group 1 (headerLine variant) ;; Group 2 (StarLazy any) ;; headerEnd.

(** [(\[VARIANT[^\]]*\]\s*\n)([\s\S]*?)(?=\n\[[a-z]|\n###|\n##|$)], flag [i] *)
Definition bracketPattern (variant : string) : regex :=
  Group 1 (Chr (just_i "[") ;;
           lit_i variant (Star (except "]") ;; Chr (just_i "]") ;;
                          Star Str.is_space ;; Chr (just_i nl))) ;;
  Group 2 (StarLazy any) ;;
  Lookahead (Alt (Chr (just_i nl) ;; Chr (just_i "[") ;; Chr letter_i)
            (Alt (Chr (just_i nl) ;; lit_i "###" Eps)
            (Alt (Chr (just_i nl) ;; lit_i "##" Eps)
                 EndOfInput))).

(** [/\n(###[^\n]+)\n[^#]*$/] *)
Definition sectionHeaderPattern : regex :=
  Chr (just nl) ;;
  Group 1 (lit "###" (Chr (except nl) ;; Star (except nl))) ;;
  Chr (just nl) ;; Star (except "#") ;; EndOfInput.

(** The body of the loop over the variants; [None] goes on to the next. *)
Definition try_variant (content variant : string) : option string :=
  let found :=
    match exec (headerPattern variant) content with
    | Some m =>
        if truthy_string (group m 1) && truthy_string (group m 2)
        then Some (group m 1 ++ group m 2)%string
        else None
    | None => None
    end in
  match found with
  | Some r => Some r
  | None =>
      match exec (bracketPattern variant) content with
      | Some m =>
          let matchIndex := m_index m in
          let beforeContent := Str.substring content 0 matchIndex in
          let headerMatch := exec sectionHeaderPattern beforeContent in
          let sectionHeader :=
            match headerMatch with
            | Some h => (group h 1 ++ NL ++ NL)%string
            | None => EmptyString
            end in
          Some (sectionHeader ++ m_0 m)%string
      | None => None
      end
  end.

Definition optionVariants (opt : string) : list string :=
  [ opt;
    Str.replace_char "_" " " opt;
    Str.replace_char "-" "_" opt ].

Fixpoint first_hit (content : string) (variants : list string) : option string :=
  match variants with
  | [] => None
  | variant :: rest =>
      match try_variant content variant with
      | Some r => Some r
      | None => first_hit content rest
      end
  end.

Definition extractConfigSection (content opt : string) : option string :=
  first_hit content (optionVariants opt).

(** Lines joined by newlines, to write documents down. *)
Definition lines (l : list string) : string := String.concat NL l.

End Server.

(* ================================================================== *)
(** ** The heading blocks of a document, read off the text

    What the first pattern of [extractConfigSection] looks for, written as
    plain scans of the text: a marker line, the first one in the document,
    and the block that follows it. *)

Module Blocks.

Import Regex Server.

(** [s] without its longest prefix of characters in [p]. *)
Fixpoint skip (p : ascii -> bool) (s : string) : string :=
  match s with
  | String a s' => if p a then skip p s' else s
  | EmptyString => EmptyString
  end.

(** [s] without the literal text [l] at its front, compared with [f]. *)
Fixpoint strip (f : ascii -> ascii -> bool) (l s : string) : option string :=
  match l with
  | EmptyString => Some s
  | String x l' =>
      match s with
      | String a s' => if f x a then strip f l' s' else None
      | EmptyString => None
      end
  end.

(** What follows a marker line for [variant] at the front of [s]: three
    hashes, white space, an opening bracket, the variant in any letter case,
    the rest of the label, the closing bracket, and the rest of that line
    with its newline. *)
Definition after_marker (variant s : string) : option string :=
  match strip just_i "###" s with
  | None => None
  | Some s1 =>
      match skip Str.is_space s1 with
      | EmptyString => None
      | String a s2 =>
          if just_i "[" a then
            match strip just_i variant s2 with
            | None => None
            | Some s3 =>
                match skip (except "]") s3 with
                | EmptyString => None
                | String b s4 =>
                    if just_i "]" b then
                      match skip (except nl) s4 with
                      | EmptyString => None
                      | String d s5 => if just_i nl d then Some s5 else None
                      end
                    else None
                end
            end
          else None
      end
  end.

(** The first marker line for [variant] in [s]: the text before it, the
    marker line, the text after it. *)
Fixpoint find_marker (variant s : string) : option (string * string * string) :=
  match after_marker variant s with
  | Some t => Some (EmptyString, taken s t, t)
  | None =>
      match s with
      | EmptyString => None
      | String a s' =>
          match find_marker variant s' with
          | Some (p, h, t) => Some (String a p, h, t)
          | None => None
          end
      end
  end.

Definition then_space (r : option string) : bool :=
  match r with
  | Some (String a _) => Str.is_space a
  | _ => false
  end.

(** A block ends where a newline, [###] or [##] and a white-space character
    follow, or where the document ends. *)
Definition block_end (s : string) : bool :=
  then_space (strip just_i (String nl "###") s)
  || then_space (strip just_i (String nl "##") s)
  || negb (truthy_string s).

(** [s] cut at its first block end. *)
Fixpoint until_block_end (s : string) : string * string :=
  if block_end s then (EmptyString, s)
  else match s with
       | EmptyString => (EmptyString, EmptyString)
       | String a s' =>
           let (b, r) := until_block_end s' in (String a b, r)
       end.

(** Every character of [s] is in [p]. *)
Fixpoint all_chars (p : ascii -> bool) (s : string) : Prop :=
  match s with
  | EmptyString => True
  | String a s' => p a = true /\ all_chars p s'
  end.

(** The same text, letter case apart. *)
Fixpoint same_text_i (l s : string) : Prop :=
  match l, s with
  | EmptyString, EmptyString => True
  | String x l', String a s' => canon a = canon x /\ same_text_i l' s'
  | _, _ => False
  end.

(** The shape of a marker line for [variant]. *)
Definition marker_line (variant h : string) : Prop :=
  exists ws v label line,
    h = ("###" ++ ws ++ "[" ++ v ++ label ++ "]" ++ line ++ NL)%string
    /\ all_chars Str.is_space ws
    /\ same_text_i variant v
    /\ all_chars (except "]") label
    /\ all_chars (except nl) line.

End Blocks.

(* ================================================================== *)
(** ** server.ts: the tool handlers

    The handlers read the engine and answer with one text block.  The
    arguments follow the tools' input schemas.  [toFixed], [toLocaleString]
    and [toISOString] are the formatting methods of the JavaScript runtime
    and are taken as they come. *)

Module Tools.

Import Regex Server.
Local Open Scope string_scope.

(** A double quote. *)
Definition dq : string := String (ascii_of_nat 34) EmptyString.

(** [`${n}`] for an integer. *)
Definition number (n : Z) : string := NilZero.string_of_int (Z.to_int n).

(** [new ValidationError(message, context)] *)
Definition new_ValidationError (msg ctx : string) : KlipperError :=
  {| name := "ValidationError"; message := msg; type := VALIDATION; context := ctx;
     details := None |}.

(** [new NotFoundError(message, context)] *)
Definition new_NotFoundError (msg ctx : string) : KlipperError :=
  {| name := "NotFoundError"; message := msg; type := NOT_FOUND; context := ctx;
     details := None |}.

(** [{ content: [{ type: 'text', text }], isError }] *)
Record Response := {
  r_text : string;
  r_isError : bool
}.

Definition answer (t : string) : Response := {| r_text := t; r_isError := false |}.

Record SearchToolInput := {
  i_query : string;
  i_limit : option Z;
  i_section : option string
}.

Record LookupToolInput := {
  i_option : string;
  i_includeExamples : option bool
}.

Record BrowseToolInput := {
  i_browse_section : option string;
  i_path : option string
}.

(** The [arguments] object of a tool call, with the properties the input
    schemas name; a handler reads the ones of its input type. *)
Record Arguments := {
  a_query : string;
  a_limit : option Z;
  a_section : option string;
  a_option : string;
  a_includeExamples : option bool;
  a_path : option string
}.

(** [args as unknown as SearchToolInput], and so on. *)
Definition as_SearchToolInput (args : Arguments) : SearchToolInput :=
  {| i_query := a_query args; i_limit := a_limit args; i_section := a_section args |}.

Definition as_LookupToolInput (args : Arguments) : LookupToolInput :=
  {| i_option := a_option args; i_includeExamples := a_includeExamples args |}.

Definition as_BrowseToolInput (args : Arguments) : BrowseToolInput :=
  {| i_browse_section := a_section args; i_path := a_path args |}.

(** [arr.map((x, index) => f(x, index))] *)
Fixpoint mapi_from {A B} (f : A -> Z -> B) (l : list A) (i : Z) : list B :=
  match l with
  | [] => []
  | x :: l' => f x i :: mapi_from f l' (i + 1)%Z
  end.

(** [/```[\s\S]*?```/] *)
Definition codeBlockPattern : regex :=
  lit "```" (Cat (StarLazy any) (lit "```" Eps)).

(** [s.slice(n)] for a natural [n]. *)
Fixpoint drop (n : nat) (s : string) : string :=
  match n, s with
  | O, _ => s
  | S n', String _ s' => drop n' s'
  | S _, EmptyString => EmptyString
  end.

(** [s.match(r)] with the [g] flag: every match, the search going on behind
    the previous one (one character further after an empty match); the empty
    list stands for [null]. *)
Fixpoint match_all (fuel : nat) (r : regex) (s : string) : list string :=
  match fuel with
  | O => []
  | S fuel' =>
      match exec r s with
      | None => []
      | Some m =>
          let behind := drop (Z.to_nat (m_index m) + String.length (m_0 m)) s in
          m_0 m :: match_all fuel' r
                     (match m_0 m with EmptyString => drop 1 behind | _ => behind end)
      end
  end.

Definition difficulty_name (d : Difficulty) : string :=
  match d with
  | beginner => "beginner"
  | intermediate => "intermediate"
  | advanced => "advanced"
  end.

Section Handlers.

Context {L : lunr.Lib}.
Variable config : SearchConfig.
Variable toFixed1 : Q -> string.          (* x.toFixed(1) *)
Variable toLocaleString : Z -> string.    (* n.toLocaleString() *)
Variable toISOString : Date -> string.    (* d.toISOString() *)

Definition handleSearch (st : SearchEngine L) (input : SearchToolInput)
  : Outcome KlipperError Response :=
  bind (search config st (i_query input)
               {| o_limit := i_limit input; o_section := i_section input;
                  o_includeContent := None |})
       (fun results =>
          match results with
          | [] =>
              Returns (answer ("No results found for " ++ dq ++ i_query input ++ dq
                               ++ ". Try different keywords or browse available sections."))
          | _ =>
              let formattedResults :=
                String.concat (NL ++ NL)
                  (mapi_from
                     (fun result i =>
                        lines [ "## " ++ number (i + 1) ++ ". " ++ title (document result);
                                "**Section**: " ++ section (document result);
                                "**Relevance**: "
                                  ++ toFixed1 (score result * inject_Z 100)%Q ++ "%";
                                "**Path**: " ++ filePath (document result);
                                "";
                                snippet result;
                                "";
                                "---" ])
                     results 0) in
              Returns (answer (lines [ "# Search Results for " ++ dq ++ i_query input ++ dq;
                                       "";
                                       "Found " ++ number (Z.of_nat (List.length results))
                                         ++ " result(s):";
                                       "";
                                       formattedResults ]))
          end).

Definition formatConfigResponse (doc : ParsedDocument) (includeExamples : bool) : Response :=
  let response :=
    lines [ "# " ++ title doc;
            "";
            "**Section**: " ++ section doc;
            "**Difficulty**: " ++ difficulty_name (difficulty (metadata doc));
            "**Reading Time**: ~" ++ number (readingTime (metadata doc)) ++ " min";
            "";
            "## Content";
            "";
            content doc ] in
  let response :=
    if includeExamples
    then match match_all (S (String.length (content doc))) codeBlockPattern (content doc) with
         | [] => response
         | codeBlocks =>
             (response ++ NL ++ NL ++ "## Configuration Examples" ++ NL ++ NL
              ++ String.concat (NL ++ NL) (firstn 3 codeBlocks))%string
         end
    else response in
  answer response.

(** The answer built from an extracted section, when there is one. *)
Definition section_of (text opt : string) : option string :=
  match extractConfigSection text opt with
  | Some sectionContent => if truthy_string sectionContent then Some sectionContent else None
  | None => None
  end.

Definition handleLookup (st : SearchEngine L) (input : LookupToolInput)
  : Outcome KlipperError Response :=
  let fromReference :=
    match getDocument st "Config_Reference" with
    | Some configRefDoc => section_of (content configRefDoc) (i_option input)
    | None => None
    end in
  match fromReference with
  | Some sectionContent =>
      Returns (answer (lines [ "# Configuration: [" ++ i_option input ++ "]";
                               "";
                               "**Source**: Klipper Configuration Reference";
                               "";
                               sectionContent ]))
  | None =>
      bind (search config st (i_option input)
                   {| o_limit := Some 10%Z; o_section := None; o_includeContent := None |})
           (fun results =>
              match results with
              | [] =>
                  Returns (answer (lines
                    [ "Configuration option " ++ dq ++ i_option input ++ dq
                        ++ " not found in Klipper documentation. ";
                      "";
                      "Try one of these approaches:";
                      "- Check the exact spelling (e.g., " ++ dq ++ "extruder" ++ dq ++ ", "
                        ++ dq ++ "stepper_x" ++ dq ++ ", " ++ dq ++ "bed_mesh" ++ dq ++ ")";
                      "- Use the search tool for broader results";
                      "- Browse the Config_Reference document directly" ]))
              | bestMatch :: _ =>
                  match section_of (content (document bestMatch)) (i_option input) with
                  | Some sectionContent =>
                      Returns (answer (lines
                        [ "# Configuration: " ++ i_option input;
                          "";
                          "**Source Document**: " ++ title (document bestMatch);
                          "";
                          sectionContent ]))
                  | None =>
                      Returns (formatConfigResponse
                                 (document bestMatch)
                                 (match i_includeExamples input with
                                  | Some b => b
                                  | None => true
                                  end))
                  end
              end)
  end.

(** [if (input.path)], [if (input.section)]: a non-empty string. *)
Definition given (x : option string) : option string :=
  match x with
  | Some s => if truthy_string s then Some s else None
  | None => None
  end.

Definition handleBrowse (now : Date) (st : SearchEngine L) (input : BrowseToolInput)
  : Outcome KlipperError Response :=
  match given (i_path input) with
  | Some path =>
      match getDocument st path with
      | None => Throws (new_NotFoundError ("Document not found: " ++ path) "BrowseDocs")
      | Some doc => Returns (answer (lines [ "# " ++ title doc; ""; content doc ]))
      end
  | None =>
      match given (i_browse_section input) with
      | Some s =>
          match getDocumentsBySection st s with
          | [] => Returns (answer ("No documents found in section " ++ dq ++ s ++ dq ++ "."))
          | docs =>
              let docList :=
                String.concat NL
                  (List.map (fun doc => "- **" ++ title doc ++ "** (" ++ filePath doc ++ ")")
                            docs) in
              Returns (answer (lines [ "# Documents in " ++ dq ++ s ++ dq; ""; docList ]))
          end
      | None =>
          let names := getSections st in
          let stats := getStats now st in
          Returns (answer (lines
            [ "# Klipper Documentation Browser";
              "";
              "## Available Sections";
              "";
              String.concat NL (List.map (fun s => "- **" ++ s ++ "**") names);
              "";
              "## Statistics";
              "";
              "- Total Documents: " ++ number (totalDocuments stats);
              "- Total Words: " ++ toLocaleString (totalWords stats);
              "- Last Indexed: " ++ toISOString (lastIndexed_stat stats) ]))
      end
  end.

Definition handleStats (now : Date) (st : SearchEngine L) : Outcome KlipperError Response :=
  let stats := getStats now st in
  Returns (answer (lines
    [ "# Documentation Index Statistics";
      "";
      "- **Total Documents**: " ++ number (totalDocuments stats);
      "- **Total Words**: " ++ toLocaleString (totalWords stats);
      "- **Sections**: " ++ number (Z.of_nat (List.length (sections stats)));
      "- **Last Indexed**: " ++ toISOString (lastIndexed_stat stats);
      "";
      "## Sections";
      "";
      String.concat NL (List.map (fun s => "- " ++ s) (sections stats)) ])).

(** The handler of [CallToolRequestSchema]: the [switch] over the tool
    name inside [try], and the [catch] that turns what was thrown into an
    error answer. *)
Definition callTool (now : Date) (st : SearchEngine L) (name : string) (args : Arguments)
  : Response :=
  let attempt : Outcome Thrown Response :=
    let lift (o : Outcome KlipperError Response) : Outcome Thrown Response :=
      try_catch_rethrow o OfKlipperError in
    if String.eqb name "search_klipper_docs"
    then lift (handleSearch st (as_SearchToolInput args))
    else if String.eqb name "get_config_option"
    then lift (handleLookup st (as_LookupToolInput args))
    else if String.eqb name "browse_docs"
    then lift (handleBrowse now st (as_BrowseToolInput args))
    else if String.eqb name "get_index_stats"
    then lift (handleStats now st)
    else Throws (OfKlipperError
                   (new_ValidationError ("Unknown tool: " ++ name) "CallToolRequest")) in
  match attempt with
  | Returns r => r
  | Throws error =>
      let klipperError := handleError error ("Tool:" ++ name) in
      {| r_text := "Error: " ++ message klipperError; r_isError := true |}
  end.

End Handlers.

End Tools.

(* ================================================================== *)
(** ** parser.ts: the classification and the metadata of a document

    [path.sep] and [path.basename] are Node's and are taken as they come;
    so are the front matter and the headings, which come out of the
    markdown libraries and the heading scan. *)

Module Parser.

Local Open Scope string_scope.

(** [s.split(sep)] for a separator of one character: every piece, the
    empty ones too. *)
Fixpoint split_at_aux (sep : ascii) (s cur : string) : list string :=
  match s with
  | EmptyString => [cur]
  | String c s' =>
      if Ascii.eqb c sep then cur :: split_at_aux sep s' EmptyString
      else split_at_aux sep s' (cur ++ String c EmptyString)
  end.

Definition split_at (sep : ascii) (s : string) : list string :=
  split_at_aux sep s EmptyString.

Section Classification.

Variable sep : ascii.                             (* path.sep *)
Variable basename : string -> string -> string.   (* path.basename(p, ext) *)

(** The categories by file name, for a document outside every directory. *)
Definition category (filename : string) : string :=
  let has := Str.includes filename in
  if has "config" || String.eqb filename "config_reference" then "config-reference"
  else if has "g-code" || String.eqb filename "g-codes" then "g-codes"
  else if has "mcu" || has "protocol" then "protocol"
  else if has "probe" || has "bed" || has "level" then "calibration"
  else if has "canbus" || has "tmc" || has "driver" then "hardware"
  else if has "install" || has "bootloader" then "installation"
  else if has "debug" || has "troubleshoot" || has "faq" then "troubleshooting"
  else if has "api" || has "command" then "api"
  else if has "slice" || has "octoprint" then "software"
  else if String.eqb filename "index" || String.eqb filename "overview"
          || String.eqb filename "features" then "general"
  else if String.eqb filename "contact" || String.eqb filename "contributing"
          || String.eqb filename "sponsors" then "community"
  else "general".

Definition extractSection (relativePath : string) : string :=
  let parts := split_at sep relativePath in
  let filename := Str.toLowerCase (basename relativePath ".md") in
  match parts with
  | first :: _ :: _ =>
      if truthy_string first then first else category filename
  | _ => category filename
  end.

Definition extractSubsection (relativePath : string) : option string :=
  match split_at sep relativePath with
  | _ :: second :: _ :: _ => Some second
  | _ => None
  end.

End Classification.

(** [content.split(/\s+/).filter(word => word.length > 0).length] *)
Definition wordCount_of (content : string) : Z :=
  Z.of_nat (List.length (filter truthy_string (Str.split_ws content))).

(** [Math.ceil(wordCount / 200)], for a count that is not negative. *)
Definition readingTime_of (wordCount : Z) : Z := ((wordCount + 199) / 200)%Z.

Definition advancedKeywords : list string :=
  ["gcode_macro"; "pin:"; "mcu"; "kinematics"; "stepper"; "endstop"; "probe"].

Definition beginnerKeywords : list string :=
  ["getting started"; "installation"; "overview"; "introduction"; "basic"].

Definition determineDifficulty (content : string) (headings : list DocumentHeading)
  : Difficulty :=
  let lowerContent := Str.toLowerCase content in
  let advancedCount :=
    List.length (filter (fun kw => Str.includes lowerContent kw) advancedKeywords) in
  let beginnerCount :=
    List.length (filter (fun kw => Str.includes lowerContent kw) beginnerKeywords) in
  if (3 <=? advancedCount)%nat || (20 <? List.length headings)%nat then advanced
  else if (2 <=? beginnerCount)%nat || (List.length headings <? 5)%nat then beginner
  else intermediate.

Definition klipperTags : list string :=
  [ "configuration"; "calibration"; "troubleshooting"; "gcode"; "macro";
    "extruder"; "bed"; "probe"; "endstop"; "stepper"; "heater";
    "fan"; "display"; "mcu"; "installation"; "upgrade" ].

(** [frontmatterTags] is [frontmatter.tags] when that is an array, each
    entry as [String(tag)]. *)
Definition extractTags (content : string) (frontmatterTags : option (list string))
  : list string :=
  let tags : list string := [] in
  let tags :=
    match frontmatterTags with
    | Some l => fold_left (fun tags tag => add tags (Str.toLowerCase tag)) l tags
    | None => tags
    end in
  let lowerContent := Str.toLowerCase content in
  fold_left (fun tags tag => if Str.includes lowerContent tag then add tags tag else tags)
            klipperTags tags.

Definition calculateMetadata (content : string) (headings : list DocumentHeading)
    (frontmatterTags : option (list string)) : DocumentMetadata :=
  let wordCount := wordCount_of content in
  {| wordCount := wordCount;
     readingTime := readingTime_of wordCount;
     difficulty := determineDifficulty content headings;
     tags := extractTags content frontmatterTags;
     relatedDocuments := [];
     headings := headings |}.

(** ** The title, the headings and the identifier *)

Import Regex Server.

Definition cr : ascii := "013"%char.

(** A line terminator of the regular expressions, among the code units
    0..255. *)
Definition is_line_terminator (a : ascii) : bool := Ascii.eqb a nl || Ascii.eqb a cr.

(** [.] *)
Definition dot : ascii -> bool := fun a => negb (is_line_terminator a).

(** [$] with the [m] flag: the end of the input, or of a line. *)
Definition endOfLine : regex := Lookahead (Alt EndOfInput (Chr is_line_terminator)).

(** [^] with the [m] flag, at a position behind the character [prev]:
    the start of the input, or of a line. *)
Definition startOfLine (prev : option ascii) : bool :=
  match prev with
  | None => true
  | Some a => is_line_terminator a
  end.

(** [r.exec(s)] for the pattern [^r] with the [m] flag: the leftmost
    start of a line at which [r] matches. *)
Fixpoint exec_lines_from (r : regex) (prev : option ascii) (s : string) (i : Z)
  : option Match :=
  match (if startOfLine prev then run r s [] accept else None) with
  | Some (s', c) => Some {| m_index := i; m_0 := taken s s'; m_groups := c |}
  | None =>
      match s with
      | EmptyString => None
      | String a s' => exec_lines_from r (Some a) s' (i + 1)%Z
      end
  end.

(** [x{0,n}] *)
Fixpoint upTo (n : nat) (x : ascii) : regex :=
  match n with
  | O => Eps
  | S n' => Alt (Chr (just x) ;; upTo n' x) Eps
  end.

(** [/^#\s+(.+)$/m], behind its [^] *)
Definition h1Pattern : regex :=
  Chr (just "#") ;; Chr Str.is_space ;; Star Str.is_space ;;
  Group 1 (Chr dot ;; Star dot) ;; endOfLine.

(** [/^(#{1,6})\s+(.+)$/gm], behind its [^] *)
Definition headingRegex : regex :=
  Group 1 (Chr (just "#") ;; upTo 5 "#") ;; Chr Str.is_space ;; Star Str.is_space ;;
  Group 2 (Chr dot ;; Star dot) ;; endOfLine.

(** [\w] *)
Definition is_word (a : ascii) : bool :=
  let n := Str.code a in
  ((48 <=? n) && (n <=? 57) || (65 <=? n) && (n <=? 90) || (n =? 95)
   || (97 <=? n) && (n <=? 122))%N.

(** [s.replace(/[^\w\s-]/g, '')] *)
Fixpoint keep_word_space_dash (s : string) : string :=
  match s with
  | EmptyString => EmptyString
  | String a s' =>
      if is_word a || Str.is_space a || Ascii.eqb a "-"
      then String a (keep_word_space_dash s')
      else keep_word_space_dash s'
  end.

(** [s.replace(/\s+/g, '-')]; [in_run] tells that the previous character
    was white space. *)
Fixpoint dash_runs (in_run : bool) (s : string) : string :=
  match s with
  | EmptyString => EmptyString
  | String a s' =>
      if Str.is_space a
      then if in_run then dash_runs true s' else String "-" (dash_runs true s')
      else String a (dash_runs false s')
  end.

(** The anchor of a heading text. *)
Definition anchor_of (text : string) : string :=
  dash_runs false (keep_word_space_dash (Str.toLowerCase text)).

(** The character before position [n] of [s], which [prev] precedes. *)
Fixpoint char_before (n : nat) (prev : option ascii) (s : string) : option ascii :=
  match n, s with
  | S n', String a s' => char_before n' (Some a) s'
  | _, _ => prev
  end.

(** The body of the loop of [extractHeadings] for one match. *)
Definition heading_of (m : Match) : list DocumentHeading :=
  let levelMatch := group m 1 in
  let textMatch := group m 2 in
  if negb (truthy_string levelMatch) || negb (truthy_string textMatch) then []
  else
    let text := Str.trim textMatch in
    [ {| level := Z.of_nat (String.length levelMatch);
         text := text;
         anchor := anchor_of text |} ].

(** The loop of [extractHeadings]: [headingRegex.exec(content)] until it
    answers [null], each search starting at the [lastIndex] the previous
    match left, which is the end of that match. *)
Fixpoint headings_from (fuel : nat) (prev : option ascii) (s : string)
  : list DocumentHeading :=
  match fuel with
  | O => []
  | S fuel' =>
      match exec_lines_from headingRegex prev s 0 with
      | None => []
      | Some m =>
          let lastIndex := (Z.to_nat (m_index m) + String.length (m_0 m))%nat in
          heading_of m
            ++ headings_from fuel' (char_before lastIndex prev s) (Tools.drop lastIndex s)
      end
  end.

Definition extractHeadings (content : string) : list DocumentHeading :=
  headings_from (S (String.length content)) None content.

(** [s.replace(/\b\w/g, c => c.toUpperCase())]; [in_word] tells that the
    previous character is a word character. *)
Fixpoint capitalise (in_word : bool) (s : string) : string :=
  match s with
  | EmptyString => EmptyString
  | String a s' =>
      String (if is_word a && negb in_word then canon a else a) (capitalise (is_word a) s')
  end.

Section Title.

Variable basename : string -> string -> string.   (* path.basename(p, ext) *)

Definition extractTitle (content filePath : string) : string :=
  let fromFilename :=
    capitalise false
      (Str.replace_char "-" " " (Str.replace_char "_" " " (basename filePath ".md"))) in
  match exec_lines_from h1Pattern None content 0 with
  | Some h1Match =>
      if truthy_string (group h1Match 1) then Str.trim (group h1Match 1) else fromFilename
  | None => fromFilename
  end.

End Title.

(** [s.replace(pattern, '')] for a string pattern: the first occurrence
    goes. *)
Fixpoint remove_first (pattern s : string) : string :=
  match Blocks.strip just pattern s with
  | Some behind => behind
  | None =>
      match s with
      | EmptyString => EmptyString
      | String a s' => String a (remove_first pattern s')
      end
  end.

(** [relativePath.replace(/\\/g, '/').replace('.md', '')] *)
Definition document_id (relativePath : string) : string :=
  remove_first ".md" (Str.replace_char "\" "/" relativePath).

End Parser.

(* ================================================================== *)
(** ** logger.ts: which entries are written *)

Module Logger.

Inductive LogLevel := ERROR | WARN | INFO | DEBUG.

(** The string of an enum member. *)
Definition value (l : LogLevel) : string :=
  match l with
  | ERROR => "error"
  | WARN => "warn"
  | INFO => "info"
  | DEBUG => "debug"
  end.

(** [LOG_LEVEL_PRIORITY[level]] as a number: [None] when the key is not
    one of the four. *)
Definition LOG_LEVEL_PRIORITY (level : string) : option Z :=
  if String.eqb level "error" then Some 0%Z
  else if String.eqb level "warn" then Some 1%Z
  else if String.eqb level "info" then Some 2%Z
  else if String.eqb level "debug" then Some 3%Z
  else None.

(** [config.logging.level]: the environment variable unchecked, or info. *)
Definition configured_level (LOG_LEVEL : option string) : string :=
  match LOG_LEVEL with
  | Some s => if truthy_string s then s else value INFO
  | None => value INFO
  end.

(** [shouldLog(level)] of a logger whose level is [this_level]; a
    comparison with [undefined] is false. *)
Definition shouldLog (this_level : string) (level : LogLevel) : bool :=
  match LOG_LEVEL_PRIORITY (value level), LOG_LEVEL_PRIORITY this_level with
  | Some a, Some b => (a <=? b)%Z
  | _, _ => false
  end.

End Logger.

(* ================================================================== *)
(** ** server.ts: the resources *)

Module Resources.

Local Open Scope string_scope.

Record Resource := {
  uri : string;
  res_name : string;
  description : string;
  mimeType : string
}.

(** One entry of [contents]. *)
Record Contents := {
  c_uri : string;
  c_mimeType : string;
  c_text : string
}.

Section Handlers.

Context {L : lunr.Lib}.

(** The handler of [ListResourcesRequestSchema]. *)
Definition listResources (st : SearchEngine L) : list Resource :=
  let docs := getAllDocuments st in
  List.map
    (fun doc =>
       {| uri := "klipper://docs/" ++ id doc;
          res_name := title doc;
          description :=
            section doc ++ " - " ++ Tools.difficulty_name (difficulty (metadata doc))
              ++ " level";
          mimeType := "text/markdown" |})
    docs.

(** The handler of [ReadResourceRequestSchema]: what it returns is the one
    entry of [contents], what it throws went through [handleError]. *)
Definition readResource (st : SearchEngine L) (request_uri : string)
  : Outcome KlipperError Contents :=
  let attempt : Outcome Thrown Contents :=
    let docId := Parser.remove_first "klipper://docs/" request_uri in
    match getDocument st docId with
    | None =>
        Throws (OfKlipperError
                  (Tools.new_NotFoundError ("Document not found: " ++ docId) "ReadResource"))
    | Some doc =>
        Returns {| c_uri := request_uri; c_mimeType := "text/markdown";
                   c_text := content doc |}
    end in
  match attempt with
  | Returns r => Returns r
  | Throws error => Throws (handleError error "ReadResource")
  end.

End Handlers.

End Resources.

(* ================================================================== *)
(** ** Vocabulary of the statements *)

Section EngineVocabulary.

Context {L : lunr.Lib}.
Variable config : SearchConfig.

(** The truncated ranking: what [results] holds when [results.map] runs. *)
Definition kept (st : SearchEngine L) (options : SearchOptions)
    (results : list lunr.Result) : list lunr.Result :=
  slice0 (filtered config (docs st) options results) (effective_limit config options).

(** The hit's document is in the store. *)
Definition has_document (st : SearchEngine L) (r : lunr.Result) : Prop :=
  get (docs st) (lunr.result_ref r) <> None.

(** A result of [search] built from the hit [r] of a ranking of [n] hits. *)
Definition result_of (st : SearchEngine L) (q : string) (n : nat)
    (r : lunr.Result) (sr : SearchResult) : Prop :=
  get (docs st) (lunr.result_ref r) = Some (document sr)
  /\ score sr = lunr.result_score r
  /\ query (searchMetadata sr) = q
  /\ totalResults (searchMetadata sr) = Z.of_nat n.

(** lunr hands its hits over by descending score. *)
Definition by_descending_score (results : list lunr.Result) : Prop :=
  StronglySorted (fun a b => (lunr.result_score b <= lunr.result_score a)%Q) results.

(** The engines no [buildIndex] call has succeeded on. *)
Inductive never_built : SearchEngine L -> Prop :=
| never_built_new : never_built new_SearchEngine
| never_built_failed (now : Date) (st : SearchEngine L) (documents : Map ParsedDocument)
    (e : KlipperError) :
    never_built st ->
    snd (buildIndex now st documents) = Throws e ->
    never_built (fst (buildIndex now st documents)).

End EngineVocabulary.

(** The sum of a list of word counts. *)
Definition sum_Z (l : list Z) : Z := fold_right Z.add 0%Z l.

(** Strictly ascending by code units. *)
Definition ascending (l : list string) : Prop :=
  StronglySorted (fun a b => String.ltb a b = true) l.

(** The position behind [pre] is the start of the input or of a line. *)
Definition at_line_start (pre : string) : Prop :=
  Parser.startOfLine (Parser.char_before (String.length pre) None pre) = true.

(** The text [tail] is empty or starts with a line terminator. *)
Definition line_ends_at (tail : string) : Prop :=
  match tail with
  | EmptyString => True
  | String a _ => Parser.is_line_terminator a = true
  end.

(** A lower-case letter, a digit, an underscore or a dash. *)
Definition is_anchor_char (a : ascii) : bool :=
  let n := Str.code a in
  ((97 <=? n) && (n <=? 122) || (48 <=? n) && (n <=? 57) || (n =? 95) || (n =? 45))%N.

(* ================================================================== *)
(** * Properties of the engine *)

(** ** Lists and outcomes *)

Lemma map_throwing_Returns {E A B} (f : A -> Outcome E B) (l : list A) (ys : list B) :
  map_throwing f l = Returns ys -> Forall2 (fun x y => f x = Returns y) l ys.
Proof.
  revert ys; induction l as [|x l IH]; intros ys H; simpl in H.
  - inversion H; constructor.
  - destruct (f x) as [y|e] eqn:Hx; [|discriminate].
    destruct (map_throwing f l) as [ys'|e]; [|discriminate].
    inversion H; subst; constructor; auto.
Qed.

Lemma map_throwing_total {E A B} (f : A -> Outcome E B) (l : list A) :
  Forall (fun x => exists y, f x = Returns y) l ->
  exists ys, map_throwing f l = Returns ys.
Proof.
  induction 1 as [|x l [y Hy] _ [ys Hys]]; simpl.
  - now exists [].
  - rewrite Hy, Hys. now exists (y :: ys).
Qed.

Lemma map_throwing_first_Throws {E A B} (f : A -> Outcome E B) (good : list A) (x : A)
    (rest : list A) (e : E) :
  Forall (fun a => exists b, f a = Returns b) good ->
  f x = Throws e ->
  map_throwing f (good ++ x :: rest) = Throws e.
Proof.
  intros Hg Hx. induction Hg as [|a l [b Hb] _ IH]; simpl.
  - now rewrite Hx.
  - now rewrite Hb, IH.
Qed.

Lemma Forall2_length_eq {A B} (R : A -> B -> Prop) l1 l2 :
  Forall2 R l1 l2 -> List.length l1 = List.length l2.
Proof. induction 1; simpl; congruence. Qed.

Lemma Forall2_map_eq {A B C} (R : A -> B -> Prop) (f : A -> C) (g : B -> C) l1 l2 :
  Forall2 R l1 l2 -> (forall a b, R a b -> f a = g b) -> List.map f l1 = List.map g l2.
Proof.
  induction 1; intros Hfg; simpl; [reflexivity|].
  f_equal; auto.
Qed.

Lemma Forall2_Forall_r {A B} (R : A -> B -> Prop) (P : B -> Prop) l1 l2 :
  Forall2 R l1 l2 -> (forall a b, R a b -> P b) -> Forall P l2.
Proof. induction 1; intros HP; constructor; eauto. Qed.

Lemma slice0_positive {A} (l : list A) (n : Z) :
  (0 <= n)%Z -> slice0 l n = firstn (Z.to_nat n) l.
Proof.
  intros Hn. unfold slice0.
  destruct (n <? 0)%Z eqn:E; [apply Z.ltb_lt in E; lia | reflexivity].
Qed.

Lemma StronglySorted_filter {A} (R : A -> A -> Prop) (f : A -> bool) l :
  StronglySorted R l -> StronglySorted R (filter f l).
Proof.
  induction 1 as [|x l Hs IH Hx]; simpl; [constructor|].
  destruct (f x); [|assumption].
  constructor; [assumption|].
  rewrite Forall_forall in *. intros y Hy.
  apply filter_In in Hy. now apply Hx.
Qed.

Lemma StronglySorted_firstn_skipn {A} (R : A -> A -> Prop) l n x y :
  StronglySorted R l -> In x (firstn n l) -> In y (skipn n l) -> R x y.
Proof.
  intros Hs; revert n; induction Hs as [|a l Hs IH Ha]; intros n Hx Hy.
  - destruct n; simpl in Hx; contradiction.
  - destruct n as [|n]; simpl in *; [contradiction|].
    destruct Hx as [->|Hx].
    + rewrite Forall_forall in Ha. apply Ha.
      rewrite <- (firstn_skipn n l). apply in_or_app. now right.
    + eapply IH; eauto.
Qed.

(** ** handleError *)

Lemma handleError_message (error : Thrown) (ctx : string) :
  message (handleError error ctx) = thrown_message error.
Proof. destruct error; reflexivity. Qed.

Lemma handleError_KlipperError (e : KlipperError) (ctx : string) :
  handleError (OfKlipperError e) ctx = e.
Proof. reflexivity. Qed.

Section EngineFacts.

Context {L : lunr.Lib}.
Variable config : SearchConfig.

(** ** buildIndex *)

Lemma buildIndex_Throws now (st : SearchEngine L) documents error :
  lunr.build (index_builder (values documents)) = Throws error ->
  buildIndex now st documents =
    ({| index := index st; docs := documents; lastIndexed := lastIndexed st |},
     Throws (handleError error "SearchEngine.buildIndex")).
Proof. intros H. unfold buildIndex. now rewrite H. Qed.

Lemma buildIndex_Returns now (st : SearchEngine L) documents idx :
  lunr.build (index_builder (values documents)) = Returns idx ->
  buildIndex now st documents =
    ({| index := Some idx; docs := documents; lastIndexed := Some now |}, Returns tt).
Proof. intros H. unfold buildIndex. now rewrite H. Qed.

Lemma buildIndex_failed_index now (st : SearchEngine L) documents e :
  snd (buildIndex now st documents) = Throws e ->
  index (fst (buildIndex now st documents)) = index st.
Proof.
  unfold buildIndex.
  destruct (lunr.build (index_builder (values documents))); simpl;
    [discriminate | reflexivity].
Qed.

Lemma never_built_index (st : SearchEngine L) : never_built st -> index st = None.
Proof.
  induction 1 as [|now st documents e _ IH Hfail]; [reflexivity|].
  now rewrite (buildIndex_failed_index _ _ _ Hfail).
Qed.

(** The field weights [buildIndex] configures: title 10, content 1 (no
    boost attribute), section 5, tags 3, whatever the documents. *)
Lemma index_builder_fields (docsArray : list ParsedDocument) :
  List.map (fun f => (fst f, lunr.boost_of f)) (lunr._fields (index_builder docsArray))
  = [("title", 10%Z); ("content", 1%Z); ("section", 5%Z); ("tags", 3%Z)].
Proof.
  unfold index_builder.
  set (b0 := lunr.set_metadataWhitelist _ _).
  assert (H : forall l b, lunr._fields
              (fold_left (fun b doc =>
                 lunr.add {| lunr.d_id := id doc; lunr.d_title := title doc;
                             lunr.d_content := content doc; lunr.d_section := section doc;
                             lunr.d_tags := join " " (tags (metadata doc)) |} b) l b)
            = lunr._fields b).
  { induction l as [|d l IH]; intros b; simpl; [reflexivity|]. now rewrite IH. }
  rewrite H. reflexivity.
Qed.

(** ** search *)

Lemma search_not_ready (st : SearchEngine L) q o :
  index st = None ->
  search config st q o =
    Throws (new_SearchError "Search index not initialized" "SearchEngine.search").
Proof. intros H. unfold search. now rewrite H. Qed.

Lemma search_lunr_Throws (st : SearchEngine L) idx q o error :
  index st = Some idx ->
  lunr.search idx q = Throws error ->
  search config st q o = Throws (handleError error "SearchEngine.search").
Proof. intros Hi Hq. unfold search, search_body. now rewrite Hi, Hq. Qed.

Lemma to_SearchResult_Returns (st : SearchEngine L) q o results r sr :
  to_SearchResult config (docs st) q o results r = Returns sr ->
  result_of st q (List.length results) r sr.
Proof.
  unfold to_SearchResult, result_of.
  destruct (get (docs st) (lunr.result_ref r)) as [doc|]; [|discriminate].
  intros H; inversion H; subst; simpl. repeat split; reflexivity.
Qed.

Lemma to_SearchResult_total (st : SearchEngine L) q o results r :
  has_document st r ->
  exists sr, to_SearchResult config (docs st) q o results r = Returns sr.
Proof.
  unfold has_document, to_SearchResult.
  destruct (get (docs st) (lunr.result_ref r)) as [doc|]; [|congruence].
  intros _. eexists; reflexivity.
Qed.

(** When lunr answers and every hit that is kept has its document, [search]
    returns one result per kept hit, in the order of the ranking. *)
Lemma search_Returns (st : SearchEngine L) idx q o results :
  index st = Some idx ->
  lunr.search idx q = Returns results ->
  Forall (has_document st) (kept config st o results) ->
  exists out,
    search config st q o = Returns out
    /\ Forall2 (result_of st q (List.length (kept config st o results)))
               (kept config st o results) out.
Proof.
  intros Hi Hq Hdocs.
  unfold search, search_body. rewrite Hi, Hq. simpl.
  fold (kept config st o results).
  assert (exists out,
             map_throwing (to_SearchResult config (docs st) q o (kept config st o results))
                          (kept config st o results) = Returns out) as [out Hout].
  { apply map_throwing_total.
    eapply Forall_impl; [|exact Hdocs]. intros r Hr. now apply to_SearchResult_total. }
  exists out. rewrite Hout. split; [reflexivity|].
  apply map_throwing_Returns in Hout.
  eapply Forall2_impl; [|exact Hout].
  intros r sr H. now apply to_SearchResult_Returns in H.
Qed.

(** Whatever [search] returns, it was made this way. *)
Lemma search_Returns_inv (st : SearchEngine L) q o out :
  search config st q o = Returns out ->
  exists idx results,
    index st = Some idx
    /\ lunr.search idx q = Returns results
    /\ Forall2 (result_of st q (List.length (kept config st o results)))
               (kept config st o results) out.
Proof.
  unfold search, search_body.
  destruct (index st) as [idx|]; [|discriminate].
  destruct (lunr.search idx q) as [results|e] eqn:Hq; simpl; [|discriminate].
  fold (kept config st o results).
  destruct (map_throwing _ _) as [ys|e] eqn:Hm; simpl; [|discriminate].
  intros H; inversion H; subst.
  exists idx, results. repeat split; auto.
  apply map_throwing_Returns in Hm.
  eapply Forall2_impl; [|exact Hm].
  intros r sr Hr. now apply to_SearchResult_Returns in Hr.
Qed.

(** When lunr answers and a hit that is kept has no document in the
    store, [search] throws for the first such hit. *)
Lemma search_first_missing_Throws (st : SearchEngine L) idx q o results good r rest :
  index st = Some idx ->
  lunr.search idx q = Returns results ->
  kept config st o results = good ++ r :: rest ->
  Forall (has_document st) good ->
  get (docs st) (lunr.result_ref r) = None ->
  search config st q o
  = Throws (new_SearchError ("Document not found: " ++ lunr.result_ref r)%string
                            "SearchEngine.search").
Proof.
  intros Hi Hq Hk Hgood Hr.
  unfold search, search_body. rewrite Hi, Hq. simpl.
  fold (kept config st o results). rewrite Hk.
  rewrite (@map_throwing_first_Throws _ _ _ _ good r rest
             (OfKlipperError
                (new_SearchError ("Document not found: " ++ lunr.result_ref r)%string
                                 "SearchEngine.search"))).
  - reflexivity.
  - eapply Forall_impl; [|exact Hgood]. intros a Ha.
    now apply to_SearchResult_total.
  - unfold to_SearchResult. rewrite Hr. reflexivity.
Qed.

End EngineFacts.

(** ** Sorting and sets of strings *)

Lemma compare_lt_trans (a b c : string) :
  String.compare a b = Lt -> String.compare b c = Lt -> String.compare a c = Lt.
Proof.
  revert b c; induction a as [|x a IH]; intros [|y b] [|z c]; simpl;
    try discriminate; try reflexivity.
  unfold Ascii.compare.
  destruct (N.compare_spec (N_of_ascii x) (N_of_ascii y)) as [Exy|Lxy|Gxy];
    try discriminate;
    destruct (N.compare_spec (N_of_ascii y) (N_of_ascii z)) as [Eyz|Lyz|Gyz];
    try discriminate; intros H1 H2.
  - rewrite Exy, Eyz, N.compare_refl. eapply IH; eauto.
  - rewrite Exy. now apply N.compare_lt_iff in Lyz as ->.
  - rewrite <- Eyz. now apply N.compare_lt_iff in Lxy as ->.
  - assert (Lxz : (N_of_ascii x < N_of_ascii z)%N) by lia.
    now apply N.compare_lt_iff in Lxz as ->.
Qed.

Lemma leb_trans (a b c : string) :
  String.leb a b = true -> String.leb b c = true -> String.leb a c = true.
Proof.
  unfold String.leb.
  destruct (String.compare a b) eqn:Hab; try discriminate;
    destruct (String.compare b c) eqn:Hbc; try discriminate; intros _ _.
  - apply String.compare_eq_iff in Hab, Hbc. subst.
    destruct (String.compare c c) eqn:Hcc; try reflexivity.
    pose proof (String.compare_antisym c c) as H. rewrite Hcc in H. discriminate.
  - apply String.compare_eq_iff in Hab. subst. now rewrite Hbc.
  - apply String.compare_eq_iff in Hbc. subst. now rewrite Hab.
  - now rewrite (compare_lt_trans _ _ _ Hab Hbc).
Qed.

Lemma leb_neq_ltb (a b : string) :
  String.leb a b = true -> a <> b -> String.ltb a b = true.
Proof.
  unfold String.leb, String.ltb.
  destruct (String.compare a b) eqn:H; try discriminate; intros _ Hne; [|reflexivity].
  apply String.compare_eq_iff in H. contradiction.
Qed.

Lemma insert_sorted_Permutation (x : string) (l : list string) :
  Permutation (insert_sorted x l) (x :: l).
Proof.
  induction l as [|y l IH]; simpl; [reflexivity|].
  destruct (String.leb x y); [reflexivity|].
  rewrite IH. apply perm_swap.
Qed.

Lemma sort_Permutation (l : list string) : Permutation (sort l) l.
Proof.
  induction l as [|x l IH]; simpl; [reflexivity|].
  rewrite insert_sorted_Permutation. now constructor.
Qed.

Lemma insert_sorted_StronglySorted (x : string) (l : list string) :
  StronglySorted (fun a b => String.leb a b = true) l ->
  StronglySorted (fun a b => String.leb a b = true) (insert_sorted x l).
Proof.
  induction 1 as [|y l Hs IH Hy]; simpl.
  - repeat constructor.
  - destruct (String.leb x y) eqn:Hxy.
    + constructor; [now constructor|].
      constructor; [assumption|].
      eapply Forall_impl; [|exact Hy]. intros z Hz. eapply leb_trans; eauto.
    + constructor; [assumption|].
      assert (Hyx : String.leb y x = true).
      { destruct (String.leb_total x y) as [H|H]; congruence. }
      rewrite Forall_forall in *. intros z Hz.
      apply (Permutation_in _ (insert_sorted_Permutation x l)) in Hz.
      destruct Hz as [<-|Hz]; auto.
Qed.

Lemma sort_StronglySorted (l : list string) :
  StronglySorted (fun a b => String.leb a b = true) (sort l).
Proof.
  induction l as [|x l IH]; simpl; [constructor|].
  now apply insert_sorted_StronglySorted.
Qed.

Lemma sorted_NoDup_ascending (l : list string) :
  StronglySorted (fun a b => String.leb a b = true) l -> NoDup l -> ascending l.
Proof.
  induction 1 as [|x l Hs IH Hx]; intros Hnd; [constructor|].
  inversion Hnd as [|? ? Hnotin Hnd']; subst.
  constructor; [now apply IH|].
  rewrite Forall_forall in *. intros y Hy.
  apply leb_neq_ltb; [now apply Hx|].
  intros ->. contradiction.
Qed.

Lemma mem_In (x : string) (s : list string) : mem x s = true <-> In x s.
Proof.
  unfold mem. rewrite existsb_exists. split.
  - intros [y [Hy He]]. apply String.eqb_eq in He. now subst.
  - intros H. exists x. split; [assumption|apply String.eqb_refl].
Qed.

Lemma add_In (s : list string) (x y : string) : In y (add s x) <-> In y s \/ y = x.
Proof.
  unfold add. destruct (mem x s) eqn:H.
  - apply mem_In in H. split; [now left|]. intros [Hy| ->]; assumption.
  - rewrite in_app_iff. simpl. intuition.
Qed.

Lemma add_NoDup (s : list string) (x : string) : NoDup s -> NoDup (add s x).
Proof.
  intros Hs. unfold add. destruct (mem x s) eqn:H; [assumption|].
  assert (Hx : ~ In x s) by (rewrite <- mem_In; congruence).
  clear H. induction Hs as [|a s Ha Hs IH]; simpl.
  - constructor; [easy|constructor].
  - constructor.
    + rewrite in_app_iff. simpl. intros [H|[H|[]]]; [contradiction|].
      subst. apply Hx. now left.
    + apply IH. intros H. apply Hx. now right.
Qed.

Lemma sections_set_In (l : list ParsedDocument) (acc : list string) (y : string) :
  In y (fold_left (fun sections doc => add sections (section doc)) l acc)
  <-> In y acc \/ exists doc, In doc l /\ section doc = y.
Proof.
  revert acc; induction l as [|d l IH]; intros acc; simpl.
  - split; [now left|]. intros [H|[doc [[] _]]]. assumption.
  - rewrite IH, add_In. split.
    + intros [[H| ->]|[doc [Hd He]]]; eauto.
    + intros [H|[doc [[<-|Hd] He]]]; eauto.
Qed.

Lemma sections_set_NoDup (l : list ParsedDocument) (acc : list string) :
  NoDup acc -> NoDup (fold_left (fun sections doc => add sections (section doc)) l acc).
Proof.
  revert acc; induction l as [|d l IH]; intros acc H; simpl; [assumption|].
  apply IH. now apply add_NoDup.
Qed.

Lemma totalWords_sum (l : list ParsedDocument) (acc : Z) :
  fold_left (fun sum doc => (sum + wordCount (metadata doc))%Z) l acc
  = (acc + sum_Z (List.map (fun doc => wordCount (metadata doc)) l))%Z.
Proof.
  revert acc; induction l as [|d l IH]; intros acc; simpl; [lia|].
  rewrite IH. lia.
Qed.

Lemma getSections_spec {L : lunr.Lib} (st : SearchEngine L) :
  ascending (getSections st)
  /\ forall s, In s (getSections st) <-> exists doc, In doc (values (docs st)) /\ section doc = s.
Proof.
  unfold getSections. split.
  - apply sorted_NoDup_ascending; [apply sort_StronglySorted|].
    eapply Permutation_NoDup; [symmetry; apply sort_Permutation|].
    apply sections_set_NoDup. constructor.
  - intros s. split.
    + intros H. apply (Permutation_in _ (sort_Permutation _)) in H.
      apply sections_set_In in H. destruct H as [[]|H]. exact H.
    + intros H. apply (Permutation_in _ (Permutation_sym (sort_Permutation _))).
      apply sections_set_In. now right.
Qed.


Lemma Forall2_In_r {A B} (R : A -> B -> Prop) l1 l2 y :
  Forall2 R l1 l2 -> In y l2 -> exists x, In x l1 /\ R x y.
Proof.
  induction 1 as [|a b l1 l2 Hab _ IH]; simpl; [contradiction|].
  intros [<-|Hy]; [exists a; auto|].
  destruct (IH Hy) as [x [Hx HR]]. exists x; auto.
Qed.

Lemma filtered_by_descending_score {L : lunr.Lib} (config : SearchConfig)
    (documents : Map ParsedDocument) (o : SearchOptions) (results : list lunr.Result) :
  by_descending_score results ->
  by_descending_score (filtered config documents o results).
Proof.
  intros H. unfold filtered, by_descending_score.
  apply StronglySorted_filter.
  destruct (section_filter o); [now apply StronglySorted_filter | assumption].
Qed.

Lemma effective_limit_nonzero (config : SearchConfig) (o : SearchOptions) (N : Z) :
  o_limit o = Some N -> N <> 0%Z -> effective_limit config o = N.
Proof.
  intros Ho HN. unfold effective_limit, or_Z, truthy_Z. rewrite Ho.
  destruct (N =? 0)%Z eqn:E; [apply Z.eqb_eq in E; contradiction | reflexivity].
Qed.

Lemma effective_limit_zero (config : SearchConfig) (o : SearchOptions) :
  o_limit o = Some 0%Z -> effective_limit config o = maxResults config.
Proof. intros Ho. unfold effective_limit. now rewrite Ho. Qed.

(** Every result of one [search] call carries the number of results that
    call returns as its [totalResults]. *)
Lemma search_totalResults {L : lunr.Lib} (config : SearchConfig) (st : SearchEngine L)
    (q : string) (o : SearchOptions) (out : list SearchResult) :
  search config st q o = Returns out ->
  Forall (fun sr => totalResults (searchMetadata sr) = Z.of_nat (List.length out)) out.
Proof.
  intros H. destruct (search_Returns_inv _ _ _ _ H) as [idx [results [_ [_ HF]]]].
  rewrite <- (Forall2_length_eq HF).
  eapply Forall2_Forall_r; [exact HF|].
  intros r sr Hr. apply Hr.
Qed.

(* ================================================================== *)
(** * Properties of the extractor *)

Section ExtractorFacts.

Import Regex Server Blocks.

(** ** Strings *)

Lemma append_assoc (a b c : string) : ((a ++ b) ++ c = a ++ (b ++ c))%string.
Proof. induction a as [|x a IH]; simpl; [reflexivity | now rewrite IH]. Qed.

Lemma append_empty_r (a : string) : (a ++ "" = a)%string.
Proof. induction a as [|x a IH]; simpl; [reflexivity | now rewrite IH]. Qed.

Lemma length_append (a b : string) :
  String.length (a ++ b) = (String.length a + String.length b)%nat.
Proof. induction a as [|x a IH]; simpl; [reflexivity | now rewrite IH]. Qed.

Lemma substring_0_append (a b : string) :
  String.substring 0 (String.length a) (a ++ b) = a.
Proof.
  induction a as [|x a IH]; simpl.
  - destruct b; reflexivity.
  - now rewrite IH.
Qed.

Lemma taken_append (a b : string) : taken (a ++ b) b = a.
Proof.
  unfold taken. rewrite length_append.
  replace (String.length a + String.length b - String.length b)%nat
    with (String.length a) by lia.
  apply substring_0_append.
Qed.

(** ** Characters: the literal ones of the patterns are no letters, so the
    [i] flag changes nothing for them. *)

Ltac each_char a :=
  destruct a as [[] [] [] [] [] [] [] []]; vm_compute; intros;
  try reflexivity; try discriminate.

Lemma just_i_hash (a : ascii) : just_i "#" a = true -> a = "#"%char.
Proof. each_char a. Qed.

Lemma just_i_open (a : ascii) : just_i "[" a = true -> a = "["%char.
Proof. each_char a. Qed.

Lemma just_i_close (a : ascii) : just_i "]" a = true -> a = "]"%char.
Proof. each_char a. Qed.

Lemma just_i_nl (a : ascii) : just_i nl a = true -> a = nl.
Proof. each_char a. Qed.

Lemma space_no_open (a : ascii) : Str.is_space a = true -> just_i "[" a = false.
Proof. each_char a. Qed.

Lemma label_no_close (a : ascii) : except "]" a = true -> just_i "]" a = false.
Proof. each_char a. Qed.

Lemma line_no_nl (a : ascii) : except nl a = true -> just_i nl a = false.
Proof. each_char a. Qed.

(** ** The matcher, construct by construct *)

Lemma greedy_skip (p : ascii -> bool) (s : string)
    (K : string -> option (string * captures)) :
  (forall a s', p a = true -> K (String a s') = None) ->
  greedy p s K = K (skip p s).
Proof.
  intros HK. induction s as [|a s IH]; simpl; [reflexivity|].
  destruct (p a) eqn:Hp; [|reflexivity].
  rewrite IH. destruct (K (skip p s)); [reflexivity|].
  now apply HK.
Qed.

Lemma run_lit_then (f : ascii -> ascii -> bool) (l : string) (r : regex)
    (s : string) (c : captures) (k : cont) :
  run (lit_then f l r) s c k
  = match strip f l s with
    | Some s' => run r s' c k
    | None => None
    end.
Proof.
  revert s; induction l as [|x l IH]; intros s; simpl; [reflexivity|].
  destruct s as [|a s]; [reflexivity|].
  destruct (f x a); [apply IH | reflexivity].
Qed.

Lemma run_star_chr (p q : ascii -> bool) (r : regex) (s : string)
    (c : captures) (k : cont) :
  (forall a, p a = true -> q a = false) ->
  run (Cat (Star p) (Cat (Chr q) r)) s c k
  = match skip p s with
    | String a s' => if q a then run r s' c k else None
    | EmptyString => None
    end.
Proof.
  intros Hpq. cbn [run].
  rewrite greedy_skip.
  - reflexivity.
  - intros a s' Hp. now rewrite (Hpq a Hp).
Qed.

Lemma run_star_chr_last (p q : ascii -> bool) (s : string) (c : captures) (k : cont) :
  (forall a, p a = true -> q a = false) ->
  run (Cat (Star p) (Chr q)) s c k
  = match skip p s with
    | String a s' => if q a then k s' c else None
    | EmptyString => None
    end.
Proof.
  intros Hpq. cbn [run].
  rewrite greedy_skip.
  - reflexivity.
  - intros a s' Hp. now rewrite (Hpq a Hp).
Qed.

(** The header group matches exactly a marker line at the front. *)
Lemma run_headerLine (variant s : string) (c : captures) (k : cont) :
  run (headerLine variant) s c k
  = match after_marker variant s with
    | Some t => k t c
    | None => None
    end.
Proof.
  unfold headerLine, after_marker, lit_i.
  rewrite run_lit_then.
  destruct (strip just_i "###" s) as [s1|]; [|reflexivity].
  rewrite run_star_chr by apply space_no_open.
  destruct (skip Str.is_space s1) as [|a s2]; [reflexivity|].
  destruct (just_i "[" a); [|reflexivity].
  rewrite run_lit_then.
  destruct (strip just_i variant s2) as [s3|]; [|reflexivity].
  rewrite run_star_chr by apply label_no_close.
  destruct (skip (except "]") s3) as [|b s4]; [reflexivity|].
  destruct (just_i "]" b); [|reflexivity].
  rewrite run_star_chr_last by apply line_no_nl.
  destruct (skip (except nl) s4) as [|d s5]; [reflexivity|].
  destruct (just_i nl d); reflexivity.
Qed.

Lemma run_end_branch (l s : string) (c : captures) :
  run (Cat (Chr (just_i nl)) (lit_i l (Chr Str.is_space))) s c accept
  = match strip just_i (String nl l) s with
    | Some (String a s') => if Str.is_space a then Some (s', c) else None
    | _ => None
    end.
Proof.
  change (Cat (Chr (just_i nl)) (lit_i l (Chr Str.is_space)))
    with (lit_then just_i (String nl l) (Chr Str.is_space)).
  rewrite run_lit_then.
  destruct (strip just_i (String nl l) s) as [[|a s']|]; reflexivity.
Qed.

Lemma run_Alt (r1 r2 : regex) (s : string) (c : captures) (k : cont) :
  run (Alt r1 r2) s c k
  = match run r1 s c k with Some x => Some x | None => run r2 s c k end.
Proof. reflexivity. Qed.

Lemma run_Lookahead (r : regex) (s : string) (c : captures) (k : cont) :
  run (Lookahead r) s c k
  = match run r s c accept with Some (_, c') => k s c' | None => None end.
Proof. reflexivity. Qed.

(** The lookahead holds exactly at a block end, and captures nothing. *)
Lemma run_headerEnd (s : string) (c : captures) (k : cont) :
  run headerEnd s c k = if block_end s then k s c else None.
Proof.
  unfold headerEnd, block_end.
  rewrite run_Lookahead, run_Alt, run_end_branch, run_Alt, run_end_branch.
  destruct (strip just_i (String nl "###") s) as [[|a s']|];
    destruct (strip just_i (String nl "##") s) as [[|b s'']|];
    cbn [then_space orb];
    try destruct (Str.is_space a); try destruct (Str.is_space b);
    destruct s; reflexivity.
Qed.

Lemma until_block_end_append (s b r : string) :
  until_block_end s = (b, r) -> s = (b ++ r)%string.
Proof.
  revert b r; induction s as [|a s IH]; intros b r; simpl.
  - destruct (block_end ""); intros H; inversion H; reflexivity.
  - destruct (block_end (String a s)); [intros H; inversion H; reflexivity|].
    destruct (until_block_end s) as [b' r']. intros H; inversion H; subst.
    simpl. f_equal. now apply IH.
Qed.

Lemma until_block_end_stops (s b r : string) :
  until_block_end s = (b, r) -> block_end r = true.
Proof.
  revert b r; induction s as [|a s IH]; intros b r; simpl.
  - destruct (block_end "") eqn:E; intros H; inversion H; subst; [assumption|reflexivity].
  - destruct (block_end (String a s)) eqn:E; [intros H; inversion H; now subst|].
    destruct (until_block_end s) as [b' r']. intros H; inversion H; subst.
    now apply (IH b' r).
Qed.

Lemma until_block_end_first (s b r : string) :
  until_block_end s = (b, r) ->
  forall b1 b2, b = (b1 ++ b2)%string -> b2 <> EmptyString ->
                block_end (b2 ++ r) = false.
Proof.
  revert b r; induction s as [|a s IH]; intros b r; simpl.
  - destruct (block_end ""); intros H; inversion H; subst;
      intros b1 b2 Hb; destruct b1, b2; simpl in Hb; congruence.
  - destruct (block_end (String a s)) eqn:E.
    + intros H; inversion H; subst.
      intros b1 b2 Hb; destruct b1, b2; simpl in Hb; congruence.
    + destruct (until_block_end s) as [b' r'] eqn:Hu. intros H; inversion H; subst.
      intros b1 b2 Hb Hne. destruct b1 as [|x b1]; simpl in Hb.
      * subst b2. simpl. now rewrite <- (until_block_end_append _ Hu).
      * inversion Hb; subst. eapply IH; eauto.
Qed.

Lemma lazy_until (s : string) (K : string -> option (string * captures))
    (f : string -> string * captures) :
  (forall s', K s' = if block_end s' then Some (f s') else None) ->
  lazy any s K = Some (f (snd (until_block_end s))).
Proof.
  intros HK. induction s as [|a s IH]; simpl.
  - rewrite HK. reflexivity.
  - rewrite HK. destruct (block_end (String a s)); [reflexivity|].
    rewrite IH. destruct (until_block_end s); reflexivity.
Qed.

(** The body group runs up to the first block end. *)
Lemma run_body (s : string) (c : captures) :
  run (Cat (Group 2 (StarLazy any)) headerEnd) s c accept
  = Some (snd (until_block_end s), set_group 2 (fst (until_block_end s)) c).
Proof.
  cbn [run].
  rewrite (lazy_until s _
             (fun s' => (s', set_group 2 (taken s s') c))).
  - destruct (until_block_end s) as [b r] eqn:Hu. simpl.
    rewrite (until_block_end_append _ Hu) at 1. now rewrite taken_append.
  - intros s'. rewrite run_headerEnd. reflexivity.
Qed.

Lemma run_headerPattern (variant s : string) :
  run (headerPattern variant) s [] accept
  = match after_marker variant s with
    | Some t => Some (snd (until_block_end t),
                      [(2, fst (until_block_end t)); (1, taken s t)])
    | None => None
    end.
Proof.
  unfold headerPattern.
  change (run (Cat (Group 1 ?h) ?r) s [] accept)
    with (run h s [] (fun s' c' => run r s' (set_group 1 (taken s s') c') accept)).
  rewrite run_headerLine.
  destruct (after_marker variant s) as [t|]; [|reflexivity].
  rewrite run_body. reflexivity.
Qed.

Lemma exec_from_unfold (r : regex) (s : string) (i : Z) :
  exec_from r s i
  = match run r s [] accept with
    | Some (s', c) => Some {| m_index := i; m_0 := taken s s'; m_groups := c |}
    | None =>
        match s with
        | EmptyString => None
        | String _ s' => exec_from r s' (i + 1)%Z
        end
    end.
Proof. destruct s; reflexivity. Qed.

Lemma find_marker_unfold (variant s : string) :
  find_marker variant s
  = match after_marker variant s with
    | Some t => Some (EmptyString, taken s t, t)
    | None =>
        match s with
        | EmptyString => None
        | String a s' =>
            match find_marker variant s' with
            | Some (p, h, t) => Some (String a p, h, t)
            | None => None
            end
        end
    end.
Proof. destruct s; reflexivity. Qed.

(** [exec] finds the first marker line and the block after it. *)
Lemma exec_headerPattern (variant s : string) (i : Z) :
  match find_marker variant s with
  | Some (_, h, t) =>
      exists m, exec_from (headerPattern variant) s i = Some m
                /\ group m 1 = h
                /\ group m 2 = fst (until_block_end t)
  | None => exec_from (headerPattern variant) s i = None
  end.
Proof.
  revert i; induction s as [|a s IH]; intros i;
    rewrite exec_from_unfold, find_marker_unfold, run_headerPattern.
  - destruct (after_marker variant "") as [t|]; [|reflexivity].
    eexists. split; [reflexivity|]. split; reflexivity.
  - destruct (after_marker variant (String a s)) as [t|].
    + eexists. split; [reflexivity|]. split; reflexivity.
    + specialize (IH (i + 1)%Z).
      destruct (find_marker variant s) as [[[p h] t]|]; exact IH.
Qed.

(** ** The scans of the text *)

Lemma strip_same_text (l s s' : string) :
  strip just_i l s = Some s' ->
  exists m, s = (m ++ s')%string /\ same_text_i l m.
Proof.
  revert s; induction l as [|x l IH]; intros s; simpl.
  - intros H; inversion H; subst. now exists EmptyString.
  - destruct s as [|a s]; [discriminate|].
    destruct (just_i x a) eqn:Hx; [|discriminate].
    intros H. destruct (IH _ H) as [m [-> Hm]].
    exists (String a m). split; [reflexivity|].
    split; [|assumption]. unfold just_i in Hx. now apply Ascii.eqb_eq in Hx.
Qed.

Lemma strip_hashes (s s' : string) :
  strip just_i "###" s = Some s' -> s = ("###" ++ s')%string.
Proof.
  simpl.
  destruct s as [|a1 [|a2 [|a3 s]]]; try discriminate;
    try (destruct (just_i "#" a1); discriminate);
    try (destruct (just_i "#" a1); [destruct (just_i "#" a2)|]; discriminate).
  destruct (just_i "#" a1) eqn:H1; [|discriminate].
  destruct (just_i "#" a2) eqn:H2; [|discriminate].
  destruct (just_i "#" a3) eqn:H3; [|discriminate].
  apply just_i_hash in H1, H2, H3. subst. intros H; inversion H. reflexivity.
Qed.

Lemma skip_split (p : ascii -> bool) (s : string) :
  exists w, s = (w ++ skip p s)%string /\ all_chars p w.
Proof.
  induction s as [|a s [w [Hs Hw]]]; simpl.
  - now exists EmptyString.
  - destruct (p a) eqn:Hp.
    + exists (String a w). simpl. split; [now f_equal | now split].
    + now exists EmptyString.
Qed.

Lemma after_marker_shape (variant s t : string) :
  after_marker variant s = Some t ->
  exists h, s = (h ++ t)%string /\ marker_line variant h.
Proof.
  unfold after_marker.
  destruct (strip just_i "###" s) as [s1|] eqn:H1; [|discriminate].
  apply strip_hashes in H1.
  destruct (skip_split Str.is_space s1) as [ws [Hs1 Hws]].
  destruct (skip Str.is_space s1) as [|a s2]; [discriminate|].
  destruct (just_i "[" a) eqn:Ha; [|discriminate].
  apply just_i_open in Ha.
  destruct (strip just_i variant s2) as [s3|] eqn:H3; [|discriminate].
  destruct (strip_same_text _ _ H3) as [v [Hs2 Hv]].
  destruct (skip_split (except "]") s3) as [label [Hs3 Hlabel]].
  destruct (skip (except "]") s3) as [|b s4]; [discriminate|].
  destruct (just_i "]" b) eqn:Hb; [|discriminate].
  apply just_i_close in Hb.
  destruct (skip_split (except nl) s4) as [line [Hs4 Hline]].
  destruct (skip (except nl) s4) as [|d s5]; [discriminate|].
  destruct (just_i nl d) eqn:Hd; [|discriminate].
  apply just_i_nl in Hd.
  intros H; inversion H; subst t; clear H.
  exists ("###" ++ ws ++ "[" ++ v ++ label ++ "]" ++ line ++ NL)%string.
  split.
  - subst. unfold NL. simpl.
    repeat (rewrite !append_assoc; simpl). reflexivity.
  - exists ws, v, label, line. repeat split; assumption.
Qed.

Lemma marker_line_truthy (variant h : string) :
  marker_line variant h -> truthy_string h = true.
Proof. intros [ws [v [label [line [-> _]]]]]. reflexivity. Qed.

Lemma find_marker_split (variant s pre h t : string) :
  find_marker variant s = Some (pre, h, t) ->
  s = (pre ++ h ++ t)%string
  /\ marker_line variant h
  /\ forall p1 p2, pre = (p1 ++ p2)%string -> p2 <> EmptyString ->
                   after_marker variant (p2 ++ h ++ t) = None.
Proof.
  revert pre; induction s as [|a s IH]; intros pre; rewrite find_marker_unfold.
  - destruct (after_marker variant "") as [t'|] eqn:Ha; [|discriminate].
    apply after_marker_shape in Ha. destruct Ha as [h' [Hs [ws [v [l [n [-> _]]]]]]].
    discriminate.
  - destruct (after_marker variant (String a s)) as [t'|] eqn:Ha.
    + intros H; inversion H; subst.
      destruct (after_marker_shape _ _ Ha) as [h' [Hs Hm]].
      rewrite Hs, taken_append. split; [reflexivity|]. split; [assumption|].
      intros p1 p2 Hp. destruct p1, p2; simpl in Hp; congruence.
    + destruct (find_marker variant s) as [[[p' h'] t']|] eqn:Hf; [|discriminate].
      intros H; inversion H; subst.
      destruct (IH _ eq_refl) as [Hs [Hm Hfirst]].
      split; [simpl; now f_equal|]. split; [assumption|].
      intros p1 p2 Hp Hne. destruct p1 as [|x p1]; simpl in Hp.
      * subst p2. simpl. now rewrite <- Hs.
      * inversion Hp; subst. now apply (Hfirst p1 p2).
Qed.

(** ** The loop over the variants *)

Lemma try_variant_heading (content variant pre h t b r : string) :
  find_marker variant content = Some (pre, h, t) ->
  until_block_end t = (b, r) ->
  b <> EmptyString ->
  try_variant content variant = Some (h ++ b)%string.
Proof.
  intros Hf Hu Hb.
  pose proof (exec_headerPattern variant content 0) as He.
  rewrite Hf in He. destruct He as [m [He [H1 H2]]].
  rewrite Hu in H2. simpl in H2.
  destruct (find_marker_split _ _ Hf) as [_ [Hm _]].
  unfold try_variant, exec. rewrite He, H1, H2.
  rewrite (marker_line_truthy Hm).
  destruct b; [contradiction | reflexivity].
Qed.

Lemma first_hit_skips (content : string) (skipped rest : list string) :
  Forall (fun v => try_variant content v = None) skipped ->
  first_hit content (skipped ++ rest) = first_hit content rest.
Proof.
  induction 1 as [|v l Hv _ IH]; simpl; [reflexivity|].
  now rewrite Hv.
Qed.

End ExtractorFacts.

(* ================================================================== *)
(** * The engine's test suite, run on the stand-in *)

Section TestSuite.

Let cfg := DEFAULT_CONFIG.
Let titles (o : Outcome KlipperError (list SearchResult)) : option (list string) :=
  match o with
  | Returns l => Some (List.map (fun r => title (document r)) l)
  | Throws _ => None
  end.

Example test_build_index_successfully : isReady Sample.engine = true.
Proof. reflexivity. Qed.

Example test_index_all_documents :
  totalDocuments (getStats 0%Z Sample.engine) = 3%Z.
Proof. reflexivity. Qed.

Example test_find_documents_matching_query :
  titles (search cfg Sample.engine "extruder" no_options)
  = Some ["Extruder Configuration"].
Proof. reflexivity. Qed.

Example test_empty_array_for_no_matches :
  search cfg Sample.engine "nonexistent_term_xyz" no_options = Returns [].
Proof. reflexivity. Qed.

Example test_empty_query :
  search cfg Sample.engine "" no_options = Returns [].
Proof. reflexivity. Qed.

Example test_filter_by_section :
  titles (search cfg Sample.engine "bed"
            {| o_limit := None; o_section := Some "g-codes"; o_includeContent := None |})
  = Some ["Bed Leveling G-Codes"].
Proof. reflexivity. Qed.

Example test_limit_results :
  option_map (@List.length _) (titles (search cfg Sample.engine "bed" (Sample.limit_to 1)))
  = Some 1%nat.
Proof. reflexivity. Qed.

Example test_get_document :
  option_map title (getDocument Sample.engine "config-reference/extruder")
  = Some "Extruder Configuration"
  /\ getDocument Sample.engine "non-existent" = None.
Proof. split; reflexivity. Qed.

Example test_get_sections :
  getSections Sample.engine = ["config-reference"; "g-codes"].
Proof. reflexivity. Qed.

Example test_documents_by_section :
  List.length (getDocumentsBySection Sample.engine "config-reference") = 2%nat
  /\ getDocumentsBySection Sample.engine "non-existent" = [].
Proof. split; reflexivity. Qed.

(** A hit whose document has left the store makes [search] throw: the
    index was built from the three documents, the store replaced by a
    build that failed. *)
Example stale_index_document_not_found :
  let st := fst (buildIndex (L := Sample.lib 3) 2000%Z Sample.engine
                            (set (set (set (set [] "a" (Sample.counted "a" "s" 1))
                                           "b" (Sample.counted "b" "s" 1))
                                      "c" (Sample.counted "c" "s" 1))
                                 "d" (Sample.counted "d" "s" 1))) in
  isReady st = true
  /\ search cfg st "extruder" no_options
     = Throws (new_SearchError "Document not found: config-reference/extruder"
                               "SearchEngine.search").
Proof. split; reflexivity. Qed.

End TestSuite.

(** ** extractConfigSection on small documents *)

Section ExtractorExamples.

Import Server.

(** The second variant, underscores as spaces, and a [####] heading inside
    the block. *)
Example extract_second_variant :
  extractConfigSection
    (lines ["### [bed mesh one]  "; "foo"; "#### sub"; "x"; "## Next"; "bar"]) "bed_mesh"
  = Some (lines ["### [bed mesh one]  "; "foo"; "#### sub"; "x"]).
Proof. reflexivity. Qed.

(** The bracket pattern, with the heading above it put in front. *)
Example extract_bare_bracket :
  extractConfigSection
    (lines ["# Ref"; "### Mesh"; "text"; "[bed_mesh]"; "speed: 50"; ""; "[other]"; "x"])
    "BED-mesh"
  = Some (lines ["### Mesh"; ""; "[bed_mesh]"; "speed: 50"; ""]).
Proof. reflexivity. Qed.

(** A marker line followed at once by the next heading: the header pattern
    matches with an empty block, and the bracket pattern answers. *)
Example extract_empty_block :
  extractConfigSection (lines ["### [bed_mesh]"; ""; "### [extruder]"; "bar"]) "bed_mesh"
  = Some (lines ["[bed_mesh]"; ""; "### [extruder]"; "bar"]).
Proof. reflexivity. Qed.

Example extract_not_found :
  extractConfigSection (lines ["### [extruder]"; "foo"]) "bed_mesh" = None
  /\ extractConfigSection "### [bed_mesh]" "bed_mesh" = None.
Proof. split; reflexivity. Qed.

End ExtractorExamples.

(* ================================================================== *)
(** * Main theorems *)

(** C1 (as amended): on a built index [search] returns a result sequence,
    empty when lunr finds nothing, for every query string that lunr's query
    parser accepts, provided the hits it keeps have their documents in the
    store; the engine has no malformed-query error of its own, and a string
    that lunr rejects makes [search] throw the KlipperError that
    [handleError] makes of lunr's error, with lunr's message. *)
Theorem search_fails_only_where_lunr_or_store_fail {L : lunr.Lib} (config : SearchConfig)
    (st : SearchEngine L) (idx : lunr.Index) (q : string) (o : SearchOptions) :
  index st = Some idx ->
  (forall results,
      lunr.search idx q = Returns results ->
      Forall (has_document st) (kept config st o results) ->
      exists out, search config st q o = Returns out
                  /\ List.length out = List.length (kept config st o results))
  /\ (lunr.search idx q = Returns [] -> search config st q o = Returns [])
  /\ (forall error,
         lunr.search idx q = Throws error ->
         exists e, search config st q o = Throws e
                   /\ e = handleError error "SearchEngine.search"
                   /\ message e = thrown_message error).
Proof.
  intros Hi. repeat split.
  - intros results Hq Hdocs.
    destruct (search_Returns config q o Hi Hq Hdocs) as [out [Hs HF]].
    exists out. split; [assumption|]. symmetry. exact (Forall2_length_eq HF).
  - intros Hq. unfold search, search_body. rewrite Hi, Hq. simpl.
    unfold filtered, slice0.
    destruct (section_filter o); simpl;
      destruct (effective_limit config o <? 0)%Z; simpl;
      try rewrite firstn_nil; reflexivity.
  - intros error Hq. eexists. split; [exact (search_lunr_Throws config st q o Hi Hq)|].
    split; [reflexivity | apply handleError_message].
Qed.

(** C1, the claim as stated fails: on the index built from the three test
    documents the query [foo:bar] is rejected. *)
Lemma search_rejects_query_counterexample :
  isReady Sample.engine = true
  /\ search DEFAULT_CONFIG Sample.engine "foo:bar" no_options
     = Throws {| name := "KlipperError";
                 message := "unrecognised field 'foo', possible fields: 'title', 'content', 'section', 'tags'";
                 type := SYSTEM;
                 context := "SearchEngine.search";
                 details := Some [("originalError", "QueryParseError")] |}.
Proof. split; reflexivity. Qed.

Lemma search_fails_only_where_lunr_or_store_fail_witness :
  exists out,
    search DEFAULT_CONFIG Sample.engine "extruder" no_options = Returns out
    /\ List.length out = 1%nat.
Proof.
  assert (Hd : Forall (has_document Sample.engine)
                 (kept DEFAULT_CONFIG Sample.engine no_options (Sample.hits "extruder"))).
  { vm_compute. repeat (constructor; [discriminate|]). constructor. }
  destruct (proj1 (@search_fails_only_where_lunr_or_store_fail
                     (Sample.lib 3) DEFAULT_CONFIG Sample.engine Sample.built
                     "extruder" no_options eq_refl)
                  (Sample.hits "extruder") eq_refl Hd) as [out [H1 H2]].
  exists out. split; [assumption|]. exact H2.
Defined.

(** C2: [totalResults] is read from the array after [slice(0, limit)].  On
    the three test documents, [search("bed", {limit: 1})]: two hits are left
    after the section filter and the minimum-score filter, one result is
    returned, and its [totalResults] is 1, not 2. *)
Theorem search_totalResults_counts_after_truncation :
  index Sample.engine = Some Sample.built
  /\ @lunr.search (Sample.lib 3) Sample.built "bed" = Returns (Sample.hits "bed")
  /\ List.length (filtered DEFAULT_CONFIG (docs Sample.engine) (Sample.limit_to 1)
                           (Sample.hits "bed")) = 2%nat
  /\ exists r,
       search DEFAULT_CONFIG Sample.engine "bed" (Sample.limit_to 1) = Returns [r]
       /\ totalResults (searchMetadata r) = 1%Z.
Proof.
  repeat split. eexists. split; reflexivity.
Qed.

(** C3: when index construction faults inside [buildIndex], the index handle
    and [lastIndexed] keep their prior values, the engine is ready exactly
    when it was, and the call throws what [handleError] makes of the fault:
    the fault itself when it is a KlipperError, otherwise a KlipperError
    with the fault's message (and the name of an Error in its details).
    The document store is the new one all the same, so the prior index is
    queried over the new documents: [search] returns one result per kept
    hit when every kept hit has its document among them, and throws
    "Document not found" for the first kept hit that has none. *)
Theorem buildIndex_fault_keeps_index_and_reports_cause {L : lunr.Lib}
    (now : Date) (st : SearchEngine L) (documents : Map ParsedDocument) (fault : Thrown) :
  lunr.build (index_builder (values documents)) = Throws fault ->
  index (fst (buildIndex now st documents)) = index st
  /\ lastIndexed (fst (buildIndex now st documents)) = lastIndexed st
  /\ isReady (fst (buildIndex now st documents)) = isReady st
  /\ (exists e,
        snd (buildIndex now st documents) = Throws e
        /\ e = handleError fault "SearchEngine.buildIndex"
        /\ message e = thrown_message fault
        /\ (forall k, fault = OfKlipperError k -> e = k)
        /\ (forall n m, fault = OfError n m -> details e = Some [("originalError", n)]))
  /\ docs (fst (buildIndex now st documents)) = documents
  /\ (forall (config : SearchConfig) (idx : lunr.Index) (q : string) (o : SearchOptions)
             (results : list lunr.Result),
        index st = Some idx ->
        lunr.search idx q = Returns results ->
        (Forall (fun r => get documents (lunr.result_ref r) <> None)
                (kept config (fst (buildIndex now st documents)) o results) ->
         exists out,
           search config (fst (buildIndex now st documents)) q o = Returns out
           /\ Forall2 (result_of (fst (buildIndex now st documents)) q
                         (List.length
                            (kept config (fst (buildIndex now st documents)) o results)))
                      (kept config (fst (buildIndex now st documents)) o results) out)
        /\ (forall good r rest,
              kept config (fst (buildIndex now st documents)) o results
              = good ++ r :: rest ->
              Forall (fun r => get documents (lunr.result_ref r) <> None) good ->
              get documents (lunr.result_ref r) = None ->
              search config (fst (buildIndex now st documents)) q o
              = Throws (new_SearchError
                          ("Document not found: " ++ lunr.result_ref r)%string
                          "SearchEngine.search"))).
Proof.
  intros H. rewrite (buildIndex_Throws now st documents H).
  cbn [fst snd].
  split; [reflexivity|]. split; [reflexivity|]. split; [reflexivity|].
  split; [|split; [reflexivity|]].
  - eexists. split; [reflexivity|]. split; [reflexivity|].
    split; [apply handleError_message|].
    split; [intros k ->; reflexivity | intros n m ->; reflexivity].
  - intros config idx q o results Hi Hq. split.
    + intros Hdocs. now apply (@search_Returns L config _ idx q o results).
    + intros good r rest Hk Hgood Hr.
      now apply (@search_first_missing_Throws L config _ idx q o results good r rest).
Qed.

Lemma buildIndex_fault_keeps_index_and_reports_cause_witness :
  index (fst (buildIndex (L := Sample.lib 3) 2000%Z Sample.engine
                         (set Sample.mockDocs "four" (Sample.counted "four" "a" 1))))
  = index Sample.engine.
Proof.
  refine (proj1 (@buildIndex_fault_keeps_index_and_reports_cause
                   (Sample.lib 3) 2000%Z Sample.engine
                   (set Sample.mockDocs "four" (Sample.counted "four" "a" 1))
                   (OfError "RangeError" "Invalid array length") _)).
  reflexivity.
Defined.

(** C3 as it was stated fails: the engine built from the three documents
    answers the query "extruder"; a build with four documents then faults
    (the library holds three), the index handle is the prior one, and the
    same query on it throws, because the documents it finds have left the
    store. *)
Lemma buildIndex_fault_prior_index_not_queryable_counterexample :
  (exists out,
      search DEFAULT_CONFIG Sample.engine "extruder" no_options = Returns out
      /\ out <> [])
  /\ (exists e,
        snd (buildIndex (L := Sample.lib 3) 2000%Z Sample.engine
               (set (set (set (set [] "a" (Sample.counted "a" "s" 1))
                              "b" (Sample.counted "b" "s" 1))
                         "c" (Sample.counted "c" "s" 1))
                    "d" (Sample.counted "d" "s" 1)))
        = Throws e)
  /\ index (fst (buildIndex (L := Sample.lib 3) 2000%Z Sample.engine
                   (set (set (set (set [] "a" (Sample.counted "a" "s" 1))
                                  "b" (Sample.counted "b" "s" 1))
                             "c" (Sample.counted "c" "s" 1))
                        "d" (Sample.counted "d" "s" 1))))
     = index Sample.engine
  /\ search DEFAULT_CONFIG
       (fst (buildIndex (L := Sample.lib 3) 2000%Z Sample.engine
               (set (set (set (set [] "a" (Sample.counted "a" "s" 1))
                              "b" (Sample.counted "b" "s" 1))
                         "c" (Sample.counted "c" "s" 1))
                    "d" (Sample.counted "d" "s" 1))))
       "extruder" no_options
     = Throws (new_SearchError "Document not found: config-reference/extruder"
                               "SearchEngine.search").
Proof.
  split; [eexists; split; [reflexivity | discriminate]|].
  split; [eexists; reflexivity|].
  split; reflexivity.
Qed.

(** C4: on an engine on which no [buildIndex] call has succeeded, [search]
    throws the SearchError "Search index not initialized" for every query
    and options; it returns nothing. *)
Theorem search_before_build_fails {L : lunr.Lib} (config : SearchConfig)
    (st : SearchEngine L) (q : string) (o : SearchOptions) :
  never_built st ->
  search config st q o
  = Throws {| name := "SearchError";
              message := "Search index not initialized";
              type := SEARCH;
              context := "SearchEngine.search";
              details := None |}.
Proof.
  intros H. apply never_built_index in H.
  now rewrite (search_not_ready config st q o H).
Qed.

Lemma search_before_build_fails_witness :
  search DEFAULT_CONFIG
         (fst (buildIndex (L := Sample.lib 2) 1000%Z new_SearchEngine Sample.mockDocs))
         "extruder" no_options
  = Throws (new_SearchError "Search index not initialized" "SearchEngine.search").
Proof.
  apply (@search_before_build_fails (Sample.lib 2)).
  apply (@never_built_failed (Sample.lib 2) 1000%Z new_SearchEngine Sample.mockDocs
           (handleError (OfError "RangeError" "Invalid array length")
                        "SearchEngine.buildIndex")).
  - apply never_built_new.
  - reflexivity.
Defined.

(** C5 (as amended): the variants of the option name are tried in order.
    When the ones before [variant] find nothing and the document has a
    marker line for [variant] (three hashes, white space, a bracketed label
    that starts with the variant in any letter case, the rest of the line),
    followed by a non-empty block, [extractConfigSection] returns the first
    such marker line and the text after it up to, and without, the first
    newline that starts a [###] or [##] heading, or up to the end of the
    document; a level-1 heading does not end the block. *)
Theorem extractConfigSection_heading_block
    (content opt : string) (skipped : list string) (variant : string)
    (later : list string) (pre hdr tail body rest : string) :
  Server.optionVariants opt = skipped ++ variant :: later ->
  Forall (fun v => Server.try_variant content v = None) skipped ->
  Blocks.find_marker variant content = Some (pre, hdr, tail) ->
  Blocks.until_block_end tail = (body, rest) ->
  body <> EmptyString ->
  Server.extractConfigSection content opt = Some (hdr ++ body)%string
  /\ content = (pre ++ hdr ++ body ++ rest)%string
  /\ Blocks.marker_line variant hdr
  /\ (forall p1 p2, pre = (p1 ++ p2)%string -> p2 <> EmptyString ->
                    Blocks.after_marker variant (p2 ++ hdr ++ body ++ rest) = None)
  /\ Blocks.block_end rest = true
  /\ (forall b1 b2, body = (b1 ++ b2)%string -> b2 <> EmptyString ->
                    Blocks.block_end (b2 ++ rest) = false).
Proof.
  intros Hv Hskip Hf Hu Hb.
  destruct (find_marker_split _ _ Hf) as [Hc [Hm Hfirst]].
  pose proof (until_block_end_append _ Hu) as Ht. subst tail.
  repeat split; try assumption.
  - unfold Server.extractConfigSection. rewrite Hv, (first_hit_skips _ _ Hskip).
    simpl. now rewrite (try_variant_heading _ _ Hf Hu Hb).
  - exact (until_block_end_stops _ Hu).
  - exact (until_block_end_first _ Hu).
Qed.

Lemma extractConfigSection_heading_block_witness :
  Server.extractConfigSection
    (Server.lines ["### [bed_mesh]"; "foo"; "### [extruder]"; "bar"]) "bed_mesh"
  = Some (Server.lines ["### [bed_mesh]"; "foo"]).
Proof.
  refine (proj1 (@extractConfigSection_heading_block
                   (Server.lines ["### [bed_mesh]"; "foo"; "### [extruder]"; "bar"])
                   "bed_mesh" [] "bed_mesh" ["bed mesh"; "bed_mesh"]
                   "" (Server.lines ["### [bed_mesh]"; ""]) (Server.lines ["foo"; "### [extruder]"; "bar"])
                   "foo" (Server.lines [""; "### [extruder]"; "bar"])
                   eq_refl (Forall_nil _) eq_refl eq_refl _)).
  discriminate.
Defined.

(** C5, the claim as stated fails: a level-1 heading after the block is a
    higher-level heading, and the block runs over it to the end of the
    document. *)
Lemma extractConfigSection_level1_counterexample :
  Server.extractConfigSection
    (Server.lines ["### [bed_mesh]"; "foo"; "# Top"; "bar"]) "bed_mesh"
  = Some (Server.lines ["### [bed_mesh]"; "foo"; "# Top"; "bar"]).
Proof. reflexivity. Qed.

(** C7: with a positive limit N, [search] returns the first N entries of
    the ranking left by the two filters (all of them when there are fewer),
    so at most N results; lunr hands its hits over by descending score, and
    then no candidate that was cut off scores higher than a returned one. *)
Theorem search_limit_returns_top_ranked {L : lunr.Lib} (config : SearchConfig)
    (st : SearchEngine L) (idx : lunr.Index) (q : string) (o : SearchOptions)
    (N : Z) (results : list lunr.Result) :
  index st = Some idx ->
  o_limit o = Some N ->
  (0 < N)%Z ->
  lunr.search idx q = Returns results ->
  Forall (has_document st)
         (firstn (Z.to_nat N) (filtered config (docs st) o results)) ->
  exists out,
    search config st q o = Returns out
    /\ (Z.of_nat (List.length out) <= N)%Z
    /\ List.length out
       = Nat.min (Z.to_nat N) (List.length (filtered config (docs st) o results))
    /\ Forall2 (fun r sr => get (docs st) (lunr.result_ref r) = Some (document sr)
                            /\ score sr = lunr.result_score r)
               (firstn (Z.to_nat N) (filtered config (docs st) o results)) out
    /\ (by_descending_score results ->
        forall sr r,
          In sr out ->
          In r (skipn (Z.to_nat N) (filtered config (docs st) o results)) ->
          (lunr.result_score r <= score sr)%Q).
Proof.
  intros Hi Ho HN Hq Hdocs.
  assert (Hk : kept config st o results
               = firstn (Z.to_nat N) (filtered config (docs st) o results)).
  { unfold kept. rewrite (effective_limit_nonzero config o Ho) by lia.
    apply slice0_positive. lia. }
  rewrite <- Hk in Hdocs.
  destruct (search_Returns config q o Hi Hq Hdocs) as [out [Hs HF]].
  rewrite Hk in HF.
  pose proof (Forall2_length_eq HF) as Hlen. rewrite length_firstn in Hlen.
  exists out. repeat split.
  - exact Hs.
  - lia.
  - now symmetry.
  - eapply Forall2_impl; [|exact HF]. intros r sr [H1 [H2 _]]. now split.
  - intros Hsorted sr r Hsr Hr.
    destruct (@Forall2_In_r _ _ _ _ _ sr HF Hsr) as [r0 [Hr0 [_ [Hscore _]]]].
    rewrite Hscore.
    exact (@StronglySorted_firstn_skipn _ _ _ _ _ _
             (filtered_by_descending_score config (docs st) o Hsorted) Hr0 Hr).
Qed.

Lemma search_limit_returns_top_ranked_witness :
  exists out,
    search DEFAULT_CONFIG Sample.engine "bed" (Sample.limit_to 1) = Returns out
    /\ (Z.of_nat (List.length out) <= 1)%Z.
Proof.
  assert (Hd : Forall (has_document Sample.engine)
                 (firstn (Z.to_nat 1)
                    (filtered DEFAULT_CONFIG (docs Sample.engine) (Sample.limit_to 1)
                              (Sample.hits "bed")))).
  { vm_compute. repeat (constructor; [discriminate|]). constructor. }
  destruct (@search_limit_returns_top_ranked (Sample.lib 3) DEFAULT_CONFIG Sample.engine
              Sample.built "bed" (Sample.limit_to 1) 1%Z (Sample.hits "bed")
              eq_refl eq_refl eq_refl eq_refl Hd) as [out [H1 [H2 _]]].
  exists out. split; assumption.
Defined.

(** C8: [getStats] counts the documents, adds up their word counts, and
    lists the distinct section names in ascending order; on word counts
    10, 20, 30 in sections a, a, b that is 3, 60, [a; b], and on the empty
    store 0, 0 and no section. *)
Theorem getStats_counts_sums_and_sorts {L : lunr.Lib} (now : Date) (st : SearchEngine L) :
  totalDocuments (getStats now st) = Z.of_nat (List.length (docs st))
  /\ totalWords (getStats now st)
     = sum_Z (List.map (fun doc => wordCount (metadata doc)) (values (docs st)))
  /\ ascending (sections (getStats now st))
  /\ (forall s, In s (sections (getStats now st))
                <-> exists doc, In doc (values (docs st)) /\ section doc = s)
  /\ (forall i d,
         let stats := getStats now {| index := i; docs := Sample.abDocs; lastIndexed := d |} in
         totalDocuments stats = 3%Z /\ totalWords stats = 60%Z
         /\ sections stats = ["a"; "b"])
  /\ getStats now new_SearchEngine
     = {| totalDocuments := 0; totalWords := 0; lastIndexed_stat := now; sections := [] |}.
Proof.
  repeat split.
  - unfold getStats, getAllDocuments, values. simpl. now rewrite length_map.
  - unfold getStats. simpl. unfold getAllDocuments. now rewrite totalWords_sum.
  - apply getSections_spec.
  - apply getSections_spec.
  - apply getSections_spec.
Qed.

(** C9: [buildIndex] stores the new document map before it constructs the
    index, so after a construction fault the index is the prior one while
    every accessor answers from the new documents. *)
Theorem buildIndex_fault_replaces_documents {L : lunr.Lib}
    (now : Date) (st : SearchEngine L) (documents : Map ParsedDocument) (fault : Thrown) :
  lunr.build (index_builder (values documents)) = Throws fault ->
  index (fst (buildIndex now st documents)) = index st
  /\ docs (fst (buildIndex now st documents)) = documents
  /\ (forall i, getDocument (fst (buildIndex now st documents)) i = get documents i)
  /\ getAllDocuments (fst (buildIndex now st documents)) = values documents
  /\ (forall s, getDocumentsBySection (fst (buildIndex now st documents)) s
                = filter (fun doc => String.eqb (section doc) s) (values documents))
  /\ (forall st2 : SearchEngine L,
         docs st2 = documents ->
         getSections (fst (buildIndex now st documents)) = getSections st2
         /\ forall t,
              totalDocuments (getStats t (fst (buildIndex now st documents)))
              = totalDocuments (getStats t st2)
              /\ totalWords (getStats t (fst (buildIndex now st documents)))
                 = totalWords (getStats t st2)
              /\ sections (getStats t (fst (buildIndex now st documents)))
                 = sections (getStats t st2)).
Proof.
  intros H. rewrite (buildIndex_Throws now st documents H). simpl.
  repeat split; try reflexivity;
    unfold getStats, getSections, getAllDocuments; simpl; now rewrite H0.
Qed.

Lemma buildIndex_fault_replaces_documents_witness :
  getDocument (fst (buildIndex (L := Sample.lib 3) 2000%Z Sample.engine
                               (set Sample.mockDocs "four" (Sample.counted "four" "a" 1))))
              "four"
  = Some (Sample.counted "four" "a" 1).
Proof.
  refine (eq_trans
            (proj1 (proj2 (proj2
               (@buildIndex_fault_replaces_documents
                  (Sample.lib 3) 2000%Z Sample.engine
                  (set Sample.mockDocs "four" (Sample.counted "four" "a" 1))
                  (OfError "RangeError" "Invalid array length") _))) "four") _).
  - reflexivity.
  - reflexivity.
Defined.

(** C10: a limit of 0 is falsy, so the configured [maxResults] (10 by
    default) is the limit in force: [search] returns the first [maxResults]
    entries of the filtered ranking, the same as without a limit. *)
Theorem search_limit_zero_falls_back_to_maxResults {L : lunr.Lib} (config : SearchConfig)
    (st : SearchEngine L) (idx : lunr.Index) (q : string) (o : SearchOptions)
    (results : list lunr.Result) :
  index st = Some idx ->
  o_limit o = Some 0%Z ->
  (0 <= maxResults config)%Z ->
  lunr.search idx q = Returns results ->
  Forall (has_document st)
         (firstn (Z.to_nat (maxResults config)) (filtered config (docs st) o results)) ->
  effective_limit config o = maxResults config
  /\ maxResults DEFAULT_CONFIG = 10%Z
  /\ maxResults (getConfig empty_env) = 10%Z
  /\ search config st q o
     = search config st q {| o_limit := None; o_section := o_section o;
                             o_includeContent := o_includeContent o |}
  /\ exists out,
       search config st q o = Returns out
       /\ List.length out
          = Nat.min (Z.to_nat (maxResults config))
                    (List.length (filtered config (docs st) o results)).
Proof.
  intros Hi Ho Hmax Hq Hdocs.
  pose proof (effective_limit_zero config o Ho) as Hl.
  assert (Hk : kept config st o results
               = firstn (Z.to_nat (maxResults config))
                        (filtered config (docs st) o results)).
  { unfold kept. rewrite Hl. now apply slice0_positive. }
  rewrite <- Hk in Hdocs.
  destruct (search_Returns config q o Hi Hq Hdocs) as [out [Hs HF]].
  repeat split; try assumption; try reflexivity.
  - unfold search, search_body, to_SearchResult, filtered, section_filter.
    rewrite Hl. destruct o as [l s i]. simpl in *. reflexivity.
  - exists out. split; [assumption|].
    rewrite <- (Forall2_length_eq HF), Hk. apply length_firstn.
Qed.

Lemma search_limit_zero_falls_back_to_maxResults_witness :
  exists out,
    search DEFAULT_CONFIG Sample.engine "bed" (Sample.limit_to 0) = Returns out
    /\ List.length out = 2%nat.
Proof.
  assert (Hd : Forall (has_document Sample.engine)
                 (firstn (Z.to_nat (maxResults DEFAULT_CONFIG))
                    (filtered DEFAULT_CONFIG (docs Sample.engine) (Sample.limit_to 0)
                              (Sample.hits "bed")))).
  { vm_compute. repeat (constructor; [discriminate|]). constructor. }
  assert (H0 : (0 <= maxResults DEFAULT_CONFIG)%Z) by discriminate.
  destruct (@search_limit_zero_falls_back_to_maxResults (Sample.lib 3) DEFAULT_CONFIG
              Sample.engine Sample.built "bed" (Sample.limit_to 0) (Sample.hits "bed")
              eq_refl eq_refl H0 eq_refl Hd) as [_ [_ [_ [_ [out [H1 H2]]]]]].
  exists out. split; [assumption|]. exact H2.
Defined.

(* ================================================================== *)
(** * Further properties of the engine *)

Lemma firstn_member {A} (n : nat) (l : list A) (x : A) : In x (firstn n l) -> In x l.
Proof.
  intros H. rewrite <- (firstn_skipn n l). apply in_or_app. now left.
Qed.

Lemma slice0_In {A} (l : list A) (n : Z) (x : A) : In x (slice0 l n) -> In x l.
Proof.
  unfold slice0. destruct (n <? 0)%Z; apply firstn_member.
Qed.

Lemma filtered_In {L : lunr.Lib} (config : SearchConfig) (documents : Map ParsedDocument)
    (o : SearchOptions) (results : list lunr.Result) (r : lunr.Result) :
  In r (filtered config documents o results) ->
  In r results
  /\ above_minScore config r = true
  /\ forall s, section_filter o = Some s -> in_section documents s r = true.
Proof.
  unfold filtered. intros H. apply filter_In in H. destruct H as [H Hm].
  destruct (section_filter o) as [s|].
  - apply filter_In in H. destruct H as [H Hs].
    repeat split; try assumption. intros s' E. now inversion E; subst.
  - repeat split; try assumption. discriminate.
Qed.

Lemma kept_In {L : lunr.Lib} (config : SearchConfig) (st : SearchEngine L)
    (o : SearchOptions) (results : list lunr.Result) (r : lunr.Result) :
  In r (kept config st o results) -> In r (filtered config (docs st) o results).
Proof. apply slice0_In. Qed.

(** X1: with a non-empty [section] option, every result [search] returns is
    a document of that section. *)
Theorem search_results_in_requested_section {L : lunr.Lib} (config : SearchConfig)
    (st : SearchEngine L) (q : string) (o : SearchOptions) (s : string)
    (out : list SearchResult) :
  o_section o = Some s ->
  s <> EmptyString ->
  search config st q o = Returns out ->
  Forall (fun sr => section (document sr) = s) out.
Proof.
  intros Ho Hs H.
  destruct (search_Returns_inv config st q o H) as [idx [results [_ [_ HF]]]].
  assert (Hf : section_filter o = Some s).
  { unfold section_filter. rewrite Ho. destruct s; [contradiction | reflexivity]. }
  rewrite Forall_forall. intros sr Hsr.
  destruct (@Forall2_In_r _ _ _ _ _ sr HF Hsr) as [r [Hr [Hdoc _]]].
  apply kept_In, filtered_In in Hr. destruct Hr as [_ [_ Hsec]].
  specialize (Hsec s Hf). unfold in_section in Hsec. rewrite Hdoc in Hsec.
  now apply String.eqb_eq in Hsec.
Qed.

Lemma search_results_in_requested_section_witness :
  Forall (fun sr => section (document sr) = "g-codes")
         [ {| document := Sample.bed_leveling;
              score := inject_Z 11;
              snippet := content Sample.bed_leveling;
              highlights := ["bed"];
              searchMetadata :=
                {| query := "bed"; totalResults := 1;
                   filters := Some {| f_section := Some "g-codes" |} |} |} ].
Proof.
  apply (@search_results_in_requested_section (Sample.lib 3) DEFAULT_CONFIG Sample.engine
           "bed" {| o_limit := None; o_section := Some "g-codes"; o_includeContent := None |}
           "g-codes").
  - reflexivity.
  - discriminate.
  - reflexivity.
Defined.

(** X2: every result [search] returns has a score of at least the
    configured [minScore]. *)
Theorem search_results_reach_minScore {L : lunr.Lib} (config : SearchConfig)
    (st : SearchEngine L) (q : string) (o : SearchOptions) (out : list SearchResult) :
  search config st q o = Returns out ->
  Forall (fun sr => (minScore config <= score sr)%Q) out.
Proof.
  intros H.
  destruct (search_Returns_inv config st q o H) as [idx [results [_ [_ HF]]]].
  rewrite Forall_forall. intros sr Hsr.
  destruct (@Forall2_In_r _ _ _ _ _ sr HF Hsr) as [r [Hr [_ [Hscore _]]]].
  apply kept_In, filtered_In in Hr. destruct Hr as [_ [Hmin _]].
  rewrite Hscore. now apply Qle_bool_iff.
Qed.

Lemma search_results_reach_minScore_witness :
  exists out,
    search DEFAULT_CONFIG Sample.engine "bed" no_options = Returns out
    /\ Forall (fun sr => (1 # 10 <= score sr)%Q) out.
Proof.
  eexists. split; [reflexivity|].
  exact (@search_results_reach_minScore (Sample.lib 3) DEFAULT_CONFIG Sample.engine
           "bed" no_options _ eq_refl).
Defined.

(** X3: a negative limit N is passed on to [slice(0, N)], which counts from
    the end: [search] returns the ranking left by the filters without its
    last [-N] entries. *)
Theorem search_negative_limit_drops_last {L : lunr.Lib} (config : SearchConfig)
    (st : SearchEngine L) (idx : lunr.Index) (q : string) (o : SearchOptions)
    (N : Z) (results : list lunr.Result) :
  index st = Some idx ->
  o_limit o = Some N ->
  (N < 0)%Z ->
  lunr.search idx q = Returns results ->
  Forall (has_document st) (filtered config (docs st) o results) ->
  exists out,
    search config st q o = Returns out
    /\ Z.of_nat (List.length out)
       = Z.max 0 (Z.of_nat (List.length (filtered config (docs st) o results)) + N)
    /\ List.map score out
       = firstn (List.length out)
                (List.map lunr.result_score (filtered config (docs st) o results)).
Proof.
  intros Hi Ho HN Hq Hdocs.
  set (ranking := filtered config (docs st) o results) in *.
  assert (Hk : kept config st o results
               = firstn (Z.to_nat (Z.max 0 (Z.of_nat (List.length ranking) + N))) ranking).
  { unfold kept. fold ranking. rewrite (effective_limit_nonzero config o Ho) by lia.
    unfold slice0. destruct (N <? 0)%Z eqn:E; [reflexivity|].
    apply Z.ltb_ge in E. lia. }
  assert (Hd : Forall (has_document st) (kept config st o results)).
  { rewrite Hk. rewrite Forall_forall in *. intros r Hr. apply Hdocs.
    eapply firstn_member; eauto. }
  destruct (search_Returns config q o Hi Hq Hd) as [out [Hs HF]].
  rewrite Hk in HF.
  pose proof (Forall2_length_eq HF) as Hlen. rewrite length_firstn in Hlen.
  exists out. split; [exact Hs|]. split; [lia|].
  rewrite firstn_map.
  assert (Hm : List.map score out
               = List.map lunr.result_score
                   (firstn (Z.to_nat (Z.max 0 (Z.of_nat (List.length ranking) + N))) ranking)).
  { symmetry. eapply Forall2_map_eq; [exact HF|]. intros a b [_ [Hsc _]]. now symmetry. }
  rewrite Hm. f_equal.
  rewrite <- Hlen, <- firstn_firstn, firstn_all. reflexivity.
Qed.

Lemma search_negative_limit_drops_last_witness :
  exists out,
    search DEFAULT_CONFIG Sample.engine "bed" (Sample.limit_to (-1)) = Returns out
    /\ Z.of_nat (List.length out) = 1%Z.
Proof.
  assert (Hd : Forall (has_document Sample.engine)
                 (filtered DEFAULT_CONFIG (docs Sample.engine) (Sample.limit_to (-1))
                           (Sample.hits "bed"))).
  { vm_compute. repeat (constructor; [discriminate|]). constructor. }
  destruct (@search_negative_limit_drops_last (Sample.lib 3) DEFAULT_CONFIG Sample.engine
              Sample.built "bed" (Sample.limit_to (-1)) (-1)%Z (Sample.hits "bed")
              eq_refl eq_refl eq_refl eq_refl Hd) as [out [H1 [H2 _]]].
  exists out. split; [assumption|]. exact H2.
Defined.

(** X4: when a hit that is kept has no document in the store (the store was
    replaced after the index was built), [search] throws the SearchError
    "Document not found: <ref>" of the first such hit, and returns none of
    the results before it. *)
Theorem search_missing_document_throws {L : lunr.Lib} (config : SearchConfig)
    (st : SearchEngine L) (idx : lunr.Index) (q : string) (o : SearchOptions)
    (results good rest : list lunr.Result) (r : lunr.Result) :
  index st = Some idx ->
  lunr.search idx q = Returns results ->
  kept config st o results = good ++ r :: rest ->
  Forall (has_document st) good ->
  get (docs st) (lunr.result_ref r) = None ->
  search config st q o
  = Throws {| name := "SearchError";
              message := ("Document not found: " ++ lunr.result_ref r)%string;
              type := SEARCH;
              context := "SearchEngine.search";
              details := None |}.
Proof.
  intros Hi Hq Hk Hgood Hr.
  unfold search, search_body. rewrite Hi, Hq. simpl.
  fold (kept config st o results). rewrite Hk.
  rewrite (@map_throwing_first_Throws _ _ _ _ good r rest
             (OfKlipperError
                (new_SearchError ("Document not found: " ++ lunr.result_ref r)%string
                                 "SearchEngine.search"))).
  - reflexivity.
  - eapply Forall_impl; [|exact Hgood]. intros a Ha.
    now apply to_SearchResult_total.
  - unfold to_SearchResult. rewrite Hr. reflexivity.
Qed.

Lemma search_missing_document_throws_witness :
  search DEFAULT_CONFIG
         (@Build_SearchEngine (Sample.lib 3) (Some Sample.built) Sample.abDocs None)
         "extruder" no_options
  = Throws (new_SearchError "Document not found: config-reference/extruder"
                            "SearchEngine.search").
Proof.
  apply (@search_missing_document_throws (Sample.lib 3) DEFAULT_CONFIG
           (@Build_SearchEngine (Sample.lib 3) (Some Sample.built) Sample.abDocs None)
           Sample.built "extruder" no_options (Sample.hits "extruder") []
           [] {| lunr.result_ref := "config-reference/extruder";
                 lunr.result_score := inject_Z 11;
                 lunr.matchData := ["extruder"] |}).
  - reflexivity.
  - reflexivity.
  - reflexivity.
  - constructor.
  - reflexivity.
Defined.

(** ** The accessors *)

Lemma filter_nil_iff {A} (f : A -> bool) (l : list A) :
  filter f l = [] <-> forall x, In x l -> f x = false.
Proof.
  induction l as [|a l IH]; simpl.
  - split; [intros _ x [] | reflexivity].
  - destruct (f a) eqn:E; split.
    + discriminate.
    + intros H. specialize (H a (or_introl eq_refl)). congruence.
    + intros H x [<-|Hx]; [assumption|]. now apply IH.
    + intros H. apply IH. intros x Hx. apply H. now right.
Qed.

Lemma count_one (S : list string) (x : string) :
  NoDup S -> In x S ->
  fold_right (fun s n => ((if String.eqb x s then 1 else 0) + n)%nat) 0%nat S = 1%nat.
Proof.
  induction 1 as [|a S Ha Hnd IH]; simpl; [contradiction|].
  intros [->|Hx].
  - rewrite String.eqb_refl.
    assert (Hz : fold_right (fun s n => ((if String.eqb x s then 1 else 0) + n)%nat) 0%nat S
                 = 0%nat).
    { clear IH Hnd. induction S as [|b S IHS]; simpl; [reflexivity|].
      destruct (String.eqb_spec x b) as [->|_].
      - exfalso. apply Ha. now left.
      - apply IHS. intros H. apply Ha. now right. }
    now rewrite Hz.
  - destruct (String.eqb_spec x a) as [->|_]; [contradiction|].
    now apply IH.
Qed.

Lemma sum_by_section (S : list string) (l : list ParsedDocument) :
  NoDup S ->
  (forall doc, In doc l -> In (section doc) S) ->
  fold_right
    (fun s n => (List.length (filter (fun doc => String.eqb (section doc) s) l) + n)%nat)
    0%nat S
  = List.length l.
Proof.
  intros Hnd. induction l as [|d l IH]; intros Hcov; simpl.
  - clear. induction S as [|s S IHS]; simpl; [reflexivity | exact IHS].
  - assert (Hsplit : forall S',
      fold_right
        (fun s n =>
           (List.length (if String.eqb (section d) s
                         then d :: filter (fun doc => String.eqb (section doc) s) l
                         else filter (fun doc => String.eqb (section doc) s) l) + n)%nat)
        0%nat S'
      = (fold_right (fun s n => ((if String.eqb (section d) s then 1 else 0) + n)%nat) 0%nat S'
         + fold_right
             (fun s n =>
                (List.length (filter (fun doc => String.eqb (section doc) s) l) + n)%nat)
             0%nat S')%nat).
    { induction S' as [|s S' IHS]; simpl; [reflexivity|].
      rewrite IHS. destruct (String.eqb (section d) s); simpl; lia. }
    rewrite Hsplit.
    rewrite (@count_one S (section d) Hnd (Hcov d (or_introl eq_refl))).
    rewrite IH by (intros doc Hdoc; apply Hcov; now right).
    reflexivity.
Qed.

Lemma ascending_NoDup (l : list string) : ascending l -> NoDup l.
Proof.
  induction 1 as [|x l Hs IH Hx]; constructor; [|assumption].
  intros Hin. rewrite Forall_forall in Hx. specialize (Hx x Hin).
  unfold String.ltb in Hx.
  destruct (String.compare x x) eqn:E; try discriminate.
  pose proof (String.compare_antisym x x) as H. rewrite E in H. discriminate.
Qed.

(** X5: the section names of [getSections] are exactly the sections for
    which [getDocumentsBySection] finds documents, every document is listed
    under its own section, and the section listings together have as many
    entries as the store has documents. *)
Theorem sections_partition_the_documents {L : lunr.Lib} (st : SearchEngine L) :
  (forall s, In s (getSections st) <-> getDocumentsBySection st s <> [])
  /\ (forall doc, In doc (getAllDocuments st) ->
                  In doc (getDocumentsBySection st (section doc)))
  /\ fold_right (fun s n => (List.length (getDocumentsBySection st s) + n)%nat)
                0%nat (getSections st)
     = List.length (getAllDocuments st).
Proof.
  destruct (getSections_spec st) as [Hasc Hin].
  repeat split.
  - intros Hs Hnil. apply Hin in Hs. destruct Hs as [doc [Hdoc Hsec]].
    unfold getDocumentsBySection, getAllDocuments in Hnil.
    rewrite filter_nil_iff in Hnil. specialize (Hnil doc Hdoc).
    rewrite Hsec, String.eqb_refl in Hnil. discriminate.
  - intros Hne. apply Hin.
    unfold getDocumentsBySection, getAllDocuments in Hne.
    destruct (filter (fun doc => String.eqb (section doc) s) (values (docs st)))
      as [|doc l] eqn:E; [contradiction|].
    assert (Hd : In doc (filter (fun doc => String.eqb (section doc) s) (values (docs st))))
      by (rewrite E; now left).
    apply filter_In in Hd. destruct Hd as [Hd He].
    exists doc. split; [assumption | now apply String.eqb_eq].
  - intros doc Hdoc. unfold getDocumentsBySection. apply filter_In.
    split; [assumption | apply String.eqb_refl].
  - unfold getDocumentsBySection. apply sum_by_section.
    + now apply ascending_NoDup.
    + intros doc Hdoc. apply Hin. now exists doc.
Qed.

(** ** generateSnippet and extractHighlights *)

Lemma substring_length_le (n m : nat) (s : string) :
  (String.length (String.substring n m s) <= m)%nat.
Proof.
  revert n m; induction s as [|c s IH]; intros n m.
  - destruct n, m; simpl; lia.
  - destruct n as [|n].
    + destruct m as [|m]; simpl; [lia|]. specialize (IH 0%nat m). lia.
    + simpl. apply IH.
Qed.

Lemma Str_substring_len (s : string) (a b : Z) :
  (Str.len (Str.substring s a b)
   <= Z.abs (Z.max 0 (Z.min b (Str.len s)) - Z.max 0 (Z.min a (Str.len s))))%Z.
Proof.
  unfold Str.substring, Str.len at 1.
  pose proof (substring_length_le
                (Z.to_nat (Z.min (Z.max 0 (Z.min a (Str.len s)))
                                 (Z.max 0 (Z.min b (Str.len s)))))
                (Z.to_nat (Z.max (Z.max 0 (Z.min a (Str.len s)))
                                 (Z.max 0 (Z.min b (Str.len s)))
                           - Z.min (Z.max 0 (Z.min a (Str.len s)))
                                   (Z.max 0 (Z.min b (Str.len s)))))
                s) as H.
  lia.
Qed.

Lemma Str_substring_all (s : string) (b : Z) :
  (Str.len s <= b)%Z -> Str.substring s 0 b = s.
Proof.
  intros H. unfold Str.substring.
  assert (Hl : (0 <= Str.len s)%Z) by (unfold Str.len; lia).
  replace (Z.max 0 (Z.min 0 (Str.len s))) with 0%Z by lia.
  replace (Z.max 0 (Z.min b (Str.len s))) with (Str.len s) by lia.
  replace (Z.min 0 (Str.len s)) with 0%Z by lia.
  replace (Z.max 0 (Str.len s) - 0)%Z with (Str.len s) by lia.
  unfold Str.len. rewrite Nat2Z.id. simpl.
  rewrite <- (append_empty_r s) at 2. apply substring_0_append.
Qed.

Lemma best_window_nonneg (config : SearchConfig) (fuel : nat) (lowerContent : string)
    (queryTerms : list string) (i bestPosition bestScore : Z) :
  (0 <= i)%Z -> (0 <= bestPosition)%Z ->
  (0 <= best_window config fuel lowerContent queryTerms i bestPosition bestScore)%Z.
Proof.
  revert i bestPosition bestScore; induction fuel as [|fuel IH];
    intros i bp bs Hi Hbp; simpl; [assumption|].
  destruct (i <? Str.len lowerContent - snippetLength config)%Z; [|assumption].
  destruct (bs <? window_score config lowerContent queryTerms i)%Z; apply IH; lia.
Qed.

Lemma lastIndexOf_char_bounds (c : ascii) (s : string) :
  (-1 <= Str.lastIndexOf_char c s < Str.len s)%Z.
Proof.
  unfold Str.len. induction s as [|a s IH]; simpl; [lia|].
  destruct (0 <=? Str.lastIndexOf_char c s)%Z eqn:E.
  - lia.
  - destruct (Ascii.eqb a c); lia.
Qed.

Lemma indexOf_char_bounds (c : ascii) (s : string) :
  (-1 <= Str.indexOf_char c s < Str.len s)%Z.
Proof.
  unfold Str.len. induction s as [|a s IH]; simpl; [lia|].
  destruct (Ascii.eqb a c); [lia|].
  destruct (Str.indexOf_char c s <? 0)%Z; lia.
Qed.

Lemma trimStart_length (s : string) :
  (String.length (Str.trimStart s) <= String.length s)%nat.
Proof.
  induction s as [|c s IH]; simpl; [lia|].
  destruct (Str.is_space c); simpl; lia.
Qed.

Lemma trimEnd_length (s : string) :
  (String.length (Str.trimEnd s) <= String.length s)%nat.
Proof.
  induction s as [|c s IH]; simpl; [lia|].
  destruct (Str.trimEnd s); [destruct (Str.is_space c)|]; simpl in *; lia.
Qed.

Lemma trim_length (s : string) : (Str.len (Str.trim s) <= Str.len s)%Z.
Proof.
  unfold Str.trim, Str.len.
  pose proof (trimEnd_length (Str.trimStart s)). pose proof (trimStart_length s). lia.
Qed.

Lemma Str_len_append (a b : string) : Str.len (a ++ b) = (Str.len a + Str.len b)%Z.
Proof. unfold Str.len. rewrite length_append. lia. Qed.

(** X6: when neither the content nor its lower-cased form, whose length
    bounds the window loop, is longer than [snippetLength], the snippet is
    the whole content, trimmed, whatever the query. *)
Theorem generateSnippet_short_content (config : SearchConfig) (content q : string) :
  (Str.len content <= snippetLength config)%Z ->
  (Str.len (Str.toLowerCase content) <= snippetLength config)%Z ->
  generateSnippet config content q = Str.trim content.
Proof.
  intros H Hlower. unfold generateSnippet.
  assert (Hb : forall terms fuel,
             best_window config (S fuel) (Str.toLowerCase content) terms 0 0 0 = 0%Z).
  { intros terms fuel. simpl.
    destruct (0 <? Str.len (Str.toLowerCase content) - snippetLength config)%Z eqn:E;
      [|reflexivity].
    apply Z.ltb_lt in E. lia. }
  rewrite Hb.
  replace (0 + snippetLength config)%Z with (snippetLength config) by lia.
  rewrite (Str_substring_all _ H).
  change (0 <? 0)%Z with false. cbv iota.
  destruct (snippetLength config <? Str.len content)%Z eqn:E; [|reflexivity].
  apply Z.ltb_lt in E. lia.
Qed.

Lemma generateSnippet_short_content_witness :
  generateSnippet DEFAULT_CONFIG "  [extruder] rotation_distance: 7.5  " "nozzle"
  = "[extruder] rotation_distance: 7.5".
Proof.
  refine (eq_trans (@generateSnippet_short_content DEFAULT_CONFIG
                      "  [extruder] rotation_distance: 7.5  " "nozzle" _ _) _).
  - discriminate.
  - discriminate.
  - reflexivity.
Defined.

(** X7: with a non-negative [snippetLength], a snippet is at most
    [snippetLength + 3] characters long: the window, one ellipsis in front
    that replaces at least two characters, one behind that replaces at
    least one. *)
Theorem generateSnippet_length_bound (config : SearchConfig) (content q : string) :
  (0 <= snippetLength config)%Z ->
  (Str.len (generateSnippet config content q) <= snippetLength config + 3)%Z.
Proof.
  intros Hsl. unfold generateSnippet.
  set (lower := Str.toLowerCase content).
  set (terms := Str.split_ws (Str.toLowerCase q)).
  set (best := best_window config _ lower terms 0 0 0).
  assert (Hbest : (0 <= best)%Z) by (apply best_window_nonneg; lia).
  set (s0 := Str.substring content best (best + snippetLength config)).
  assert (H0 : (Str.len s0 <= snippetLength config)%Z).
  { pose proof (Str_substring_len content best (best + snippetLength config)).
    fold s0 in H. unfold Str.len in *. lia. }
  set (s1 := if (0 <? best)%Z then _ else s0).
  assert (H1 : (Str.len s1 <= snippetLength config + 1)%Z).
  { unfold s1. destruct (0 <? best)%Z; [|lia].
    destruct ((0 <? Str.indexOf_char " " s0) && (Str.indexOf_char " " s0 <? 20))%Z eqn:E;
      [|lia].
    apply andb_true_iff in E. destruct E as [E1 _]. apply Z.ltb_lt in E1.
    rewrite Str_len_append. unfold Str.substring_from.
    pose proof (Str_substring_len s0 (Str.indexOf_char " " s0 + 1) (Str.len s0)).
    pose proof (indexOf_char_bounds " " s0).
    change (Str.len "...") with 3%Z. unfold Str.len in *. lia. }
  set (s2 := if (best + snippetLength config <? Str.len content)%Z then _ else s1).
  assert (H2 : (Str.len s2 <= snippetLength config + 3)%Z).
  { unfold s2. destruct (best + snippetLength config <? Str.len content)%Z; [|lia].
    destruct (snippetLength config - 20 <? Str.lastIndexOf_char " " s1)%Z; [|lia].
    rewrite Str_len_append.
    pose proof (Str_substring_len s1 0 (Str.lastIndexOf_char " " s1)).
    pose proof (lastIndexOf_char_bounds " " s1).
    change (Str.len "...") with 3%Z. unfold Str.len in *. lia. }
  pose proof (trim_length s2). lia.
Qed.

Lemma generateSnippet_length_bound_witness :
  (Str.len (generateSnippet DEFAULT_CONFIG (content Sample.extruder) "heater") <= 203)%Z.
Proof.
  apply (@generateSnippet_length_bound DEFAULT_CONFIG (content Sample.extruder) "heater").
  discriminate.
Defined.

Lemma includes_empty (t : string) : Str.includes t "" = true.
Proof. unfold Str.includes. destruct t; reflexivity. Qed.

Lemma lower_keeps_space (c : ascii) :
  Str.is_space c = true -> Str.is_space (Str.lower c) = true.
Proof.
  destruct c as [[] [] [] [] [] [] [] []]; vm_compute; intros;
    try reflexivity; try discriminate.
Qed.

Lemma filter_all {A} (f : A -> bool) (l : list A) :
  (forall x, f x = true) -> filter f l = l.
Proof.
  intros H. induction l as [|a l IH]; simpl; [reflexivity|]. now rewrite H, IH.
Qed.

(** X8: the query is split at white space without dropping empty pieces, and
    the empty piece is contained in every term: for an empty query, and for
    one that starts with white space, every matched term is a highlight. *)
Theorem extractHighlights_blank_piece (result : lunr.Result) (q : string) :
  q = EmptyString \/ (exists c q', q = String c q' /\ Str.is_space c = true) ->
  extractHighlights result q = lunr.matchData result.
Proof.
  intros Hq. unfold extractHighlights.
  assert (Hin : In EmptyString (Str.split_ws (Str.toLowerCase q))).
  { destruct Hq as [->|[c [q' [-> Hc]]]].
    - now left.
    - unfold Str.split_ws. simpl. rewrite (lower_keeps_space _ Hc). now left. }
  apply filter_all. intros term. apply existsb_exists.
  exists EmptyString. split; [assumption|]. now rewrite includes_empty.
Qed.

Lemma extractHighlights_blank_piece_witness :
  extractHighlights {| lunr.result_ref := "a"; lunr.result_score := inject_Z 1;
                       lunr.matchData := ["extrud"; "heater"] |} " extruder"
  = ["extrud"; "heater"].
Proof.
  apply (@extractHighlights_blank_piece
           {| lunr.result_ref := "a"; lunr.result_score := inject_Z 1;
              lunr.matchData := ["extrud"; "heater"] |} " extruder").
  right. exists " "%char, "extruder". split; reflexivity.
Defined.

(** ** getConfig *)

(** X9: a value of 0 in the environment counts as unset, so the
    configuration never holds 0 for [maxResults], [snippetLength] or
    [minScore]; with a limit of 0 counting as unset too, [search] never
    truncates to 0 results under such a configuration. *)
Theorem getConfig_never_zero (env : Env) (o : SearchOptions) :
  maxResults (getConfig env) <> 0%Z
  /\ snippetLength (getConfig env) <> 0%Z
  /\ ~ (minScore (getConfig env) == 0)%Q
  /\ effective_limit (getConfig env) o <> 0%Z.
Proof.
  assert (Hz : forall a b, b <> 0%Z -> or_Z a b <> 0%Z).
  { intros [n|] b Hb; simpl; [|assumption].
    unfold truthy_Z. destruct (n =? 0)%Z eqn:E; simpl; [assumption|].
    now apply Z.eqb_neq in E. }
  assert (Hm : maxResults (getConfig env) <> 0%Z) by (apply Hz; discriminate).
  repeat split.
  - exact Hm.
  - apply Hz. discriminate.
  - simpl. destruct (SEARCH_MIN_SCORE env) as [x|]; simpl; [|discriminate].
    destruct (Qeq_bool x 0) eqn:E; [discriminate|].
    intros H. apply Qeq_bool_iff in H. congruence.
  - unfold effective_limit. now apply Hz.
Qed.

(* ================================================================== *)
(** * Further properties of the extractor *)

Section ExtractorResults.

Import Regex Server Blocks.

(** ** What a match consumes *)

Lemma greedy_result (p : ascii -> bool) (s : string)
    (K : string -> option (string * captures)) (res : string * captures) :
  greedy p s K = Some res ->
  exists w t, s = (w ++ t)%string /\ K t = Some res.
Proof.
  induction s as [|a s IH]; simpl.
  - intros H. now exists EmptyString, EmptyString.
  - destruct (p a).
    + destruct (greedy p s K) as [r|] eqn:E.
      * intros H; inversion H; subst. destruct (IH eq_refl) as [w [t [-> Ht]]].
        now exists (String a w), t.
      * intros H. now exists EmptyString, (String a s).
    + intros H. now exists EmptyString, (String a s).
Qed.

Lemma lazy_result (p : ascii -> bool) (s : string)
    (K : string -> option (string * captures)) (res : string * captures) :
  lazy p s K = Some res ->
  exists w t, s = (w ++ t)%string /\ K t = Some res.
Proof.
  induction s as [|a s IH]; simpl.
  - destruct (K "") eqn:E; [|discriminate].
    intros H; inversion H; subst. now exists EmptyString, EmptyString.
  - destruct (K (String a s)) eqn:E.
    + intros H; inversion H; subst. now exists EmptyString, (String a s).
    + destruct (p a); [|discriminate].
      intros H. destruct (IH H) as [w [t [-> Ht]]]. now exists (String a w), t.
Qed.

(** A successful run hands a suffix of its input to its continuation. *)
Lemma run_result (r : regex) :
  forall (s : string) (c : captures) (k : cont) (res : string * captures),
    run r s c k = Some res ->
    exists w t c', s = (w ++ t)%string /\ k t c' = Some res.
Proof.
  induction r as [|p|r1 IH1 r2 IH2|r1 IH1 r2 IH2|p|p|n r IH|r IH|];
    intros s c k res; cbn [run].
  - intros H. now exists EmptyString, s, c.
  - destruct s as [|a s]; [discriminate|].
    destruct (p a); [|discriminate].
    intros H. now exists (String a EmptyString), s, c.
  - intros H. destruct (IH1 _ _ _ _ H) as [w1 [t1 [c1 [-> H1]]]].
    destruct (IH2 _ _ _ _ H1) as [w2 [t2 [c2 [-> H2]]]].
    exists (w1 ++ w2)%string, t2, c2. split; [now rewrite append_assoc | assumption].
  - destruct (run r1 s c k) as [x|] eqn:E.
    + intros H; inversion H; subst. eapply IH1; eauto.
    + intros H. eapply IH2; eauto.
  - intros H. destruct (greedy_result _ _ _ H) as [w [t [-> Ht]]]. now exists w, t, c.
  - intros H. destruct (lazy_result _ _ _ H) as [w [t [-> Ht]]]. now exists w, t, c.
  - intros H. destruct (IH _ _ _ _ H) as [w [t [c1 [-> H1]]]]. eauto.
  - destruct (run r s c accept) as [[t c1]|]; [|discriminate].
    intros H. now exists EmptyString, s, c1.
  - destruct s; [|discriminate]. intros H. now exists EmptyString, EmptyString, c.
Qed.

Lemma exec_from_result (r : regex) (s : string) (i : Z) (m : Match) :
  exec_from r s i = Some m ->
  exists pre suf rest c,
    s = (pre ++ suf)%string
    /\ run r suf [] accept = Some (rest, c)
    /\ m_0 m = taken suf rest
    /\ m_groups m = c.
Proof.
  revert i; induction s as [|a s IH]; intros i; rewrite exec_from_unfold.
  - destruct (run r "" [] accept) as [[rest c]|] eqn:E; [|discriminate].
    intros H; inversion H; subst. now exists EmptyString, EmptyString, rest, c.
  - destruct (run r (String a s) [] accept) as [[rest c]|] eqn:E.
    + intros H; inversion H; subst. now exists EmptyString, (String a s), rest, c.
    + intros H. destruct (IH _ H) as [pre [suf [rest [c [-> Hr]]]]].
      now exists (String a pre), suf, rest, c.
Qed.

Lemma run_Cat (r1 r2 : regex) (s : string) (c : captures) (k : cont) :
  run (Cat r1 r2) s c k = run r1 s c (fun s' c' => run r2 s' c' k).
Proof. reflexivity. Qed.

Lemma run_Group (n : nat) (r : regex) (s : string) (c : captures) (k : cont) :
  run (Group n r) s c k = run r s c (fun s' c' => k s' (set_group n (taken s s') c')).
Proof. reflexivity. Qed.

Lemma run_Chr (p : ascii -> bool) (s : string) (c : captures) (k : cont) :
  run (Chr p) s c k
  = match s with
    | String a s' => if p a then k s' c else None
    | EmptyString => None
    end.
Proof. reflexivity. Qed.

(** A match of the bracket pattern starts with an opening bracket and the
    variant, in any letter case. *)
Lemma run_bracketPattern (variant s rest : string) (c : captures) :
  run (bracketPattern variant) s [] accept = Some (rest, c) ->
  exists v w,
    s = ("[" ++ v ++ w ++ rest)%string /\ same_text_i variant v.
Proof.
  unfold bracketPattern, lit_i.
  rewrite run_Cat, run_Group, run_Cat, run_Chr.
  destruct s as [|a s1]; [discriminate|].
  destruct (just_i "[" a) eqn:Ha; [|discriminate].
  apply just_i_open in Ha. subst a.
  rewrite run_lit_then.
  destruct (strip just_i variant s1) as [s3|] eqn:Hv; [|discriminate].
  destruct (strip_same_text _ _ Hv) as [v [-> Hsame]].
  intros H.
  destruct (run_result _ _ _ _ H) as [w1 [t1 [c1 [-> H1]]]].
  cbn beta in H1.
  destruct (run_result _ _ _ _ H1) as [w2 [t2 [c2 [-> H2]]]].
  unfold accept in H2. inversion H2; subst.
  exists v, (w1 ++ w2)%string. split; [|assumption].
  simpl. now rewrite append_assoc.
Qed.

(** ** What [try_variant] answers *)

Lemma try_variant_result (content variant r : string) :
  try_variant content variant = Some r ->
  exists pre v post,
    r = (pre ++ "[" ++ v ++ post)%string
    /\ same_text_i variant v
    /\ exists p q, content = (p ++ "[" ++ q)%string.
Proof.
  unfold try_variant, exec.
  pose proof (exec_headerPattern variant content 0) as He.
  destruct (find_marker variant content) as [[[pre h] t]|] eqn:Hf.
  - destruct He as [m [He [H1 H2]]]. rewrite He, H1, H2.
    destruct (find_marker_split _ _ Hf) as [Hc [Hm _]].
    destruct Hm as [ws [v [label [line [Hh [_ [Hsame _]]]]]]].
    destruct (truthy_string h && truthy_string (fst (until_block_end t))) eqn:E.
    + intros H; inversion H; subst r.
      exists ("###" ++ ws)%string, v,
             (label ++ "]" ++ line ++ NL ++ fst (until_block_end t))%string.
      split; [|split; [assumption|]].
      * rewrite Hh. repeat (rewrite !append_assoc; simpl). reflexivity.
      * exists (pre ++ "###" ++ ws)%string, (v ++ label ++ "]" ++ line ++ NL ++ t)%string.
        rewrite Hc, Hh. repeat (rewrite !append_assoc; simpl). reflexivity.
    + destruct (exec_from (bracketPattern variant) content 0) as [m2|] eqn:E2;
        [|discriminate].
      intros H; inversion H; subst r.
      destruct (exec_from_result _ _ _ E2) as [p [suf [rest [c [Hs [Hr [H0 _]]]]]]].
      destruct (run_bracketPattern _ _ Hr) as [v' [w [Hsuf Hsame']]].
      eexists _, v', w. split; [|split; [assumption|]].
      * rewrite H0, Hsuf.
        replace ("[" ++ v' ++ w ++ rest)%string with (("[" ++ v' ++ w) ++ rest)%string
          by (repeat (rewrite !append_assoc; simpl); reflexivity).
        rewrite taken_append. reflexivity.
      * exists p, (v' ++ w ++ rest)%string. now rewrite Hs, Hsuf.
  - rewrite He.
    destruct (exec_from (bracketPattern variant) content 0) as [m2|] eqn:E2;
      [|discriminate].
    intros H; inversion H; subst r.
    destruct (exec_from_result _ _ _ E2) as [p [suf [rest [c [Hs [Hr [H0 _]]]]]]].
    destruct (run_bracketPattern _ _ Hr) as [v' [w [Hsuf Hsame']]].
    eexists _, v', w. split; [|split; [assumption|]].
    + rewrite H0, Hsuf.
      replace ("[" ++ v' ++ w ++ rest)%string with (("[" ++ v' ++ w) ++ rest)%string
        by (repeat (rewrite !append_assoc; simpl); reflexivity).
      rewrite taken_append. reflexivity.
    + exists p, (v' ++ w ++ rest)%string. now rewrite Hs, Hsuf.
Qed.

Lemma first_hit_result (content : string) (variants : list string) (r : string) :
  first_hit content variants = Some r ->
  exists variant, In variant variants /\ try_variant content variant = Some r.
Proof.
  induction variants as [|v l IH]; simpl; [discriminate|].
  destruct (try_variant content v) as [r'|] eqn:E.
  - intros H; inversion H; subst. exists v. auto.
  - intros H. destruct (IH H) as [v' [Hin Hv]]. exists v'. auto.
Qed.

Lemma all_chars_append (p : ascii -> bool) (a b : string) :
  all_chars p (a ++ b) -> all_chars p a /\ all_chars p b.
Proof.
  induction a as [|x a IH]; simpl; [tauto|].
  intros [Hx H]. destruct (IH H). tauto.
Qed.

End ExtractorResults.

(** X10: a block that [extractConfigSection] returns is never empty: it
    holds an opening bracket followed by one of the variants of the option
    name, in any letter case.  The caller's test [if (sectionContent)]
    therefore loses no match. *)
Theorem extractConfigSection_result_names_option (content opt r : string) :
  Server.extractConfigSection content opt = Some r ->
  r <> EmptyString
  /\ exists variant pre v post,
       In variant (Server.optionVariants opt)
       /\ Blocks.same_text_i variant v
       /\ r = (pre ++ "[" ++ v ++ post)%string.
Proof.
  unfold Server.extractConfigSection. intros H.
  destruct (first_hit_result _ _ H) as [variant [Hin Hv]].
  destruct (try_variant_result _ _ Hv) as [pre [v [post [-> [Hsame _]]]]].
  split.
  - destruct pre; discriminate.
  - now exists variant, pre, v, post.
Qed.

Lemma extractConfigSection_result_names_option_witness :
  Server.lines ["### Mesh"; ""; "[bed_mesh]"; "speed: 50"; ""] <> EmptyString.
Proof.
  exact (proj1 (@extractConfigSection_result_names_option
                  (Server.lines ["# Ref"; "### Mesh"; "text"; "[bed_mesh]"; "speed: 50";
                                 ""; "[other]"; "x"])
                  "BED-mesh"
                  (Server.lines ["### Mesh"; ""; "[bed_mesh]"; "speed: 50"; ""])
                  eq_refl)).
Defined.

(** X11: for a document without an opening bracket [extractConfigSection]
    finds nothing, whatever the option name. *)
Theorem extractConfigSection_needs_bracket (content opt : string) :
  Blocks.all_chars (Regex.except "[") content ->
  Server.extractConfigSection content opt = None.
Proof.
  intros Hall.
  destruct (Server.extractConfigSection content opt) as [r|] eqn:E; [|reflexivity].
  exfalso. unfold Server.extractConfigSection in E.
  destruct (first_hit_result _ _ E) as [variant [_ Hv]].
  destruct (try_variant_result _ _ Hv) as [_ [_ [_ [_ [_ [p [q ->]]]]]]].
  apply all_chars_append in Hall. destruct Hall as [_ Hq].
  simpl in Hq. destruct Hq as [Hq _]. discriminate.
Qed.

Lemma extractConfigSection_needs_bracket_witness :
  Server.extractConfigSection (Server.lines ["### bed_mesh"; "speed: 50"]) "bed_mesh" = None.
Proof.
  apply extractConfigSection_needs_bracket.
  vm_compute. repeat split.
Defined.

(* ================================================================== *)
(** * Properties of the tool handlers *)

Section ToolFacts.

Import Tools.

Context {L : lunr.Lib}.
Variable config : SearchConfig.
Variable toFixed1 : Q -> string.
Variable toLocaleString : Z -> string.
Variable toISOString : Date -> string.

Lemma extractConfigSection_truthy (text opt sec : string) :
  Server.extractConfigSection text opt = Some sec -> truthy_string sec = true.
Proof.
  unfold Server.extractConfigSection. intros H.
  destruct (first_hit_result _ _ H) as [variant [_ Hv]].
  destruct (try_variant_result _ _ Hv) as [pre [v [post [-> _]]]].
  destruct pre; reflexivity.
Qed.

Lemma section_of_Some (text opt sec : string) :
  Server.extractConfigSection text opt = Some sec -> section_of text opt = Some sec.
Proof.
  intros H. unfold section_of. now rewrite H, (extractConfigSection_truthy _ _ H).
Qed.

Lemma callTool_search (now : Date) (st : SearchEngine L) (args : Arguments) :
  callTool config toFixed1 toLocaleString toISOString now st "search_klipper_docs" args
  = match handleSearch config toFixed1 st (as_SearchToolInput args) with
    | Returns r => r
    | Throws e => {| r_text := "Error: " ++ message e; r_isError := true |}
    end.
Proof.
  unfold callTool. simpl String.eqb. cbv iota.
  destruct (handleSearch config toFixed1 st (as_SearchToolInput args)); reflexivity.
Qed.

Lemma callTool_lookup (now : Date) (st : SearchEngine L) (args : Arguments) :
  callTool config toFixed1 toLocaleString toISOString now st "get_config_option" args
  = match handleLookup config st (as_LookupToolInput args) with
    | Returns r => r
    | Throws e => {| r_text := "Error: " ++ message e; r_isError := true |}
    end.
Proof.
  unfold callTool. simpl String.eqb. cbv iota.
  destruct (handleLookup config st (as_LookupToolInput args)); reflexivity.
Qed.

Lemma callTool_browse (now : Date) (st : SearchEngine L) (args : Arguments) :
  callTool config toFixed1 toLocaleString toISOString now st "browse_docs" args
  = match handleBrowse toLocaleString toISOString now st (as_BrowseToolInput args) with
    | Returns r => r
    | Throws e => {| r_text := "Error: " ++ message e; r_isError := true |}
    end.
Proof.
  unfold callTool. simpl String.eqb. cbv iota.
  destruct (handleBrowse toLocaleString toISOString now st (as_BrowseToolInput args));
    reflexivity.
Qed.

End ToolFacts.

(** X12: a tool name other than the four registered ones is answered, not
    thrown: the answer is flagged as an error and reads
    "Error: Unknown tool: <name>". *)
Theorem callTool_unknown_tool {L : lunr.Lib} (config : SearchConfig)
    (toFixed1 : Q -> string) (toLocaleString : Z -> string) (toISOString : Date -> string)
    (now : Date) (st : SearchEngine L) (name : string) (args : Tools.Arguments) :
  name <> "search_klipper_docs" ->
  name <> "get_config_option" ->
  name <> "browse_docs" ->
  name <> "get_index_stats" ->
  Tools.callTool config toFixed1 toLocaleString toISOString now st name args
  = {| Tools.r_text := "Error: Unknown tool: " ++ name; Tools.r_isError := true |}.
Proof.
  intros H1 H2 H3 H4. unfold Tools.callTool.
  apply String.eqb_neq in H1, H2, H3, H4. rewrite H1, H2, H3, H4. reflexivity.
Qed.

Lemma callTool_unknown_tool_witness :
  Tools.callTool DEFAULT_CONFIG (fun _ => "") (fun _ => "") (fun _ => "") 0%Z
                 Sample.engine "search"
                 {| Tools.a_query := "bed"; Tools.a_limit := None; Tools.a_section := None;
                    Tools.a_option := ""; Tools.a_includeExamples := None;
                    Tools.a_path := None |}
  = {| Tools.r_text := "Error: Unknown tool: search"; Tools.r_isError := true |}.
Proof.
  apply (@callTool_unknown_tool (Sample.lib 3)); discriminate.
Defined.

(** X13: while no index is built, the search tool answers with the error
    "Error: Search index not initialized", and so does the lookup tool
    unless the Config_Reference document of the store has a section for the
    option. *)
Theorem tools_before_the_index_is_built {L : lunr.Lib} (config : SearchConfig)
    (toFixed1 : Q -> string) (toLocaleString : Z -> string) (toISOString : Date -> string)
    (now : Date) (st : SearchEngine L) (args : Tools.Arguments) :
  index st = None ->
  Tools.callTool config toFixed1 toLocaleString toISOString now st
                 "search_klipper_docs" args
  = {| Tools.r_text := "Error: Search index not initialized"; Tools.r_isError := true |}
  /\ ((forall d, getDocument st "Config_Reference" = Some d ->
                 Server.extractConfigSection (content d) (Tools.a_option args) = None) ->
      Tools.callTool config toFixed1 toLocaleString toISOString now st
                     "get_config_option" args
      = {| Tools.r_text := "Error: Search index not initialized";
           Tools.r_isError := true |}).
Proof.
  intros Hi. split.
  - rewrite callTool_search. unfold Tools.handleSearch.
    now rewrite (search_not_ready config st _ _ Hi).
  - intros Href. rewrite callTool_lookup. unfold Tools.handleLookup.
    assert (Hnone : match getDocument st "Config_Reference" with
                    | Some configRefDoc =>
                        Tools.section_of (content configRefDoc)
                                         (Tools.i_option (Tools.as_LookupToolInput args))
                    | None => None
                    end = None).
    { destruct (getDocument st "Config_Reference") as [d|]; [|reflexivity].
      unfold Tools.section_of. simpl. now rewrite (Href d eq_refl). }
    rewrite Hnone. now rewrite (search_not_ready config st _ _ Hi).
Qed.

Lemma tools_before_the_index_is_built_witness :
  Tools.callTool DEFAULT_CONFIG (fun _ => "") (fun _ => "") (fun _ => "") 0%Z
                 (fst (buildIndex (L := Sample.lib 2) 1000%Z new_SearchEngine
                                  Sample.mockDocs))
                 "search_klipper_docs"
                 {| Tools.a_query := "bed"; Tools.a_limit := None; Tools.a_section := None;
                    Tools.a_option := ""; Tools.a_includeExamples := None;
                    Tools.a_path := None |}
  = {| Tools.r_text := "Error: Search index not initialized"; Tools.r_isError := true |}.
Proof.
  refine (proj1 (@tools_before_the_index_is_built (Sample.lib 2) DEFAULT_CONFIG
                   (fun _ => "") (fun _ => "") (fun _ => "") 0%Z _ _ _)).
  reflexivity.
Defined.

(** X14: the lookup tool reads the Config_Reference document of the store
    first: when it has a section for the option, that section is the answer,
    whether or not an index is built and whatever lunr would find. *)
Theorem handleLookup_reads_reference_first {L : lunr.Lib} (config : SearchConfig)
    (st : SearchEngine L) (input : Tools.LookupToolInput) (d : ParsedDocument)
    (sec : string) :
  getDocument st "Config_Reference" = Some d ->
  Server.extractConfigSection (content d) (Tools.i_option input) = Some sec ->
  Tools.handleLookup config st input
  = Returns (Tools.answer
               (Server.lines [ ("# Configuration: [" ++ Tools.i_option input ++ "]")%string;
                               "";
                               "**Source**: Klipper Configuration Reference";
                               "";
                               sec ])).
Proof.
  intros Hd Hs. unfold Tools.handleLookup.
  now rewrite Hd, (section_of_Some _ _ Hs).
Qed.

Lemma handleLookup_reads_reference_first_witness :
  Tools.handleLookup DEFAULT_CONFIG
    (@Build_SearchEngine (Sample.lib 3) None
       (set [] "Config_Reference"
            (Sample.mock "Config_Reference" "Configuration reference"
               (Server.lines ["### [bed_mesh]"; "foo"; "### [extruder]"; "bar"])
               "config-reference"))
       None)
    {| Tools.i_option := "bed_mesh"; Tools.i_includeExamples := None |}
  = Returns (Tools.answer
               (Server.lines [ "# Configuration: [bed_mesh]";
                               "";
                               "**Source**: Klipper Configuration Reference";
                               "";
                               Server.lines ["### [bed_mesh]"; "foo"] ])).
Proof.
  apply (@handleLookup_reads_reference_first (Sample.lib 3) DEFAULT_CONFIG _
           {| Tools.i_option := "bed_mesh"; Tools.i_includeExamples := None |}
           (Sample.mock "Config_Reference" "Configuration reference"
              (Server.lines ["### [bed_mesh]"; "foo"; "### [extruder]"; "bar"])
              "config-reference")
           (Server.lines ["### [bed_mesh]"; "foo"])).
  - reflexivity.
  - reflexivity.
Defined.

Lemma getSections_iff_documents {L : lunr.Lib} (st : SearchEngine L) (s : string) :
  In s (getSections st) <-> getDocumentsBySection st s <> [].
Proof.
  destruct (getSections_spec st) as [_ Hin]. rewrite Hin.
  unfold getDocumentsBySection, getAllDocuments. split.
  - intros [doc [Hdoc Hsec]] Hnil.
    rewrite filter_nil_iff in Hnil. specialize (Hnil doc Hdoc).
    rewrite Hsec, String.eqb_refl in Hnil. discriminate.
  - intros Hne.
    destruct (filter (fun doc => String.eqb (section doc) s) (values (docs st)))
      as [|doc l] eqn:E; [contradiction|].
    assert (Hd : In doc (filter (fun doc => String.eqb (section doc) s) (values (docs st))))
      by (rewrite E; now left).
    apply filter_In in Hd. destruct Hd as [Hd He].
    exists doc. split; [assumption | now apply String.eqb_eq].
Qed.

(** X15: without a path, the browse tool asked for a section answers
    "No documents found in section ..." exactly when the section is not
    one of [getSections]. *)
Theorem handleBrowse_empty_section {L : lunr.Lib}
    (toLocaleString : Z -> string) (toISOString : Date -> string)
    (now : Date) (st : SearchEngine L) (input : Tools.BrowseToolInput) (s : string) :
  Tools.i_path input = None \/ Tools.i_path input = Some EmptyString ->
  Tools.i_browse_section input = Some s ->
  s <> EmptyString ->
  (Tools.handleBrowse toLocaleString toISOString now st input
   = Returns (Tools.answer
                ("No documents found in section " ++ Tools.dq ++ s ++ Tools.dq ++ ".")%string)
   <-> ~ In s (getSections st)).
Proof.
  intros Hp Hs Hne. unfold Tools.handleBrowse.
  assert (Hgp : Tools.given (Tools.i_path input) = None)
    by (destruct Hp as [-> | ->]; reflexivity).
  assert (Hgs : Tools.given (Tools.i_browse_section input) = Some s).
  { rewrite Hs. unfold Tools.given. destruct s; [contradiction | reflexivity]. }
  rewrite Hgp, Hgs. rewrite getSections_iff_documents.
  destruct (getDocumentsBySection st s) as [|doc l].
  - split; [intros _ H; now apply H | reflexivity].
  - split.
    + intros H. inversion H.
    + intros H. exfalso. apply H. discriminate.
Qed.

Lemma handleBrowse_empty_section_witness :
  Tools.handleBrowse (fun _ => "") (fun _ => "") 0%Z Sample.engine
                     {| Tools.i_browse_section := Some "macros"; Tools.i_path := None |}
  = Returns (Tools.answer
               ("No documents found in section " ++ Tools.dq ++ "macros" ++ Tools.dq ++ ".")%string).
Proof.
  apply (@handleBrowse_empty_section (Sample.lib 3) (fun _ => "") (fun _ => "") 0%Z
           Sample.engine
           {| Tools.i_browse_section := Some "macros"; Tools.i_path := None |} "macros").
  - now left.
  - reflexivity.
  - discriminate.
  - vm_compute. intros [H|[H|[]]]; discriminate.
Defined.

(** X16: a non-empty path decides the browse tool alone: a path that is not
    in the store is an error, "Error: Document not found: <path>", even
    when a section with documents is asked for too. *)
Theorem browse_unknown_path_is_an_error {L : lunr.Lib} (config : SearchConfig)
    (toFixed1 : Q -> string) (toLocaleString : Z -> string) (toISOString : Date -> string)
    (now : Date) (st : SearchEngine L) (args : Tools.Arguments) (p : string) :
  Tools.a_path args = Some p ->
  p <> EmptyString ->
  getDocument st p = None ->
  Tools.handleBrowse toLocaleString toISOString now st (Tools.as_BrowseToolInput args)
  = Throws {| name := "NotFoundError";
              message := ("Document not found: " ++ p)%string;
              type := NOT_FOUND;
              context := "BrowseDocs";
              details := None |}
  /\ Tools.callTool config toFixed1 toLocaleString toISOString now st "browse_docs" args
     = {| Tools.r_text := "Error: Document not found: " ++ p; Tools.r_isError := true |}.
Proof.
  intros Hp Hne Hd.
  assert (H : Tools.handleBrowse toLocaleString toISOString now st
                                 (Tools.as_BrowseToolInput args)
              = Throws (Tools.new_NotFoundError ("Document not found: " ++ p) "BrowseDocs")).
  { assert (Hg : Tools.given (Some p) = Some p)
      by (unfold Tools.given; destruct p; [contradiction | reflexivity]).
    unfold Tools.handleBrowse, Tools.as_BrowseToolInput.
    cbn [Tools.i_path Tools.i_browse_section]. rewrite Hp, Hg, Hd. reflexivity. }
  split; [exact H|].
  rewrite callTool_browse, H. reflexivity.
Qed.

Lemma browse_unknown_path_is_an_error_witness :
  Tools.callTool DEFAULT_CONFIG (fun _ => "") (fun _ => "") (fun _ => "") 0%Z
                 Sample.engine "browse_docs"
                 {| Tools.a_query := ""; Tools.a_limit := None;
                    Tools.a_section := Some "g-codes";
                    Tools.a_option := ""; Tools.a_includeExamples := None;
                    Tools.a_path := Some "g-codes/missing" |}
  = {| Tools.r_text := "Error: Document not found: g-codes/missing";
       Tools.r_isError := true |}.
Proof.
  refine (proj2 (@browse_unknown_path_is_an_error (Sample.lib 3) DEFAULT_CONFIG
                   (fun _ => "") (fun _ => "") (fun _ => "") 0%Z Sample.engine
                   {| Tools.a_query := ""; Tools.a_limit := None;
                      Tools.a_section := Some "g-codes";
                      Tools.a_option := ""; Tools.a_includeExamples := None;
                      Tools.a_path := Some "g-codes/missing" |}
                   "g-codes/missing" eq_refl _ eq_refl)).
  discriminate.
Defined.

(* ================================================================== *)
(** * Properties of the parser's classification and metadata *)

Lemma split_at_aux_directory (sep : ascii) (d r cur : string) :
  Blocks.all_chars (Regex.except sep) d ->
  Parser.split_at_aux sep (d ++ String sep r) cur
  = (cur ++ d)%string :: Parser.split_at_aux sep r EmptyString.
Proof.
  revert cur; induction d as [|c d IH]; intros cur Hd; simpl.
  - rewrite Ascii.eqb_refl. now rewrite append_empty_r.
  - destruct Hd as [Hc Hd]. unfold Regex.except in Hc.
    destruct (Ascii.eqb c sep); [discriminate|].
    rewrite (IH _ Hd). now rewrite append_assoc.
Qed.

Lemma split_at_aux_file (sep : ascii) (f cur : string) :
  Blocks.all_chars (Regex.except sep) f ->
  Parser.split_at_aux sep f cur = [(cur ++ f)%string].
Proof.
  revert cur; induction f as [|c f IH]; intros cur Hf; simpl.
  - now rewrite append_empty_r.
  - destruct Hf as [Hc Hf]. unfold Regex.except in Hc.
    destruct (Ascii.eqb c sep); [discriminate|].
    rewrite (IH _ Hf). now rewrite append_assoc.
Qed.

Lemma split_at_aux_nonempty (sep : ascii) (s cur : string) :
  exists x l, Parser.split_at_aux sep s cur = x :: l.
Proof.
  revert cur; induction s as [|c s IH]; intros cur; simpl; [eauto|].
  destruct (Ascii.eqb c sep); [eauto | apply IH].
Qed.

(** X17: a document inside a directory gets the name of its first directory
    as its section, whatever its file name, and the name of its second
    directory, when it has one, as its subsection. *)
Theorem extractSection_first_directory (sep : ascii) (basename : string -> string -> string)
    (dir rest : string) :
  Blocks.all_chars (Regex.except sep) dir ->
  dir <> EmptyString ->
  Parser.extractSection sep basename (dir ++ String sep rest) = dir
  /\ (Blocks.all_chars (Regex.except sep) rest ->
      Parser.extractSubsection sep (dir ++ String sep rest) = None)
  /\ (forall d2 r2,
         Blocks.all_chars (Regex.except sep) d2 ->
         Parser.extractSubsection sep (dir ++ String sep (d2 ++ String sep r2)) = Some d2).
Proof.
  intros Hdir Hne. repeat split.
  - unfold Parser.extractSection, Parser.split_at.
    rewrite (@split_at_aux_directory _ _ _ _ Hdir). simpl.
    destruct (split_at_aux_nonempty sep rest "") as [x [l ->]].
    destruct dir; [contradiction | reflexivity].
  - intros Hrest. unfold Parser.extractSubsection, Parser.split_at.
    rewrite (@split_at_aux_directory _ _ _ _ Hdir), (@split_at_aux_file _ _ _ Hrest).
    reflexivity.
  - intros d2 r2 Hd2. unfold Parser.extractSubsection, Parser.split_at.
    rewrite (@split_at_aux_directory _ _ _ _ Hdir), (@split_at_aux_directory _ _ _ _ Hd2).
    destruct (split_at_aux_nonempty sep r2 "") as [x [l ->]]. reflexivity.
Qed.

Lemma extractSection_first_directory_witness :
  Parser.extractSection "/" (fun p _ => p) "config/options.md" = "config".
Proof.
  refine (proj1 (@extractSection_first_directory "/" (fun p _ => p) "config" "options.md"
                   _ _)).
  - vm_compute. repeat split.
  - discriminate.
Defined.

Lemma category_range (filename : string) :
  In (Parser.category filename)
     [ "config-reference"; "g-codes"; "protocol"; "calibration"; "hardware";
       "installation"; "troubleshooting"; "api"; "software"; "general"; "community" ].
Proof.
  unfold Parser.category.
  repeat match goal with
         | |- context [if ?b then _ else _] => destruct b
         end; simpl; tauto.
Qed.

(** X18: a document outside every directory is filed under one of eleven
    fixed sections, chosen by its lower-cased file name. *)
Theorem extractSection_top_level (sep : ascii) (basename : string -> string -> string)
    (relativePath : string) :
  Blocks.all_chars (Regex.except sep) relativePath ->
  Parser.extractSection sep basename relativePath
  = Parser.category (Str.toLowerCase (basename relativePath ".md"))
  /\ In (Parser.extractSection sep basename relativePath)
        [ "config-reference"; "g-codes"; "protocol"; "calibration"; "hardware";
          "installation"; "troubleshooting"; "api"; "software"; "general"; "community" ].
Proof.
  intros H.
  assert (E : Parser.extractSection sep basename relativePath
              = Parser.category (Str.toLowerCase (basename relativePath ".md"))).
  { unfold Parser.extractSection, Parser.split_at.
    now rewrite (@split_at_aux_file _ _ _ H). }
  split; [exact E|]. rewrite E. apply category_range.
Qed.

Lemma extractSection_top_level_witness :
  Parser.extractSection "/" (fun _ _ => "Config_Reference") "Config_Reference.md"
  = "config-reference".
Proof.
  refine (eq_trans (proj1 (@extractSection_top_level "/" (fun _ _ => "Config_Reference")
                             "Config_Reference.md" _)) _).
  - vm_compute. repeat split.
  - reflexivity.
Defined.

(** X19: a document with more than twenty headings is rated advanced, and
    one rated intermediate has between five and twenty headings and names
    fewer than three of the advanced and fewer than two of the beginner
    keywords. *)
Theorem determineDifficulty_by_headings (content : string) (headings : list DocumentHeading) :
  ((20 < List.length headings)%nat ->
   Parser.determineDifficulty content headings = advanced)
  /\ (Parser.determineDifficulty content headings = intermediate ->
      (5 <= List.length headings <= 20)%nat
      /\ (List.length (filter (fun kw => Str.includes (Str.toLowerCase content) kw)
                              Parser.advancedKeywords) < 3)%nat
      /\ (List.length (filter (fun kw => Str.includes (Str.toLowerCase content) kw)
                              Parser.beginnerKeywords) < 2)%nat).
Proof.
  unfold Parser.determineDifficulty.
  set (a := List.length (filter _ Parser.advancedKeywords)).
  set (b := List.length (filter _ Parser.beginnerKeywords)).
  split.
  - intros H. apply Nat.ltb_lt in H. rewrite H, orb_true_r. reflexivity.
  - destruct (3 <=? a)%nat eqn:Ea; [discriminate|].
    destruct (20 <? List.length headings)%nat eqn:Eh; [discriminate|].
    destruct (2 <=? b)%nat eqn:Eb; [discriminate|].
    destruct (List.length headings <? 5)%nat eqn:E5; [discriminate|].
    intros _. apply Nat.leb_gt in Ea, Eb. apply Nat.ltb_ge in Eh, E5. lia.
Qed.

Lemma determineDifficulty_by_headings_witness :
  Parser.determineDifficulty
    "" (repeat {| level := 2%Z; text := "Pins"; anchor := "pins" |} 21) = advanced.
Proof.
  apply (proj1 (determineDifficulty_by_headings _ _)). simpl. lia.
Defined.

(** ** The tags *)

Lemma tags_from_frontmatter_In (l : list string) (acc : list string) (t : string) :
  In t (fold_left (fun tags tag => add tags (Str.toLowerCase tag)) l acc)
  <-> In t acc \/ exists x, In x l /\ t = Str.toLowerCase x.
Proof.
  revert acc; induction l as [|x l IH]; intros acc; simpl.
  - split; [now left|]. intros [H|[x [[] _]]]. assumption.
  - rewrite IH, add_In. split.
    + intros [[H| ->]|[y [Hy He]]]; eauto.
    + intros [H|[y [[<-|Hy] He]]]; eauto.
Qed.

Lemma tags_from_frontmatter_NoDup (l : list string) (acc : list string) :
  NoDup acc -> NoDup (fold_left (fun tags tag => add tags (Str.toLowerCase tag)) l acc).
Proof.
  revert acc; induction l as [|x l IH]; intros acc H; simpl; [assumption|].
  apply IH. now apply add_NoDup.
Qed.

Lemma tags_from_content_In (lowerContent : string) (l : list string) (acc : list string)
    (t : string) :
  In t (fold_left (fun tags tag => if Str.includes lowerContent tag then add tags tag else tags)
                  l acc)
  <-> In t acc \/ (In t l /\ Str.includes lowerContent t = true).
Proof.
  revert acc; induction l as [|x l IH]; intros acc; simpl.
  - split; [now left|]. intros [H|[[] _]]. assumption.
  - rewrite IH. destruct (Str.includes lowerContent x) eqn:E.
    + rewrite add_In. split.
      * intros [[H| ->]|[Hl Hi]]; auto.
      * intros [H|[[<-|Hl] Hi]]; auto.
    + split.
      * intros [H|[Hl Hi]]; auto.
      * intros [H|[[<-|Hl] Hi]]; auto. congruence.
Qed.

Lemma tags_from_content_NoDup (lowerContent : string) (l : list string) (acc : list string) :
  NoDup acc ->
  NoDup (fold_left (fun tags tag => if Str.includes lowerContent tag then add tags tag else tags)
                   l acc).
Proof.
  revert acc; induction l as [|x l IH]; intros acc H; simpl; [assumption|].
  apply IH. destruct (Str.includes lowerContent x); [now apply add_NoDup | assumption].
Qed.

(** X20: the tags of a document hold no tag twice, and they are exactly the
    lower-cased front-matter tags and those of the sixteen fixed tags that
    occur in the lower-cased content. *)
Theorem extractTags_characterised (content : string)
    (frontmatterTags : option (list string)) :
  NoDup (Parser.extractTags content frontmatterTags)
  /\ forall t,
       In t (Parser.extractTags content frontmatterTags)
       <-> (exists l x, frontmatterTags = Some l /\ In x l /\ t = Str.toLowerCase x)
           \/ (In t Parser.klipperTags
               /\ Str.includes (Str.toLowerCase content) t = true).
Proof.
  unfold Parser.extractTags. split.
  - apply tags_from_content_NoDup.
    destruct frontmatterTags as [l|]; [|constructor].
    apply tags_from_frontmatter_NoDup. constructor.
  - intros t. rewrite tags_from_content_In.
    destruct frontmatterTags as [l|].
    + rewrite tags_from_frontmatter_In. split.
      * intros [[[]|[x [Hx He]]]|H]; [left; now exists l, x | now right].
      * intros [[l' [x [E [Hx He]]]]|H]; [|now right].
        inversion E; subst. left. right. now exists x.
    + split.
      * intros [[]|H]. now right.
      * intros [[l' [x [E _]]]|H]; [discriminate | now right].
Qed.

(** X21: the reading time is the least number of minutes that covers the
    word count at 200 words a minute: it is 0 exactly for a document
    without words. *)
Theorem calculateMetadata_reading_time (content : string)
    (headings : list DocumentHeading) (frontmatterTags : option (list string)) :
  let m := Parser.calculateMetadata content headings frontmatterTags in
  (0 <= wordCount m)%Z
  /\ (200 * (readingTime m - 1) < wordCount m <= 200 * readingTime m)%Z
  /\ (readingTime m = 0%Z <-> wordCount m = 0%Z).
Proof.
  cbv zeta. unfold Parser.calculateMetadata. cbn [wordCount readingTime].
  unfold Parser.readingTime_of, Parser.wordCount_of.
  set (n := Z.of_nat _). assert (Hn : (0 <= n)%Z) by (unfold n; lia).
  pose proof (Z.div_mod (n + 199) 200 ltac:(lia)) as Hd.
  pose proof (Z.mod_pos_bound (n + 199) 200 ltac:(lia)) as Hm.
  set (q := ((n + 199) / 200)%Z) in *. clearbody q n.
  set (r := ((n + 199) mod 200)%Z) in *. clearbody r.
  lia.
Qed.

(* ================================================================== *)
(** * Properties of the logger *)

(** X22: a logger whose level is one of the four writes errors always, and
    every entry at least as severe as one it writes; a logger whose level is
    any other string, which the unchecked [LOG_LEVEL] variable allows,
    writes nothing at all, errors included. *)
Theorem shouldLog_by_level (this_level : string) :
  (Logger.LOG_LEVEL_PRIORITY this_level <> None ->
   Logger.shouldLog this_level Logger.ERROR = true
   /\ forall a b,
        Logger.shouldLog this_level a = true ->
        (match Logger.LOG_LEVEL_PRIORITY (Logger.value b),
               Logger.LOG_LEVEL_PRIORITY (Logger.value a) with
         | Some pb, Some pa => (pb <= pa)%Z
         | _, _ => False
         end) ->
        Logger.shouldLog this_level b = true)
  /\ (Logger.LOG_LEVEL_PRIORITY this_level = None ->
      forall l, Logger.shouldLog this_level l = false).
Proof.
  split.
  - intros H. unfold Logger.shouldLog.
    destruct (Logger.LOG_LEVEL_PRIORITY this_level) as [p|] eqn:E; [|contradiction].
    assert (Hp : (0 <= p)%Z).
    { unfold Logger.LOG_LEVEL_PRIORITY in E.
      repeat match type of E with
             | (if ?b then _ else _) = _ => destruct b
             end; inversion E; lia. }
    split.
    + simpl. now apply Z.leb_le.
    + intros a b Ha Hab. destruct a, b; simpl in *;
        apply Z.leb_le in Ha; apply Z.leb_le; lia.
  - intros H l. unfold Logger.shouldLog. rewrite H. now destruct l.
Qed.

Lemma shouldLog_by_level_witness :
  Logger.shouldLog (Logger.configured_level (Some "verbose")) Logger.ERROR = false.
Proof.
  apply (proj2 (shouldLog_by_level (Logger.configured_level (Some "verbose")))).
  reflexivity.
Defined.

(* ================================================================== *)
(** * Properties of the code blocks, the identifier and the anchors *)

Section TextFacts.

Import Regex Server Blocks.

Lemma strip_just (l s s' : string) :
  strip just l s = Some s' -> s = (l ++ s')%string.
Proof.
  revert s; induction l as [|x l IH]; intros s; simpl.
  - intros H; inversion H; reflexivity.
  - destruct s as [|a s]; [discriminate|].
    destruct (just x a) eqn:E; [|discriminate].
    intros H. apply IH in H. unfold just in E. apply Ascii.eqb_eq in E.
    now subst.
Qed.

Lemma run_codeBlockPattern (s rest : string) (c : captures) :
  run Tools.codeBlockPattern s [] accept = Some (rest, c) ->
  exists body, s = ("```" ++ body ++ "```" ++ rest)%string.
Proof.
  unfold Tools.codeBlockPattern, lit. rewrite run_lit_then.
  destruct (strip just "```" s) as [s1|] eqn:E1; [|discriminate].
  apply strip_just in E1. subst s.
  rewrite run_Cat. cbn [run]. intros H.
  destruct (lazy_result _ _ _ H) as [w [t [-> Ht]]].
  cbn beta in Ht. rewrite run_lit_then in Ht.
  destruct (strip just "```" t) as [t1|] eqn:E2; [|discriminate].
  apply strip_just in E2. subst t. cbn [run] in Ht. unfold accept in Ht.
  inversion Ht; subst. now exists w.
Qed.

Lemma match_all_S (fuel : nat) (r : regex) (s : string) :
  Tools.match_all (S fuel) r s
  = match exec r s with
    | None => []
    | Some m =>
        let behind := Tools.drop (Z.to_nat (m_index m) + String.length (m_0 m)) s in
        m_0 m :: Tools.match_all fuel r
                   (match m_0 m with EmptyString => Tools.drop 1 behind | _ => behind end)
    end.
Proof. reflexivity. Qed.


Lemma drop_length (n : nat) (s : string) :
  String.length (Tools.drop n s) = (String.length s - n)%nat.
Proof.
  revert s; induction n as [|n IH]; intros s; simpl.
  - lia.
  - destruct s as [|a s]; simpl; [reflexivity | apply IH].
Qed.

Lemma exec_codeBlockPattern (s : string) (m : Match) :
  exec Tools.codeBlockPattern s = Some m ->
  exists pre body rest,
    s = (pre ++ m_0 m ++ rest)%string /\ m_0 m = ("```" ++ body ++ "```")%string.
Proof.
  unfold exec. intros E.
  destruct (exec_from_result _ _ _ E) as [pre [suf [rest [c [Hs [Hr [H0 _]]]]]]].
  destruct (run_codeBlockPattern _ Hr) as [body Hsuf].
  assert (Hm : m_0 m = ("```" ++ body ++ "```")%string).
  { rewrite H0, Hsuf.
    replace ("```" ++ body ++ "```" ++ rest)%string
      with (("```" ++ body ++ "```") ++ rest)%string
      by (repeat (rewrite !append_assoc; simpl); reflexivity).
    apply taken_append. }
  exists pre, body, rest. split; [|assumption].
  rewrite Hs, Hsuf, Hm. repeat (rewrite !append_assoc; simpl). reflexivity.
Qed.

(** The fuel of [match_all] in [formatConfigResponse] is enough: more of it
    finds no other code blocks. *)
Lemma match_all_codeBlockPattern_fuel (n m : nat) (s : string) :
  (String.length s < n)%nat -> (String.length s < m)%nat ->
  Tools.match_all n Tools.codeBlockPattern s = Tools.match_all m Tools.codeBlockPattern s.
Proof.
  revert m s; induction n as [|n IH]; intros m s Hn Hm; [lia|].
  destruct m as [|m]; [lia|].
  rewrite !match_all_S.
  destruct (exec Tools.codeBlockPattern s) as [x|] eqn:E; [|reflexivity].
  destruct (exec_codeBlockPattern _ E) as [pre [body [rest [Hs H0]]]].
  cbv zeta. f_equal.
  assert (Hlen : (6 <= String.length (m_0 x) <= String.length s)%nat).
  { split.
    - rewrite H0. simpl. rewrite length_append. simpl. lia.
    - rewrite Hs. rewrite !length_append. lia. }
  remember (Z.to_nat (m_index x) + String.length (m_0 x))%nat as k eqn:Hk.
  destruct (m_0 x) as [|a t] eqn:Hm0; [discriminate H0|].
  apply IH; rewrite drop_length; lia.
Qed.



End TextFacts.



(** ** The identifier of a document *)

Lemma replace_char_append (c d : ascii) (a b : string) :
  Str.replace_char c d (a ++ b)
  = (Str.replace_char c d a ++ Str.replace_char c d b)%string.
Proof. induction a as [|x a IH]; simpl; [reflexivity | now rewrite IH]. Qed.

Lemma remove_first_unfold (pattern s : string) :
  Parser.remove_first pattern s
  = match Blocks.strip Regex.just pattern s with
    | Some behind => behind
    | None =>
        match s with
        | EmptyString => EmptyString
        | String a s' => String a (Parser.remove_first pattern s')
        end
    end.
Proof. destruct s; reflexivity. Qed.

Lemma slash_keeps (x y : ascii) :
  y <> "/"%char -> (if Ascii.eqb x "\" then "/"%char else x) = y -> x = y.
Proof.
  intros Hy. destruct (Ascii.eqb x "\"); [|easy]. intros H. now subst.
Qed.

Lemma remove_first_md (a t : string) :
  (forall p q, a <> (p ++ ".md" ++ q)%string) ->
  Parser.remove_first ".md" (Str.replace_char "\" "/" a ++ ".md" ++ t)
  = (Str.replace_char "\" "/" a ++ t)%string.
Proof.
  induction a as [|x a IH]; intros Ha.
  - reflexivity.
  - assert (Ha' : forall p q, a <> (p ++ ".md" ++ q)%string).
    { intros p q E. apply (Ha (String x p) q). simpl. now rewrite E. }
    rewrite remove_first_unfold.
    assert (E : Blocks.strip Regex.just ".md"
                  (Str.replace_char "\" "/" (String x a) ++ ".md" ++ t) = None).
    { simpl. unfold Regex.just at 1.
      destruct (Ascii.eqb _ ".") eqn:Ex; [|reflexivity].
      apply Ascii.eqb_eq, slash_keeps in Ex; [|discriminate].
      destruct a as [|y a]; [reflexivity|]. simpl. unfold Regex.just at 1.
      destruct (Ascii.eqb _ "m") eqn:Ey; [|reflexivity].
      apply Ascii.eqb_eq, slash_keeps in Ey; [|discriminate].
      destruct a as [|z a]; [reflexivity|]. simpl. unfold Regex.just at 1.
      destruct (Ascii.eqb _ "d") eqn:Ez; [|reflexivity].
      apply Ascii.eqb_eq, slash_keeps in Ez; [|discriminate].
      subst. exfalso. now apply (Ha EmptyString a). }
    rewrite E. simpl. f_equal. now apply IH.
Qed.

Lemma substring_behind (p r : string) (n : nat) :
  String.substring (String.length p) n (p ++ r) = String.substring 0 n r.
Proof. induction p as [|x p IH]; simpl; [reflexivity | exact IH]. Qed.

Lemma includes_false (a t : string) :
  t <> EmptyString -> Str.includes a t = false ->
  forall p q, a <> (p ++ t ++ q)%string.
Proof.
  unfold Str.includes. intros Ht H p q E.
  destruct (String.index 0 t a) eqn:Hi; [discriminate|].
  apply (@String.index_correct3 0 (String.length p) t a Hi Ht); [lia|].
  rewrite E, substring_behind. apply substring_0_append.
Qed.

(** X24: the identifier of a document is its relative path with slashes
    for backslashes and without its first [.md]: for a path that holds
    [.md] only at its end that is the path without the extension, and
    otherwise what follows the first [.md] stays, a later extension
    included. *)
Theorem document_id_drops_first_md (a b : string) :
  Str.includes a ".md" = false ->
  Parser.document_id (a ++ ".md" ++ b)
  = (Str.replace_char "\" "/" a ++ Str.replace_char "\" "/" b)%string.
Proof.
  intros Ha. unfold Parser.document_id.
  rewrite !replace_char_append.
  change (Str.replace_char "\" "/" ".md") with ".md".
  apply remove_first_md. apply includes_false; [discriminate | exact Ha].
Qed.

Lemma document_id_drops_first_md_witness :
  Parser.document_id "notes.md.old\Config_Reference.md" = "notes.old/Config_Reference.md".
Proof.
  exact (@document_id_drops_first_md "notes" ".old\Config_Reference.md" eq_refl).
Defined.

(** ** The anchors *)

Ltac every_char a :=
  destruct a as [[] [] [] [] [] [] [] []]; vm_compute; intros;
  try reflexivity; try discriminate.

Lemma kept_lower_char (c : ascii) :
  (Parser.is_word (Str.lower c) || Str.is_space (Str.lower c)
   || Ascii.eqb (Str.lower c) "-") = true ->
  Str.is_space (Str.lower c) = false ->
  is_anchor_char (Str.lower c) = true.
Proof. every_char c. Qed.

Lemma dash_is_anchor_char : is_anchor_char "-" = true.
Proof. reflexivity. Qed.

Lemma dash_runs_anchor_chars (s : string) (in_run : bool) :
  Blocks.all_chars (fun a => Str.is_space a || is_anchor_char a) s ->
  Blocks.all_chars is_anchor_char (Parser.dash_runs in_run s).
Proof.
  revert in_run; induction s as [|a s IH]; intros in_run; simpl; [trivial|].
  intros [Ha Hs]. destruct (Str.is_space a) eqn:E.
  - destruct in_run; [now apply IH|]. simpl. split; [reflexivity | now apply IH].
  - simpl. split; [exact Ha | now apply IH].
Qed.

Lemma keep_word_space_dash_lower (t : string) :
  Blocks.all_chars (fun a => Str.is_space a || is_anchor_char a)
                   (Parser.keep_word_space_dash (Str.toLowerCase t)).
Proof.
  induction t as [|c t IH]; simpl; [trivial|].
  destruct (Parser.is_word (Str.lower c) || Str.is_space (Str.lower c)
            || Ascii.eqb (Str.lower c) "-") eqn:E; [|assumption].
  simpl. split; [|assumption].
  destruct (Str.is_space (Str.lower c)) eqn:Es; [reflexivity|].
  simpl. apply kept_lower_char; [|exact Es]. rewrite Es. exact E.
Qed.

(** X25: the anchor of a heading holds lower-case letters, digits,
    underscores and dashes only. *)
Theorem anchor_of_characters (text : string) :
  Blocks.all_chars is_anchor_char (Parser.anchor_of text).
Proof.
  unfold Parser.anchor_of. apply dash_runs_anchor_chars, keep_word_space_dash_lower.
Qed.

(* ================================================================== *)
(** * Properties of the headings and the title *)

Section HeadingFacts.

Import Regex Server Blocks.

Lemma run_Star (p : ascii -> bool) (s : string) (c : captures) (k : cont) :
  run (Star p) s c k = greedy p s (fun s' => k s' c).
Proof. reflexivity. Qed.

(** What a greedy star consumes is made of its characters. *)
Lemma greedy_prefix (p : ascii -> bool) (s : string)
    (K : string -> option (string * captures)) (res : string * captures) :
  greedy p s K = Some res ->
  exists w t, s = (w ++ t)%string /\ all_chars p w /\ K t = Some res.
Proof.
  induction s as [|a s IH]; simpl.
  - intros H. now exists EmptyString, EmptyString.
  - destruct (p a) eqn:Hp.
    + destruct (greedy p s K) as [r|] eqn:E.
      * intros H; inversion H; subst. destruct (IH eq_refl) as [w [t [-> [Hw Ht]]]].
        exists (String a w), t. simpl. auto.
      * intros H. now exists EmptyString, (String a s).
    + intros H. now exists EmptyString, (String a s).
Qed.

(** A greedy star takes all it can when the rest of the pattern agrees. *)
Lemma greedy_first (p : ascii -> bool) (s : string)
    (K : string -> option (string * captures)) (res : string * captures) :
  K (skip p s) = Some res -> greedy p s K = Some res.
Proof.
  induction s as [|a s IH]; simpl; [trivial|].
  destruct (p a); [|trivial]. intros H. now rewrite (IH H).
Qed.

Lemma run_upTo (n : nat) (x : ascii) (s : string) (c : captures) (k : cont)
    (res : string * captures) :
  run (Parser.upTo n x) s c k = Some res ->
  exists w t,
    s = (w ++ t)%string /\ all_chars (just x) w /\ (String.length w <= n)%nat
    /\ k t c = Some res.
Proof.
  revert s; induction n as [|n IH]; intros s; cbn [Parser.upTo].
  - cbn [run]. intros H. exists EmptyString, s. simpl. auto.
  - rewrite run_Alt, run_Cat, run_Chr.
    destruct s as [|a s1].
    + cbn [run]. intros H. exists EmptyString, EmptyString. simpl. auto with arith.
    + destruct (just x a) eqn:Ha.
      * destruct (run (Parser.upTo n x) s1 c k) as [r|] eqn:E.
        -- intros H; inversion H; subst.
           destruct (IH _ E) as [w [t [-> [Hw [Hl Hk]]]]].
           exists (String a w), t. simpl. repeat split; auto with arith.
        -- cbn [run]. intros H. exists EmptyString, (String a s1). simpl. auto with arith.
      * cbn [run]. intros H. exists EmptyString, (String a s1). simpl. auto with arith.
Qed.

Lemma run_endOfLine (s : string) (c : captures) (res : string * captures) :
  run Parser.endOfLine s c accept = Some res -> res = (s, c).
Proof.
  unfold Parser.endOfLine. rewrite run_Lookahead, run_Alt. cbn [run].
  destruct s as [|a s].
  - unfold accept. intros H; now inversion H.
  - destruct (Parser.is_line_terminator a); [|discriminate].
    unfold accept. intros H; now inversion H.
Qed.

(** A match of the heading pattern: the hashes, white space, and the text
    up to the end of a line. *)
Lemma run_headingRegex (s rest : string) (c : captures) :
  run Parser.headingRegex s [] accept = Some (rest, c) ->
  exists hashes ws txt,
    s = (hashes ++ ws ++ txt ++ rest)%string
    /\ (1 <= String.length hashes <= 6)%nat
    /\ ws <> EmptyString
    /\ txt <> EmptyString /\ all_chars Parser.dot txt
    /\ c = [(2, txt); (1, hashes)]%nat.
Proof.
  unfold Parser.headingRegex.
  rewrite run_Cat, run_Group, run_Cat, run_Chr.
  destruct s as [|a s1]; [discriminate|].
  destruct (just "#" a) eqn:Ha; [|discriminate].
  intros H. apply run_upTo in H.
  destruct H as [w [s2 [-> [Hw [Hl H]]]]].
  replace (String a (w ++ s2)) with (String a w ++ s2)%string in H |- * by reflexivity.
  rewrite taken_append in H.
  rewrite run_Cat, run_Chr in H.
  destruct s2 as [|b s3]; [discriminate|].
  destruct (Str.is_space b) eqn:Hb; [|discriminate].
  rewrite run_Cat, run_Star in H.
  apply greedy_prefix in H. destruct H as [w1 [t [-> [Hw1 H]]]].
  rewrite run_Cat, run_Group, run_Cat, run_Chr in H.
  destruct t as [|d t1]; [discriminate|].
  destruct (Parser.dot d) eqn:Hd; [|discriminate].
  rewrite run_Star in H.
  apply greedy_prefix in H. destruct H as [w2 [t2 [-> [Hw2 H]]]].
  apply run_endOfLine in H. inversion H; subst rest c.
  replace (String d (w2 ++ t2)) with (String d w2 ++ t2)%string by reflexivity.
  rewrite taken_append.
  exists (String a w), (String b w1), (String d w2).
  split; [|split; [|split; [|split; [|split]]]].
  - repeat (rewrite !append_assoc; simpl). reflexivity.
  - simpl. lia.
  - discriminate.
  - discriminate.
  - simpl. auto.
  - reflexivity.
Qed.

Lemma exec_lines_from_unfold (r : regex) (prev : option ascii) (s : string) (i : Z) :
  Parser.exec_lines_from r prev s i
  = match (if Parser.startOfLine prev then run r s [] accept else None) with
    | Some (s', c) => Some {| m_index := i; m_0 := taken s s'; m_groups := c |}
    | None =>
        match s with
        | EmptyString => None
        | String a s' => Parser.exec_lines_from r (Some a) s' (i + 1)%Z
        end
    end.
Proof. destruct s; reflexivity. Qed.

Lemma exec_lines_from_result (r : regex) (s : string) (prev : option ascii) (i : Z)
    (m : Match) :
  Parser.exec_lines_from r prev s i = Some m ->
  exists pre suf rest,
    s = (pre ++ suf)%string
    /\ run r suf [] accept = Some (rest, m_groups m)
    /\ m_0 m = taken suf rest
    /\ m_index m = (i + Z.of_nat (String.length pre))%Z.
Proof.
  revert prev i; induction s as [|a s IH]; intros prev i; rewrite exec_lines_from_unfold.
  - destruct (if Parser.startOfLine prev then run r "" [] accept else None)
      as [[rest c]|] eqn:E; [|discriminate].
    intros H; inversion H; subst.
    destruct (Parser.startOfLine prev); [|discriminate].
    exists EmptyString, EmptyString, rest. simpl. repeat split; [assumption | lia].
  - destruct (if Parser.startOfLine prev then run r (String a s) [] accept else None)
      as [[rest c]|] eqn:E.
    + intros H; inversion H; subst.
      destruct (Parser.startOfLine prev); [|discriminate].
      exists EmptyString, (String a s), rest. simpl. repeat split; [assumption | lia].
    + intros H. destruct (IH _ _ H) as [pre [suf [rest [-> [Hr [H0 Hi]]]]]].
      exists (String a pre), suf, rest. simpl String.length.
      repeat split; [assumption | assumption | lia].
Qed.

(** A match of the heading pattern inside a text. *)
Lemma exec_headingRegex (s : string) (prev : option ascii) (i : Z) (m : Match) :
  Parser.exec_lines_from Parser.headingRegex prev s i = Some m ->
  exists pre hashes ws txt rest,
    s = (pre ++ (hashes ++ ws ++ txt) ++ rest)%string
    /\ m_0 m = (hashes ++ ws ++ txt)%string
    /\ m_index m = (i + Z.of_nat (String.length pre))%Z
    /\ (1 <= String.length hashes <= 6)%nat
    /\ ws <> EmptyString
    /\ txt <> EmptyString /\ all_chars Parser.dot txt
    /\ m_groups m = [(2, txt); (1, hashes)]%nat.
Proof.
  intros H. destruct (exec_lines_from_result _ _ _ _ H) as [pre [suf [rest [-> [Hr [H0 Hi]]]]]].
  destruct (run_headingRegex _ Hr) as [hashes [ws [txt [-> [Hl [Hws [Ht [Hd Hc]]]]]]]].
  exists pre, hashes, ws, txt, rest.
  assert (E : (hashes ++ ws ++ txt ++ rest = (hashes ++ ws ++ txt) ++ rest)%string)
    by (now rewrite !append_assoc).
  rewrite E in *. rewrite taken_append in H0.
  repeat split; try assumption; lia.
Qed.

Lemma all_chars_suffix (p : ascii -> bool) (a b : string) :
  all_chars p (a ++ b) -> all_chars p b.
Proof. intros H. now apply all_chars_append in H. Qed.

Lemma all_chars_trimStart (p : ascii -> bool) (s : string) :
  all_chars p s -> all_chars p (Str.trimStart s).
Proof.
  induction s as [|a s IH]; simpl; [trivial|].
  intros [Ha Hs]. destruct (Str.is_space a); [now apply IH | simpl; auto].
Qed.

Lemma all_chars_trimEnd (p : ascii -> bool) (s : string) :
  all_chars p s -> all_chars p (Str.trimEnd s).
Proof.
  induction s as [|a s IH]; simpl; [trivial|].
  intros [Ha Hs]. specialize (IH Hs).
  destruct (Str.trimEnd s) as [|b t].
  - destruct (Str.is_space a); simpl; auto.
  - simpl. simpl in IH. auto.
Qed.

Lemma trimStart_clean (s : string) :
  match Str.trimStart s with
  | EmptyString => True
  | String c _ => Str.is_space c = false
  end.
Proof.
  induction s as [|a s IH]; simpl; [trivial|].
  destruct (Str.is_space a) eqn:E; [exact IH | exact E].
Qed.

Lemma trimEnd_clean (s : string) :
  match s with EmptyString => True | String c _ => Str.is_space c = false end ->
  match Str.trimEnd s with EmptyString => True | String c _ => Str.is_space c = false end.
Proof.
  destruct s as [|a s]; simpl; [trivial|].
  intros Ha. destruct (Str.trimEnd s); [now rewrite Ha | exact Ha].
Qed.

Lemma trimStart_of_clean (s : string) :
  match s with EmptyString => True | String c _ => Str.is_space c = false end ->
  Str.trimStart s = s.
Proof. destruct s as [|a s]; simpl; [trivial|]. now intros ->. Qed.

Lemma trimEnd_idempotent (s : string) : Str.trimEnd (Str.trimEnd s) = Str.trimEnd s.
Proof.
  induction s as [|a s IH]; simpl; [reflexivity|].
  destruct (Str.trimEnd s) as [|b t] eqn:E.
  - destruct (Str.is_space a) eqn:Ea; simpl; [reflexivity | now rewrite Ea].
  - change (Str.trimEnd (String a (String b t)))
      with (match Str.trimEnd (String b t) with
            | EmptyString => if Str.is_space a then EmptyString else String a EmptyString
            | u => String a u
            end).
    now rewrite IH.
Qed.

Lemma trim_idempotent (s : string) : Str.trim (Str.trim s) = Str.trim s.
Proof.
  unfold Str.trim.
  rewrite (trimStart_of_clean (Str.trimEnd (Str.trimStart s))).
  - apply trimEnd_idempotent.
  - apply trimEnd_clean, trimStart_clean.
Qed.

Lemma headings_from_S (fuel : nat) (prev : option ascii) (s : string) :
  Parser.headings_from (S fuel) prev s
  = match Parser.exec_lines_from Parser.headingRegex prev s 0 with
    | None => []
    | Some m =>
        let lastIndex := (Z.to_nat (m_index m) + String.length (m_0 m))%nat in
        Parser.heading_of m
          ++ Parser.headings_from fuel (Parser.char_before lastIndex prev s)
                                  (Tools.drop lastIndex s)
    end.
Proof. reflexivity. Qed.

(** The fuel of the loop in [extractHeadings] is enough: more of it finds
    no other headings. *)
Lemma headings_from_fuel (n m : nat) (prev : option ascii) (s : string) :
  (String.length s < n)%nat -> (String.length s < m)%nat ->
  Parser.headings_from n prev s = Parser.headings_from m prev s.
Proof.
  revert m prev s; induction n as [|n IH]; intros m prev s Hn Hm; [lia|].
  destruct m as [|m]; [lia|].
  rewrite !headings_from_S.
  destruct (Parser.exec_lines_from Parser.headingRegex prev s 0) as [x|] eqn:E;
    [|reflexivity].
  destruct (exec_headingRegex _ _ _ E)
    as [pre [hashes [ws [txt [rest [Hs [H0 [Hi [Hl _]]]]]]]]].
  cbv zeta. f_equal.
  assert (Hlen : (1 <= String.length (m_0 x) <= String.length s)%nat).
  { rewrite Hs, H0, !length_append. lia. }
  apply IH; rewrite drop_length; lia.
Qed.

Lemma heading_of_In (m : Match) (hashes txt : string) (h : DocumentHeading) :
  m_groups m = [(2, txt); (1, hashes)]%nat ->
  In h (Parser.heading_of m) ->
  h = {| level := Z.of_nat (String.length hashes);
         text := Str.trim txt;
         anchor := Parser.anchor_of (Str.trim txt) |}.
Proof.
  unfold Parser.heading_of, group. intros ->. simpl lookup.
  destruct (negb (truthy_string hashes) || negb (truthy_string txt)); [intros []|].
  intros [<-|[]]. reflexivity.
Qed.

Lemma headings_from_In (fuel : nat) (prev : option ascii) (s : string)
    (h : DocumentHeading) :
  In h (Parser.headings_from fuel prev s) ->
  (1 <= level h <= 6)%Z
  /\ all_chars Parser.dot (text h)
  /\ Str.trim (text h) = text h
  /\ anchor h = Parser.anchor_of (text h).
Proof.
  revert prev s; induction fuel as [|fuel IH]; intros prev s; [intros []|].
  rewrite headings_from_S.
  destruct (Parser.exec_lines_from Parser.headingRegex prev s 0) as [x|] eqn:E;
    [|intros []].
  destruct (exec_headingRegex _ _ _ E)
    as [pre [hashes [ws [txt [rest [Hs [H0 [Hi [Hl [Hws [Ht [Hd Hc]]]]]]]]]]]].
  cbv zeta. rewrite in_app_iff. intros [Hin|Hin]; [|now apply IH in Hin].
  rewrite (@heading_of_In _ _ _ _ Hc Hin). cbn [level text anchor].
  repeat split; try lia.
  - unfold Str.trim. now apply all_chars_trimEnd, all_chars_trimStart.
  - apply trim_idempotent.
Qed.

End HeadingFacts.

(** X26: every heading [extractHeadings] finds has a level from 1 to 6 and
    a text of one line without white space around it, and its anchor is
    the one of that text. *)
Theorem extractHeadings_shape (content : string) (h : DocumentHeading) :
  In h (Parser.extractHeadings content) ->
  (1 <= level h <= 6)%Z
  /\ Blocks.all_chars Parser.dot (text h)
  /\ Str.trim (text h) = text h
  /\ anchor h = Parser.anchor_of (text h).
Proof. apply headings_from_In. Qed.

Lemma extractHeadings_shape_witness :
  (1 <= 2 <= 6)%Z
  /\ Blocks.all_chars Parser.dot "Pin names"
  /\ Str.trim "Pin names" = "Pin names"
  /\ "pin-names" = Parser.anchor_of "Pin names".
Proof.
  apply (@extractHeadings_shape ("intro" ++ Server.NL ++ "##  Pin names " ++ Server.NL)%string
           {| level := 2; text := "Pin names"; anchor := "pin-names" |}).
  vm_compute. left. reflexivity.
Defined.

Section TitleFacts.

Import Regex Server Blocks.

Lemma run_h1Pattern_other (s : string) :
  match s with EmptyString => True | String a _ => a <> "#"%char end ->
  run Parser.h1Pattern s [] accept = None.
Proof.
  unfold Parser.h1Pattern. rewrite run_Cat, run_Chr.
  destruct s as [|a s]; [reflexivity|].
  intros Ha. unfold just. destruct (Ascii.eqb a "#") eqn:E; [|reflexivity].
  now apply Ascii.eqb_eq in E.
Qed.

Lemma exec_lines_from_skip (pre suf : string) (prev : option ascii) (i : Z) :
  all_chars (except "#") pre ->
  match suf with EmptyString => pre = EmptyString | _ => True end ->
  Parser.exec_lines_from Parser.h1Pattern prev (pre ++ suf) i
  = Parser.exec_lines_from Parser.h1Pattern
      (Parser.char_before (String.length pre) prev pre) suf
      (i + Z.of_nat (String.length pre))%Z.
Proof.
  revert prev i; induction pre as [|a pre IH]; intros prev i Hpre Hsuf.
  - simpl. now rewrite Z.add_0_r.
  - destruct suf as [|b suf]; [discriminate|].
    destruct Hpre as [Ha Hpre].
    simpl append. rewrite exec_lines_from_unfold.
    rewrite run_h1Pattern_other.
    + destruct (Parser.startOfLine prev); rewrite (IH (Some a) (i + 1)%Z Hpre I);
        simpl String.length; cbn [Parser.char_before]; f_equal; lia.
    + unfold except in Ha. intros ->. discriminate.
Qed.

Lemma exec_lines_from_none (s : string) (prev : option ascii) (i : Z) :
  all_chars (except "#") s ->
  Parser.exec_lines_from Parser.h1Pattern prev s i = None.
Proof.
  revert prev i; induction s as [|a s IH]; intros prev i Hs;
    rewrite exec_lines_from_unfold.
  - rewrite run_h1Pattern_other by exact I. now destruct (Parser.startOfLine prev).
  - destruct Hs as [Ha Hs]. rewrite run_h1Pattern_other.
    + destruct (Parser.startOfLine prev); now apply IH.
    + unfold except in Ha. intros ->. discriminate.
Qed.

Lemma skip_trimStart (t tail : string) :
  Str.trimStart t <> EmptyString ->
  skip Str.is_space (t ++ tail) = (Str.trimStart t ++ tail)%string.
Proof.
  induction t as [|a t IH]; simpl; [congruence|].
  destruct (Str.is_space a); [exact IH | reflexivity].
Qed.

Lemma skip_all (p : ascii -> bool) (w tail : string) :
  all_chars p w ->
  match tail with EmptyString => True | String a _ => p a = false end ->
  skip p (w ++ tail) = tail.
Proof.
  intros Hw Ht. induction w as [|a w IH]; simpl.
  - destruct tail as [|b tail]; [reflexivity|]. simpl. now rewrite Ht.
  - destruct Hw as [Ha Hw]. rewrite Ha. now apply IH.
Qed.

Lemma run_endOfLine_at (tail : string) (c : captures) :
  line_ends_at tail -> run Parser.endOfLine tail c accept = Some (tail, c).
Proof.
  unfold line_ends_at, Parser.endOfLine. rewrite run_Lookahead, run_Alt. cbn [run].
  destruct tail as [|a tail]; [reflexivity|]. now intros ->.
Qed.

(** The pattern of the title on a line that holds a hash, a space and a
    text that is not blank. *)
Lemma run_h1Pattern_line (t tail : string) :
  all_chars Parser.dot t ->
  Str.trimStart t <> EmptyString ->
  line_ends_at tail ->
  run Parser.h1Pattern ("# " ++ t ++ tail) [] accept
  = Some (tail, [(1%nat, Str.trimStart t)]).
Proof.
  intros Hdot Hne Htail. unfold Parser.h1Pattern.
  change ("# " ++ t ++ tail)%string with (String "#" (String " " (t ++ tail))).
  rewrite run_Cat, run_Chr. change (just "#" "#") with true. cbv iota beta.
  rewrite run_Cat, run_Chr. change (Str.is_space " ") with true. cbv iota beta.
  rewrite run_Cat, run_Star. apply greedy_first.
  rewrite (@skip_trimStart t tail Hne).
  pose proof (@all_chars_trimStart _ _ Hdot) as Hdot'.
  destruct (Str.trimStart t) as [|x t'] eqn:Et; [congruence|].
  destruct Hdot' as [Hx Ht'].
  rewrite run_Cat, run_Group, run_Cat.
  simpl append. rewrite run_Chr, Hx. cbv beta.
  rewrite run_Star. apply greedy_first.
  rewrite skip_all; [|exact Ht'|].
  - rewrite (@run_endOfLine_at tail _ Htail).
    replace (String x (t' ++ tail)) with (String x t' ++ tail)%string by reflexivity.
    now rewrite taken_append.
  - unfold line_ends_at in Htail. destruct tail as [|b tail]; [trivial|].
    unfold Parser.dot. now rewrite Htail.
Qed.

Lemma capitalise_length (s : string) (in_word : bool) :
  String.length (Parser.capitalise in_word s) = String.length s.
Proof.
  revert in_word; induction s as [|a s IH]; intros in_word; simpl;
    [reflexivity | now rewrite IH].
Qed.

Lemma replace_char_length (c d : ascii) (s : string) :
  String.length (Str.replace_char c d s) = String.length s.
Proof. induction s as [|a s IH]; simpl; [reflexivity | now rewrite IH]. Qed.

End TitleFacts.

(** X27: the title of a document is the text of the first line that
    starts with one hash and a space and is not blank behind them, when no
    hash stands before that line: the white space around the text is
    dropped. *)
Theorem extractTitle_first_heading (basename : string -> string -> string)
    (pre t tail filePath : string) :
  Blocks.all_chars (Regex.except "#") pre ->
  at_line_start pre ->
  Blocks.all_chars Parser.dot t ->
  Str.trimStart t <> EmptyString ->
  line_ends_at tail ->
  Parser.extractTitle basename (pre ++ "# " ++ t ++ tail) filePath = Str.trim t.
Proof.
  intros Hpre Hstart Hdot Hne Htail. unfold Parser.extractTitle.
  rewrite exec_lines_from_skip by (exact Hpre || exact I).
  rewrite exec_lines_from_unfold.
  unfold at_line_start in Hstart. rewrite Hstart.
  rewrite (@run_h1Pattern_line t tail Hdot Hne Htail).
  unfold Regex.group. cbn [Regex.m_groups Regex.lookup Nat.eqb].
  destruct (Str.trimStart t) as [|x t'] eqn:Et; [congruence|].
  cbn [truthy_string]. rewrite <- Et. unfold Str.trim.
  now rewrite (@trimStart_of_clean _ (trimStart_clean t)).
Qed.

Lemma extractTitle_first_heading_witness :
  Parser.extractTitle (fun p _ => p)
    ("Welcome" ++ Server.NL ++ "#   Bed Mesh  " ++ Server.NL ++ "text")%string "Bed_Mesh.md"
  = "Bed Mesh".
Proof.
  refine (@extractTitle_first_heading (fun p _ => p)
            ("Welcome" ++ Server.NL)%string "  Bed Mesh  " (Server.NL ++ "text")%string
            "Bed_Mesh.md" _ _ _ _ _).
  - vm_compute. repeat split.
  - reflexivity.
  - vm_compute. repeat split.
  - discriminate.
  - reflexivity.
Defined.

(** X28: a content without any hash has no say in the title, which is then
    made from the file name and is as long as the file name without its
    extension. *)
Theorem extractTitle_from_filename (basename : string -> string -> string)
    (content filePath : string) :
  Blocks.all_chars (Regex.except "#") content ->
  Parser.extractTitle basename content filePath
  = Parser.extractTitle basename EmptyString filePath
  /\ String.length (Parser.extractTitle basename content filePath)
     = String.length (basename filePath ".md").
Proof.
  intros H. unfold Parser.extractTitle.
  rewrite (@exec_lines_from_none content None 0%Z H).
  rewrite (@exec_lines_from_none EmptyString None 0%Z I).
  split; [reflexivity|].
  now rewrite capitalise_length, !replace_char_length.
Qed.

Lemma extractTitle_from_filename_witness :
  Parser.extractTitle (fun _ _ => "bed_mesh-guide") "No heading here." "bed_mesh-guide.md"
  = Parser.extractTitle (fun _ _ => "bed_mesh-guide") "" "bed_mesh-guide.md".
Proof.
  refine (proj1 (@extractTitle_from_filename (fun _ _ => "bed_mesh-guide")
                   "No heading here." "bed_mesh-guide.md" _)).
  vm_compute. repeat split.
Defined.

(* ================================================================== *)
(** * Properties of the resources *)

Lemma remove_first_prefix (pattern s : string) :
  Parser.remove_first pattern (pattern ++ s) = s.
Proof.
  rewrite remove_first_unfold.
  assert (E : Blocks.strip Regex.just pattern (pattern ++ s) = Some s).
  { induction pattern as [|x pattern IH]; simpl; [reflexivity|].
    unfold Regex.just at 1. now rewrite Ascii.eqb_refl. }
  now rewrite E.
Qed.

(** X29: in a store that is keyed by the identifiers of its documents, as
    the parser fills it, every resource that is listed can be read: the
    address it is listed under gives back the content of the document it
    was listed for, whatever the identifier holds; and an address whose
    identifier the store does not know is answered by the NotFoundError
    "Document not found: <identifier>". *)
Theorem listed_resources_can_be_read {L : lunr.Lib} (st : SearchEngine L) :
  (forall d, In d (getAllDocuments st) -> getDocument st (id d) = Some d) ->
  (forall r, In r (Resources.listResources st) ->
     exists d,
       In d (getAllDocuments st)
       /\ Resources.res_name r = title d
       /\ Resources.readResource st (Resources.uri r)
          = Returns {| Resources.c_uri := Resources.uri r;
                       Resources.c_mimeType := "text/markdown";
                       Resources.c_text := content d |})
  /\ (forall i, getDocument st i = None ->
        Resources.readResource st ("klipper://docs/" ++ i)
        = Throws {| name := "NotFoundError";
                    message := ("Document not found: " ++ i)%string;
                    type := NOT_FOUND;
                    context := "ReadResource";
                    details := None |}).
Proof.
  intros Hkeys. split.
  - intros r Hr. unfold Resources.listResources in Hr.
    apply in_map_iff in Hr. destruct Hr as [d [<- Hd]].
    exists d. split; [exact Hd|]. split; [reflexivity|].
    unfold Resources.readResource. cbn [Resources.uri].
    rewrite remove_first_prefix, (Hkeys d Hd). reflexivity.
  - intros i Hi. unfold Resources.readResource.
    rewrite remove_first_prefix, Hi. reflexivity.
Qed.

Lemma listed_resources_can_be_read_witness :
  Resources.readResource Sample.engine "klipper://docs/missing"
  = Throws {| name := "NotFoundError";
              message := "Document not found: missing";
              type := NOT_FOUND;
              context := "ReadResource";
              details := None |}.
Proof.
  refine (proj2 (@listed_resources_can_be_read _ Sample.engine _) "missing" eq_refl).
  intros d [<-|[<-|[<-|[]]]]; reflexivity.
Defined.
